(* ===== verification/_CoqProject ===== *)
-Q . S2P
Prelude.v
Json.v
Contract.v
Models.v
Store.v
Seed.v
Serialize.v
Routing.v
Routes.v
App.v
Schema.v
Config.v
Refinement.v
