(* ===== verification/Prelude.v ===== *)
(** * Camping Fun: a verification development of the camp signup service

    The program (src/server) is a Flask application over SQLAlchemy with
    three tables, [campers], [activities] and [signups], and seven request
    handlers in src/server/routes.py.  A request flows as

      URL routing (Flask, app.py registers the blueprint of routes.py)
        -> handler (routes.py: list_campers, get_camper_by_id,
           create_camper, update_camper, list_activities,
           delete_activity, create_signup, not_found)
        -> model constructors and attribute validators
           (models.py: Camper.validate_name, Camper.validate_age,
           Signup.validate_time, run on every assignment)
        -> session commit or rollback on the store
        -> serialisation of the result (SerializerMixin.to_dict with the
           [serialize_rules] of models.py) and a status code.

    Files, in dependency order (each opens with its own summary):
    - [Prelude]    this header; the [result] type that models a Python
                   computation which returns or raises, its bind and
                   notation (scope [camp_scope]), the monadic loop
                   [foldM] of the seed script, a server run on a
                   sequence of requests ([run_all]), the traces of a
                   contract ([trace]) and the lifting of a one-step
                   forward simulation to traces ([run_all_simulates],
                   a Section whose hypotheses [Refinement] discharges),
                   the hint databases and tactics shared by the
                   components.
    - [Json]       the Python values a JSON request body decodes to and
                   the Python operations the handlers apply to them:
                   truthiness ([not x]), chained comparison against an
                   int literal ([8 <= age <= 18]), [dict.get], [in] and
                   [data[k]], each raising what CPython raises.
    - [Contract]   the contract of the endpoint table of the
                   specification, independent of the code: the store as
                   three finite maps (stdpp's gmap) from ids to rows, the
                   requests of the table, responses abstracted to a
                   status and what the body shows, the step relation
                   [spec_step] (new ids: any id not in use) and its
                   invariant (live references, validated fields).
    - [Models]     models.py: the three rows and the three validators,
                   the constructors [Camper(...)] and [Signup(...)] and
                   the validated attribute assignment of [update_camper],
                   the column affinities and the [__repr__] methods.
    - [Store]      the database: one list of rows per table in rowid
                   order, SQLite's rowid allocation (largest rowid plus
                   one), [Query.get] with SQLAlchemy's coercion of the
                   identity, insertion, update, and the cascade of
                   [Activity.signups] (cascade='all, delete-orphan').
                   The well-formedness invariant [db_wf]: unique
                   positive ids, every stored name, age and time
                   validated (a camper's values and a signup's hour
                   also in the form of their columns), every signup
                   referencing a live
                   camper and a live activity.
    - [Seed]       src/seed.py: the bulk deletes, the activity, camper
                   and signup loops, with the random draws as a
                   parameter (one function per [randint]/[choice] call
                   site), so that every run of the script is an instance.
    - [Serialize]  sqlalchemy_serializer's greedy schema with the
                   [serialize_rules] of models.py, as an executable
                   serialiser with depth fuel; the views of every to_dict
                   call of routes.py.
    - [Routing]    the URL map: one [rule] per [@api_bp.route]
                   decorator, the methods Flask adds (HEAD, OPTIONS), the
                   [int] converter, and werkzeug's matching with its
                   slash handling (leading slashes stripped, a doubled
                   slash merged and redirected with 308).
    - [Routes]     the handlers of routes.py as functions from the store
                   and the request body to a handler outcome (a response
                   and the new store, or a Python exception that escapes
                   the view), with the try/except/rollback structure of
                   the code, and [run_endpoint], the view each rule
                   binds.
    - [App]        Flask's dispatch of a request to the views, the
                   registered 404 handler, the 308, 405 and 500
                   responses Flask and werkzeug produce themselves, and
                   the server as a step relation on the store with its
                   reachability relation.
    - [Schema]     a type language for JSON bodies with an executable
                   checker [typed], the types of the views, and the
                   typing of every body the server sends.
    - [Config]     __init__.py and the main block of app.py: the
                   environment as an association list, python-dotenv's
                   [load_dotenv], [create_app]'s configuration and the
                   script's [app.run].
    - [Refinement] the abstraction of a store to the maps of [Contract],
                   the requests a client sends for the contract's
                   requests (ids printed in decimal, read back by the
                   [int] converter), and the refinement of the contract
                   by [App.handle] on every sequence of requests.

    Theorem groups (claim ids of PROJECT.json in parentheses):
    - invariant: [db_wf] is preserved by every request (C1); each
      request writes only what its view writes: no request creates an
      activity, only the camper views write campers and only POST
      /signups adds signups (C11); the seed script establishes [db_wf]
      for every outcome of its random draws (C21), writes exactly the
      rows its loops describe, with rowids from 1 (C31), and as a run
      prints its five lines, raises nothing and commits those rows
      (C40);
    - functional behaviour of the handlers on every branch, errors
      included: create_camper (C2), delete_activity (C3), update_camper
      (C4), create_signup (C5), the detail view of a camper (C8);
    - error paths and atomicity: a request that fails leaves the store
      unchanged (C7), a repeated DELETE changes nothing (C32), a
      repeated PATCH answers the same and changes nothing (C34);
      Flask's 404, 405 and 500 answers (C13, C14, C6), werkzeug's
      slash handling and 308 redirect (C12), HEAD and OPTIONS (C29); no
      status but 200, 201, 202, 204, 308, 400, 404, 405, 415 and 500 is
      ever answered (C35); PATCH on a body that is not an object (C25);
      bodies that are not JSON, answered by werkzeug before the
      handler's [try:] in every view that reads them (C26); an id that
      is a list or a dict of other than one element, refused by
      [Query.get] before the [try:] (C16);
    - the cascade of delete_activity, exact and counted (C9), after
      which a signup for the deleted activity is refused (C10); rowid
      allocation below 2^63-1 (C18), whose ids are reused once the
      cascade has removed the largest (C24); a signup posted with the
      ids as decimal strings is the one posted with the integers (C36);
    - the serialiser: depth 6 of fuel already gives the fixed views, so
      the fuel 8 of [ser_fuel] is enough (C17); the nesting section 8
      of the specification asks for, in the detail view of a camper
      and in the signup response (C27, C28);
    - liveness: from every well-formed store the empty activity and
      signup tables are reachable, one 204 DELETE per activity (C39);
    - types: from a well-formed store every JSON body has the type of
      its endpoint and status (C38);
    - configuration: the precedence of the process environment, the
      [.env] file and the defaults in [create_app] (C37);
    - validators on integers (C19, C20);
    - refinement: the server implements the contract of the endpoint
      table on every sequence of typed requests whose ids fit 64 bits
      (C22); a larger id is answered 500 (C23); a created camper is
      served at the URL of its id with the body of the 201 (C33), and a
      patched one with the body of the 202 (C30);
    - divergences between the code and the specification, proved as
      theorems about the code (C6, C15, C16, C23, C26 and PROJECT.json
      "findings").

    Fuel and bounds: [ser_fuel] = 8 bounds the depth of the serialiser's
    walk; the deepest object the handlers serialise is a camper with its
    signups and their activities, which needs 6.  [foldM] loops over a
    finite list, so the seed loops need no fuel.

    What is not modelled, and why: the SQLite file, the connection and
    the extension objects of __init__.py ([db.init_app] and
    [migrate.init_app] only wire Flask-SQLAlchemy and Flask-Migrate to
    the application), the search for the [.env] file and its syntax; the JSON
    parser itself (the request body is given as the decoded value, or as
    "not JSON" / "malformed"); two of SQLite's column-affinity
    conversions, the text of a REAL stored in the TEXT column [name] and
    the number read from a numeric-looking TEXT in an INTEGER column (a
    float name is kept as the float; no handler stores text in an
    INTEGER column), while the conversions of integers, integral REALs
    and booleans are modelled ([Models.integer_affinity],
    [Models.text_affinity]); the foreign keys of a signup are stored as
    the rowid they resolved to;
    non-finite floats (Python's json accepts NaN and Infinity: they fail
    every range validator like any out-of-range number, but are not in
    [json]); concurrency (the specification assumes one transaction per
    request, serialised by the store, which is what the step relation of
    [App] models).  Python integers are unbounded: they are [Z].  SQLite
    rowids are 64-bit: [Store.next_rowid] is SQLite's rule below the
    largest rowid 2^63-1, where SQLite switches to a random unused
    rowid, which is not modelled; the theorems on allocation (C18, C24,
    C33) assume the ids below that bound.  Werkzeug's URL matching is
    modelled for the rules of routes.py (no rule overlaps another's
    parts, so its state machine tries them in the order of [url_map]);
    its [\d] matches ASCII digits only in the model. *)

From Stdlib Require Import ZArith.
From stdpp Require Import base list decidable option.

(** ** Computations that return a value or raise *)

(** A Python call either returns a value or raises an exception.  The
    exception type is a parameter: [Json] instantiates it with the
    exceptions the handlers can meet. *)
Inductive result (E A : Type) : Type :=
| Ok (a : A)
| Err (e : E).
Arguments Ok {E A} a.
Arguments Err {E A} e.

(** Sequencing: run [c]; if it returns [a], continue with [k a]; if it
    raises, the exception propagates. *)
Definition rbind {E A B} (c : result E A) (k : A -> result E B) : result E B :=
  match c with Ok a => k a | Err e => Err e end.

Declare Scope camp_scope.
Delimit Scope camp_scope with camp.
Open Scope camp_scope.

Notation "x <- c ;; k" := (rbind c (fun x => k))
  (at level 100, c at next level, right associativity) : camp_scope.
Notation "c ;;; k" := (rbind c (fun _ => k))
  (at level 100, right associativity) : camp_scope.

(** [raise e] and [try c except h]: the two halves of Python's exception
    handling, where [h] sees the exception raised by [c]. *)
Notation "'raise' e" := (Err e) (at level 10, e at level 9) : camp_scope.
Definition try_except {E A} (c : result E A) (h : E -> A) : A :=
  match c with Ok a => a | Err e => h e end.
Notation "'try' c 'except' h" := (try_except c h)
  (at level 10, c at level 100, h at level 200) : camp_scope.

(** [assert_ b e]: [if not b: raise e]. *)
Definition assert_ {E} (b : bool) (e : E) : result E unit :=
  if b then Ok tt else Err e.

Section result_lemmas.
Context {E A B : Type}.

Lemma bind_Ok (a : A) (k : A -> result E B) : (x <- Ok a ;; k x) = k a.
  Proof. reflexivity. Qed.

Lemma bind_Err (e : E) (k : A -> result E B) : (x <- Err e ;; k x) = Err e.
  Proof. reflexivity. Qed.

Lemma bind_Ok_inv (c : result E A) (k : A -> result E B) (b : B) :
    (x <- c ;; k x) = Ok b -> exists a, c = Ok a /\ k a = Ok b.
  Proof. destruct c; simpl; [eauto | discriminate]. Qed.

Lemma bind_Err_inv (c : result E A) (k : A -> result E B) (e : E) :
    (x <- c ;; k x) = Err e -> c = Err e \/ exists a, c = Ok a /\ k a = Err e.
  Proof. destruct c; simpl; eauto. intros [= ->]. auto. Qed.

Lemma rbind_assoc {C} (c : result E A) (f : A -> result E B) (g : B -> result E C) :
    rbind (rbind c f) g = rbind c (fun x => rbind (f x) g).
  Proof. by destruct c. Qed.

Lemma assert_Ok (b : bool) (e : E) : assert_ b e = Ok tt <-> b = true.
  Proof. destruct b; simpl; split; congruence. Qed.

Lemma try_except_Ok (a : A) (h : E -> A) : (try Ok a except h) = a.
  Proof. reflexivity. Qed.

Lemma try_except_Err (e : E) (h : E -> A) : (try Err e except h) = h e.
  Proof. reflexivity. Qed.
End result_lemmas.

(** A [for] loop whose body may raise: the first exception stops it. *)
Fixpoint foldM {E A B} (f : A -> B -> result E A) (l : list B) (a : A) : result E A :=
  match l with
  | [] => Ok a
  | b :: l' => a' <- f a b ;; foldM f l' a'
  end.

(** A loop whose every step, from a state satisfying the invariant for
    the steps done so far, returns a state satisfying it for one step
    more, returns (it does not raise) and ends in the invariant for all
    its steps. *)
Lemma foldM_inv {E A B} (P : nat -> A -> Prop) (f : A -> B -> result E A) (l : list B) :
  (forall n a b, P n a -> b ∈ l -> exists a', f a b = Ok a' /\ P (S n) a') ->
  forall n a, P n a -> exists a', foldM f l a = Ok a' /\ P (n + length l) a'.
Proof.
  intros Hstep. induction l as [|b l IH]; intros n a Ha; simpl.
  - exists a. by rewrite Nat.add_0_r.
  - destruct (Hstep n a b Ha (list_elem_of_here b l)) as (a' & -> & Ha'). simpl.
    destruct (IH ltac:(intros m x y Hx Hy; apply Hstep; [done | by apply list_elem_of_further]) (S n) a' Ha')
      as (a'' & -> & Ha''). exists a''. split; [done|]. by rewrite Nat.add_succ_r.
Qed.

(** A loop over a concatenation runs the second part from where the
    first ended, and stops at the first exception. *)
Lemma foldM_app {E A B} (f : A -> B -> result E A) (l1 l2 : list B) (a : A) :
  foldM f (l1 ++ l2) a = (x <- foldM f l1 a ;; foldM f l2 x).
Proof.
  revert a. induction l1 as [|b l1 IH]; intros a; [done|]. cbn [app foldM].
  destruct (f a b); cbn [rbind]; [apply IH|done].
Qed.

(** A loop over [range(s, s + len)] whose [n]-th step sees the index
    [s + n]: the invariant may depend on the index. *)
Lemma foldM_seq_inv {E A} (P : nat -> A -> Prop) (f : A -> nat -> result E A) s len :
  (forall n a, n < len -> P n a -> exists a', f a (s + n) = Ok a' /\ P (S n) a') ->
  forall a, P 0 a -> exists a', foldM f (seq s len) a = Ok a' /\ P len a'.
Proof.
  revert s P. induction len as [|len IH]; intros s P Hstep a Ha; [by exists a|].
  destruct (Hstep 0 a ltac:(lia) Ha) as (a1 & Hf & Ha1). rewrite Nat.add_0_r in Hf.
  cbn [seq foldM]. rewrite Hf. cbn [rbind].
  apply (IH (S s) (fun n => P (S n))); [|exact Ha1].
  intros n x Hn Hx. replace (S s + n) with (s + S n) by lia. apply Hstep; [lia|exact Hx].
Qed.

(** ** Serving a sequence of requests, and forward simulation

    A server is a step function from a state and a request to a
    response and the next state; a contract is a relation between an
    abstract state, a request, an abstract response and the next
    abstract state.  A forward simulation of the contract by the server,
    one request at a time, through an abstraction of the states, lifts
    to every sequence of requests ([run_all_simulates]). *)
Fixpoint run_all {S Q R} (step : S -> Q -> R * S) (s : S) (qs : list Q) : list R * S :=
  match qs with
  | [] => ([], s)
  | q :: qs' =>
      let '(r, s') := step s q in
      let '(rs, s'') := run_all step s' qs' in
      (r :: rs, s'')
  end.

Inductive trace {A Q R} (spec : A -> Q -> R -> A -> Prop) : A -> list Q -> list R -> A -> Prop :=
| trace_nil a : trace spec a [] [] a
| trace_cons a q r a' qs rs a'' :
    spec a q r a' -> trace spec a' qs rs a'' -> trace spec a (q :: qs) (r :: rs) a''.

Lemma run_all_map {S Q Q' R} (step : S -> Q' -> R * S) (f : Q -> Q') s qs :
  run_all step s (map f qs) = run_all (fun s q => step s (f q)) s qs.
Proof.
  revert s. induction qs as [|q qs IH]; intros s; simpl; [done|].
  destruct (step s (f q)) as [r s']. by rewrite IH.
Qed.

(** An invariant of the contract's steps holds along its traces. *)
Lemma trace_inv {A Q R} (spec : A -> Q -> R -> A -> Prop) (P : A -> Prop) :
  (forall a q r a', spec a q r a' -> P a -> P a') ->
  forall a qs rs a', trace spec a qs rs a' -> P a -> P a'.
Proof. intros Hstep a qs rs a' Htr. induction Htr; eauto. Qed.

Section simulation.
Context {S A Q R R' : Type}.
Context (step : S -> Q -> R * S) (spec : A -> Q -> R' -> A -> Prop) (abs : S -> A).
Context (inv : S -> Prop) (ok : Q -> Prop) (rel : R -> R' -> Prop).
Hypothesis step_inv : forall s q, inv s -> inv (step s q).2.
Hypothesis step_sim : forall s q, inv s -> ok q ->
  exists r', spec (abs s) q r' (abs (step s q).2) /\ rel (step s q).1 r'.

Lemma run_all_simulates s qs :
  inv s -> Forall ok qs ->
  exists rs', trace spec (abs s) qs rs' (abs (run_all step s qs).2) /\
              Forall2 rel (run_all step s qs).1 rs' /\ inv (run_all step s qs).2.
Proof.
  revert s. induction qs as [|q qs IH]; intros s Hs Hok; simpl.
  - exists []. split; [constructor|]. split; [constructor|done].
  - apply Forall_cons_1 in Hok as [Hq Hok].
    destruct (step_sim s q Hs Hq) as (r' & Hspec & Hrel).
    pose proof (step_inv s q Hs) as Hs'.
    destruct (step s q) as [r s']; simpl in *.
    destruct (IH s' Hs' Hok) as (rs' & Htr & Hrs & Hinv).
    destruct (run_all step s' qs) as [rs s'']; simpl in *.
    exists (r' :: rs'). split; [by econstructor|]. split; [by constructor|done].
Qed.
End simulation.

(** ** Automation shared by the components *)

Create HintDb camp discriminated.
Create Rewrite HintDb camp_rw.
#[export] Hint Rewrite @bind_Ok @bind_Err @try_except_Ok @try_except_Err : camp_rw.

(** [res_inv]: split every [x <- c ;; k] = [Ok _] hypothesis into the
    equations of its two halves, as the handlers' proofs need after
    unfolding. *)
Ltac res_inv :=
  repeat match goal with
  | H : rbind _ _ = Ok _ |- _ =>
      let a := fresh "a" in let Ha := fresh "Ha" in
      apply bind_Ok_inv in H as [a [Ha H]]
  | H : Ok _ = Ok _ |- _ => injection H as H
  | H : Ok _ = Err _ |- _ => discriminate H
  | H : Err _ = Ok _ |- _ => discriminate H
  end.

(** ** Generic facts on lists used by the store *)

(** ** Association lists read by their last binding

    A Python dict built from a list of pairs keeps, for a repeated key,
    the value of its last occurrence: [last_binding] folds the list in
    order, each binding of [k] replacing the one before. *)
Section last_binding.
Context {K V : Type} (eqb : K -> K -> bool).

Definition last_binding_step (k : K) (acc : option V) (kv : K * V) : option V :=
  if eqb kv.1 k then Some kv.2 else acc.

(** The fold from any accumulator is the fold from [None], defaulting
    to the accumulator. *)
Lemma fold_last_acc (l : list (K * V)) k acc :
  fold_left (last_binding_step k) l acc =
  match fold_left (last_binding_step k) l None with Some v => Some v | None => acc end.
Proof.
  revert acc. induction l as [|[k' v'] l IH]; intros acc; [done|]. cbn [fold_left].
  rewrite (IH (last_binding_step k acc (k', v'))), (IH (last_binding_step k None (k', v'))).
  destruct (fold_left _ l None); [done|]. unfold last_binding_step; cbn. by destruct (eqb k' k).
Qed.
End last_binding.

Section list_lemmas.
Context {A : Type}.

Lemma Forall_filter_keep (P : A -> Prop) (f : A -> bool) (l : list A) :
    Forall P l -> Forall P (List.filter f l).
  Proof. induction 1 as [|x l Hx _ IH]; simpl; [constructor|]. destruct (f x); auto. Qed.

Lemma Forall_app_single (P : A -> Prop) (l : list A) (x : A) :
    Forall P l -> P x -> Forall P (l ++ [x]).
  Proof. intros Hl Hx. apply Forall_app. split; [exact Hl | constructor; auto]. Qed.

Lemma NoDup_map_filter {B} (f : A -> B) (p : A -> bool) (l : list A) :
    NoDup (map f l) -> NoDup (map f (List.filter p l)).
  Proof.
    induction l as [|x l IH]; simpl; [done|].
    intros [Hx Hl]%list.NoDup_cons. destruct (p x); simpl; [|auto].
    apply list.NoDup_cons. split; [|auto].
    intros Hin. apply Hx. apply list_elem_of_fmap in Hin as (y & -> & Hy).
    apply list_elem_of_fmap. exists y. split; [done|].
    apply list_elem_of_In in Hy. apply list_elem_of_In. by apply filter_In in Hy as [? _].
  Qed.

Lemma elem_of_map_filter {B} (f : A -> B) (p : A -> bool) (l : list A) (y : B) :
    y ∈ map f (List.filter p l) <-> exists x, x ∈ l /\ p x = true /\ y = f x.
  Proof.
    rewrite list_elem_of_fmap. setoid_rewrite list_elem_of_In. setoid_rewrite filter_In.
    naive_solver.
  Qed.

Lemma Forall_map_filter {B} (P : B -> Prop) (f : A -> B) (p : A -> bool) (l : list A) :
    Forall P (map f l) -> Forall P (map f (List.filter p l)).
  Proof.
    rewrite !Forall_forall. setoid_rewrite <- list_elem_of_In.
    intros H y Hy. apply elem_of_map_filter in Hy as (x & Hx & _ & ->).
    apply H, list_elem_of_fmap. eauto.
  Qed.

Lemma length_filter_split (p : A -> bool) (l : list A) :
    length l = length (List.filter (fun x => negb (p x)) l) + length (List.filter p l).
  Proof. induction l as [|x l IH]; simpl; [done|]. destruct (p x); simpl; lia. Qed.
Lemma filter_sublist (p : A -> bool) (l : list A) : List.filter p l `sublist_of` l.
  Proof. induction l as [|x l IH]; simpl; [constructor|]. destruct (p x); by constructor. Qed.
Lemma NoDup_map_eq {B} (f : A -> B) (l : list A) x y :
    NoDup (map f l) -> x ∈ l -> y ∈ l -> f x = f y -> x = y.
  Proof.
    induction l as [|z l IH]; simpl; [by intros _ ?%not_elem_of_nil|].
    intros [Hz Hl]%list.NoDup_cons Hx Hy Hf. rewrite elem_of_cons in Hx, Hy.
    destruct Hx as [->|Hx], Hy as [->|Hy]; auto; destruct Hz; apply list_elem_of_fmap;
      [exists y|exists x]; auto.
  Qed.

Lemma find_filter_weaken (p q : A -> bool) (l : list A) :
    (forall x, p x = true -> q x = true) -> List.find p (List.filter q l) = List.find p l.
  Proof.
    intros H. induction l as [|x l IH]; simpl; [done|].
    destruct (q x) eqn:Hq, (p x) eqn:Hp; simpl; rewrite ?Hp; try done.
    by rewrite (H x Hp) in Hq.
  Qed.

  (** [find] skips a prefix none of whose elements satisfies the test. *)
Lemma find_app_skip (p : A -> bool) (l1 l2 : list A) :
    (forall x, In x l1 -> p x = false) -> List.find p (l1 ++ l2) = List.find p l2.
  Proof.
    intros H. induction l1 as [|x l1 IH]; [done|]. cbn [app List.find].
    rewrite (H x (or_introl eq_refl)). apply IH. intros y Hy. apply H. by right.
  Qed.
End list_lemmas.

#[export] Hint Resolve Forall_filter_keep Forall_app_single NoDup_map_filter
  Forall_map_filter : camp.
