(* ===== verification/Json.v ===== *)
(** * Python values of a decoded JSON body, and the Python operations the
    handlers apply to them

    [request.get_json()] hands routes.py the Python value of the body:
    [None], [bool], [int], [float], [str], [list] or [dict].  The handlers
    and validators then apply [not x], [lo <= x <= hi], [data.get(k)],
    [k in data] and [data[k]] to such values; each is modelled here with
    the exception CPython raises where it raises.  A [dict] decoded by
    Python's json module keeps the last of duplicated keys: [obj_get]
    looks up the last binding. *)

From Stdlib Require Import ZArith QArith String Ascii.
From stdpp Require Import base list strings.
From S2P Require Import Prelude.

(** The exceptions a request can raise on its way through the handlers. *)
Inductive py_exc :=
| AssertionError        (** raised by the validators of models.py *)
| TypeError             (** an operator applied to an operand of the wrong type *)
| AttributeError        (** [x.get] on a value that is not a dict *)
| KeyError              (** [d[k]] for a key the dict lacks *)
| IndexError            (** [seq[i]] out of range *)
| DBAPIError            (** sqlite3 refuses to bind a parameter at flush *)
| InvalidRequestError   (** SQLAlchemy: an identity of the wrong shape *)
| HTTPError (code : Z). (** a werkzeug HTTPException, e.g. from get_json *)

Abbreviation pyres := (result py_exc).

Inductive json :=
| JNull
| JBool (b : bool)
| JInt (n : Z)
| JFloat (q : Q)
| JStr (s : string)
| JArr (l : list json)
| JObj (kvs : list (string * json)).

(** ** Truthiness: [bool(x)] as [if not x] evaluates it *)
Definition truthy (v : json) : bool :=
  match v with
  | JNull => false
  | JBool b => b
  | JInt n => negb (n =? 0)%Z
  | JFloat q => negb (Qeq_bool q 0)
  | JStr s => negb (String.eqb s "")
  | JArr l => match l with [] => false | _ => true end
  | JObj kvs => match kvs with [] => false | _ => true end
  end.

(** ** Order comparison with an [int] literal

    [bool] is a subclass of [int] ([True == 1]), [int] and [float] compare
    exactly; an int compared with [None], a [str], a [list] or a [dict]
    raises TypeError. *)
Definition as_number (v : json) : option Q :=
  match v with
  | JBool b => Some (inject_Z (Z.b2z b))
  | JInt n => Some (inject_Z n)
  | JFloat q => Some q
  | _ => None
  end.

(** [lo <= v] and [v <= hi] for an int literal [lo] or [hi]. *)
Definition int_le_py (lo : Z) (v : json) : pyres bool :=
  match as_number v with
  | Some q => Ok (Qle_bool (inject_Z lo) q)
  | None => raise TypeError
  end.

Definition py_le_int (v : json) (hi : Z) : pyres bool :=
  match as_number v with
  | Some q => Ok (Qle_bool q (inject_Z hi))
  | None => raise TypeError
  end.

(** The chained comparison [lo <= v <= hi] is [lo <= v and v <= hi]
    with [v] evaluated once; the second comparison runs only when the
    first holds. *)
Definition chain_le (lo : Z) (v : json) (hi : Z) : pyres bool :=
  b <- int_le_py lo v ;;
  if b then py_le_int v hi else Ok false.

(** ** Dict access: [data.get(k)], [k in data], [data[k]] *)
Definition obj_get (kvs : list (string * json)) (k : string) : option json :=
  fold_left (fun acc kv => if String.eqb kv.1 k then Some kv.2 else acc) kvs None.

(** [data.get(k)]: [None] for a missing key; only a dict has [get]. *)
Definition py_get (data : json) (k : string) : pyres json :=
  match data with
  | JObj kvs => Ok (default JNull (obj_get kvs k))
  | _ => raise AttributeError
  end.

(** [needle in hay] for two strings: substring search. *)
Fixpoint str_contains (needle hay : string) : bool :=
  String.prefix needle hay ||
  match hay with
  | EmptyString => false
  | String _ hay' => str_contains needle hay'
  end.

Definition is_str (s : string) (v : json) : bool :=
  match v with JStr s' => String.eqb s' s | _ => false end.

(** [k in data] for a string [k]: key membership for a dict, element
    equality for a list (only the string [k] equals [k]), substring for
    a string, TypeError for [None], numbers and booleans. *)
Definition py_in (k : string) (data : json) : pyres bool :=
  match data with
  | JObj kvs => Ok (bool_decide (is_Some (obj_get kvs k)))
  | JArr l => Ok (existsb (is_str k) l)
  | JStr s => Ok (str_contains k s)
  | _ => raise TypeError
  end.

(** [data[k]] for a string [k]: a list or a string index must be an
    int, and [None] and numbers are not subscriptable. *)
Definition py_getitem (data : json) (k : string) : pyres json :=
  match data with
  | JObj kvs => match obj_get kvs k with Some v => Ok v | None => raise KeyError end
  | _ => raise TypeError
  end.

(** ** What sqlite3 can bind as a parameter

    [None], [bool], [int] within 64 bits, [float] and [str] bind; a
    [list] or a [dict] does not, and an int outside 64 bits raises
    OverflowError; SQLAlchemy wraps both at flush. *)
Definition sqlite_bindable (v : json) : bool :=
  match v with
  | JInt n => bool_decide (- 2 ^ 63 <= n < 2 ^ 63)%Z
  | JArr _ | JObj _ => false
  | _ => true
  end.

(** ** The decimal text of an integer ([str(n)], SQLite's [%lld]) *)

(** The decimal digits of [n], least significant first; [fuel] bounds
    the number of digits. *)
Fixpoint dec_rev (fuel : nat) (n : N) : list N :=
  match fuel with
  | O => []
  | S f => (n mod 10)%N :: (if (n <? 10)%N then [] else dec_rev f (n / 10))
  end.

Definition digit_char (d : N) : ascii := ascii_of_N (48 + d).

Definition str_of_digits (ds : list N) : string := string_of_list_ascii (map digit_char ds).

(** [n < 2 ^ size n <= 10 ^ size n], so [S (size n)] digits are
    enough. *)
Definition dec_string (n : N) : string :=
  str_of_digits (rev (dec_rev (S (N.to_nat (N.size n))) n)).

(** The value of a list of decimal digits, most significant first. *)
Definition horner (ds : list N) (acc : Z) : Z :=
  fold_left (fun a d => a * 10 + Z.of_N d)%Z ds acc.

Definition int_text (n : Z) : string :=
  if (n <? 0)%Z then String "-" (dec_string (Z.to_N (- n))) else dec_string (Z.to_N n).

(** ** Lemmas *)

Lemma obj_get_fold_acc (kvs : list (string * json)) k acc :
  fold_left (fun acc kv => if String.eqb kv.1 k then Some kv.2 else acc) kvs acc =
  match obj_get kvs k with Some v => Some v | None => acc end.
Proof. apply (fold_last_acc String.eqb). Qed.

Lemma obj_get_app (kvs1 kvs2 : list (string * json)) k :
  obj_get (kvs1 ++ kvs2) k =
  match obj_get kvs2 k with Some v => Some v | None => obj_get kvs1 k end.
Proof. unfold obj_get at 1. by rewrite fold_left_app, obj_get_fold_acc. Qed.

Lemma obj_get_cons_last kvs k v :
  obj_get (kvs ++ [(k, v)]) k = Some v.
Proof. rewrite obj_get_app. unfold obj_get at 1. cbn [fold_left fst snd]. by rewrite String.eqb_refl. Qed.

(** The chained comparison succeeds exactly on numbers and then decides
    the interval. *)
Lemma chain_le_number lo v hi q :
  as_number v = Some q ->
  chain_le lo v hi = Ok (Qle_bool (inject_Z lo) q && Qle_bool q (inject_Z hi)).
Proof.
  intros Hq. unfold chain_le, int_le_py, py_le_int. rewrite Hq. simpl.
  by destruct (Qle_bool (inject_Z lo) q).
Qed.

Lemma chain_le_not_number lo v hi :
  as_number v = None -> chain_le lo v hi = raise TypeError.
Proof. intros Hq. unfold chain_le, int_le_py. by rewrite Hq. Qed.

(** On an [int] the comparison is the integer interval test. *)
Lemma chain_le_int lo n hi :
  chain_le lo (JInt n) hi = Ok ((lo <=? n) && (n <=? hi))%Z.
Proof.
  rewrite (chain_le_number lo (JInt n) hi (inject_Z n)) by done.
  f_equal. f_equal; apply eq_true_iff_eq;
    rewrite Qle_bool_iff, <- Zle_Qle; symmetry; apply Z.leb_le.
Qed.

Lemma py_get_obj kvs k : py_get (JObj kvs) k = Ok (default JNull (obj_get kvs k)).
Proof. reflexivity. Qed.

#[export] Hint Rewrite chain_le_int py_get_obj : camp_rw.

(** [seq[i]] for a Python list with a non-negative index. *)
Definition py_index {A} (l : list A) (i : nat) : pyres A :=
  match nth_error l i with Some x => Ok x | None => raise IndexError end.

Lemma py_index_lt {A} (l : list A) i :
  (i < length l)%nat -> exists x, py_index l i = Ok x /\ x ∈ l.
Proof.
  intros Hi. unfold py_index. destruct (nth_error l i) as [x|] eqn:E.
  - exists x. split; [done|]. apply list_elem_of_In. by eapply nth_error_In.
  - apply nth_error_None in E. lia.
Qed.

Lemma dec_rev_digits f n : Forall (fun d => d < 10)%N (dec_rev f n).
Proof.
  revert n. induction f as [|f IH]; intros n; simpl; [constructor|].
  constructor; [apply N.mod_lt; lia|]. destruct (n <? 10)%N; [constructor|apply IH].
Qed.

Lemma horner_rev_dec f n : (n < 10 ^ N.of_nat f)%N -> horner (rev (dec_rev f n)) 0 = Z.of_N n.
Proof.
  revert n. induction f as [|f IH]; intros n Hn; simpl.
  - simpl in Hn. unfold horner; simpl. lia.
  - pose proof (N.div_mod n 10 ltac:(lia)) as Hdm. pose proof (N.mod_lt n 10 ltac:(lia)).
    destruct (N.ltb_spec n 10) as [Hlt|Hge].
    + unfold horner; simpl. rewrite N.mod_small by exact Hlt. lia.
    + unfold horner. rewrite fold_left_app. fold (horner (rev (dec_rev f (n / 10))) 0).
      rewrite IH; simpl.
      * lia.
      * apply N.Div0.div_lt_upper_bound.
        rewrite Nat2N.inj_succ, N.pow_succ_r' in Hn. exact Hn.
Qed.

Lemma dec_string_fuel n : (n < 10 ^ N.of_nat (S (N.to_nat (N.size n))))%N.
Proof.
  rewrite Nat2N.inj_succ, N2Nat.id. pose proof (N.size_gt n) as Hs.
  assert (2 ^ N.size n <= 10 ^ N.size n)%N by (apply N.pow_le_mono_l; lia).
  rewrite N.pow_succ_r'. lia.
Qed.

Lemma dec_string_nonempty n : dec_string n <> EmptyString.
Proof.
  unfold dec_string, str_of_digits. simpl.
  destruct (n <? 10)%N; simpl; [done|].
  rewrite map_app. simpl. intros H.
  destruct (map digit_char (rev _)); discriminate.
Qed.

Lemma int_text_nonempty n : int_text n <> EmptyString.
Proof. unfold int_text. destruct (n <? 0)%Z; [done|apply dec_string_nonempty]. Qed.
