(* ===== verification/Contract.v ===== *)
(** * The contract of the endpoint table

    What the service promises its clients, independent of Flask and
    SQLAlchemy: the store as three finite maps from ids to rows, the
    requests of the endpoint table as an inductive type, and the
    behaviour of each request as a step relation [spec_step] from a
    state, a request and a response to the next state.  Ids of new rows
    are chosen by the store: the contract only asks for an id not in use
    (the relation is not deterministic).  Responses are abstracted to
    their status and to what their body shows: the uniform 400 body, an
    error message, an object with some fields, a list of some length, or
    nothing.

    The contract covers the requests a client of the table sends with
    typed fields (names are strings, ages, times and ids integers), each
    field present or absent; what the code does on other bodies is the
    subject of the theorems of [Routes] and [App].  [Refinement] proves
    that [App.handle] implements this contract.

    [spec_inv] is the invariant of the specification (every signup
    references a live camper and a live activity, names are non-empty
    strings, ages and hours integers in range), and [spec_step]
    preserves it. *)

From Stdlib Require Import ZArith String Ascii.
From stdpp Require Import base gmap list strings.
From S2P Require Import Prelude Json.

(** ** States *)

Record acamper := ACamper { ac_name : json; ac_age : json }.
Record aactivity := AActivity { aa_name : json; aa_difficulty : json }.
Record asignup := ASignup { as_time : json; as_camper : Z; as_activity : Z }.

Record astate := AState {
  a_campers : gmap Z acamper;
  a_activities : gmap Z aactivity;
  a_signups : gmap Z asignup
}.

(** ** Requests and responses *)

Inductive areq :=
| AListCampers
| AGetCamper (id : N)
| ACreateCamper (name : option string) (age : option Z)
| AUpdateCamper (id : N) (name : option string) (age : option Z)
| AListActivities
| ADeleteActivity (id : N)
| ACreateSignup (camper_id activity_id time : option Z)
| AUnmatched (path : list string).

Inductive abody :=
| AEmpty
| AErrors
| AError (msg : string)
| AEntity (fields : list (string * json))
| ARows (n : nat).

Record aresp := AResp { ar_status : Z; ar_body : abody }.

(** ** Validation rules (spec.md §4.1) *)

Definition name_valid (s : string) : bool := negb (String.eqb s "").
Definition age_valid (n : Z) : bool := ((8 <=? n) && (n <=? 18))%Z.
Definition time_valid (t : Z) : bool := ((0 <=? t) && (t <=? 23))%Z.

Definition camper_input_ok (name : option string) (age : option Z) : bool :=
  match name, age with
  | Some s, Some n => name_valid s && age_valid n
  | _, _ => false
  end.

(** A partial update: every supplied field is validated, the others are
    kept. *)
Definition patch_input_ok (name : option string) (age : option Z) : bool :=
  default true (name_valid <$> name) && default true (age_valid <$> age).

Definition apatch (c : acamper) (name : option string) (age : option Z) : acamper :=
  ACamper (default (ac_name c) (JStr <$> name)) (default (ac_age c) (JInt <$> age)).

Definition signup_input_ok (σ : astate) (cid aid t : option Z) : bool :=
  match cid, aid, t with
  | Some c, Some a, Some t =>
      bool_decide (is_Some (a_campers σ !! c)) && bool_decide (is_Some (a_activities σ !! a))
      && time_valid t
  | _, _, _ => false
  end.

(** ** The routes of the table (spec.md §4.3) *)

Definition is_digit (c : ascii) : bool :=
  let n := nat_of_ascii c in (48 <=? n) && (n <=? 57).

Definition is_decimal (s : string) : bool :=
  match s with
  | EmptyString => false
  | _ => forallb is_digit (list_ascii_of_string s)
  end.

Definition spec_path (p : list string) : bool :=
  match p with
  | [r] => String.eqb r "campers" || String.eqb r "activities" || String.eqb r "signups"
  | [r; s] => (String.eqb r "campers" || String.eqb r "activities") && is_decimal s
  | _ => false
  end.

(** ** The step relation *)

Definition camper_fields (i : Z) (c : acamper) : list (string * json) :=
  [("id", JInt i); ("name", ac_name c); ("age", ac_age c)]%string.

Definition signup_fields (i : Z) (s : asignup) : list (string * json) :=
  [("id", JInt i); ("time", as_time s); ("camper_id", JInt (as_camper s));
   ("activity_id", JInt (as_activity s))]%string.

Definition set_campers (σ : astate) (m : gmap Z acamper) : astate :=
  AState m (a_activities σ) (a_signups σ).

Definition set_signups (σ : astate) (m : gmap Z asignup) : astate :=
  AState (a_campers σ) (a_activities σ) m.

(** Deleting an activity deletes its signups in the same transaction. *)
Definition delete_activity_with_signups (σ : astate) (id : Z) : astate :=
  AState (a_campers σ) (delete id (a_activities σ))
         (filter (fun '(_, s) => as_activity s <> id) (a_signups σ)).

Definition validation_errors : aresp := AResp 400 AErrors.

Inductive spec_step : astate -> areq -> aresp -> astate -> Prop :=
| SListCampers σ :
    spec_step σ AListCampers (AResp 200 (ARows (size (a_campers σ)))) σ
| SGetCamper σ id c :
    a_campers σ !! Z.of_N id = Some c ->
    spec_step σ (AGetCamper id) (AResp 200 (AEntity (camper_fields (Z.of_N id) c))) σ
| SGetCamperMissing σ id :
    a_campers σ !! Z.of_N id = None ->
    spec_step σ (AGetCamper id) (AResp 404 (AError "Camper not found")) σ
| SCreateCamper σ s n i :
    camper_input_ok (Some s) (Some n) = true -> a_campers σ !! i = None ->
    spec_step σ (ACreateCamper (Some s) (Some n))
      (AResp 201 (AEntity (camper_fields i (ACamper (JStr s) (JInt n)))))
      (set_campers σ (<[i := ACamper (JStr s) (JInt n)]> (a_campers σ)))
| SCreateCamperInvalid σ name age :
    camper_input_ok name age = false ->
    spec_step σ (ACreateCamper name age) validation_errors σ
| SUpdateCamper σ id c name age :
    a_campers σ !! Z.of_N id = Some c -> patch_input_ok name age = true ->
    spec_step σ (AUpdateCamper id name age)
      (AResp 202 (AEntity (camper_fields (Z.of_N id) (apatch c name age))))
      (set_campers σ (<[Z.of_N id := apatch c name age]> (a_campers σ)))
| SUpdateCamperInvalid σ id c name age :
    a_campers σ !! Z.of_N id = Some c -> patch_input_ok name age = false ->
    spec_step σ (AUpdateCamper id name age) validation_errors σ
| SUpdateCamperMissing σ id name age :
    a_campers σ !! Z.of_N id = None ->
    spec_step σ (AUpdateCamper id name age) (AResp 404 (AError "Camper not found")) σ
| SListActivities σ :
    spec_step σ AListActivities (AResp 200 (ARows (size (a_activities σ)))) σ
| SDeleteActivity σ id a :
    a_activities σ !! Z.of_N id = Some a ->
    spec_step σ (ADeleteActivity id) (AResp 204 AEmpty)
      (delete_activity_with_signups σ (Z.of_N id))
| SDeleteActivityMissing σ id :
    a_activities σ !! Z.of_N id = None ->
    spec_step σ (ADeleteActivity id) (AResp 404 (AError "Activity not found")) σ
| SCreateSignup σ c a t i :
    signup_input_ok σ (Some c) (Some a) (Some t) = true -> a_signups σ !! i = None ->
    spec_step σ (ACreateSignup (Some c) (Some a) (Some t))
      (AResp 201 (AEntity (signup_fields i (ASignup (JInt t) c a))))
      (set_signups σ (<[i := ASignup (JInt t) c a]> (a_signups σ)))
| SCreateSignupInvalid σ c a t :
    signup_input_ok σ c a t = false ->
    spec_step σ (ACreateSignup c a t) validation_errors σ
| SUnmatched σ p :
    spec_path p = false ->
    spec_step σ (AUnmatched p) (AResp 404 (AError "Resource not found")) σ.

(** A sequence of requests and the responses the contract allows. *)
Definition spec_trace : astate -> list areq -> list aresp -> astate -> Prop := trace spec_step.

(** ** The invariant of the specification (spec.md §3) *)

Definition json_int_in (lo hi : Z) (v : json) : bool :=
  match v with JInt n => ((lo <=? n) && (n <=? hi))%Z | _ => false end.

Definition acamper_ok (c : acamper) : Prop :=
  (exists s, ac_name c = JStr s /\ name_valid s = true) /\ json_int_in 8 18 (ac_age c) = true.

Definition asignup_ok (σ : astate) (s : asignup) : Prop :=
  json_int_in 0 23 (as_time s) = true /\
  is_Some (a_campers σ !! as_camper s) /\ is_Some (a_activities σ !! as_activity s).

Definition spec_inv (σ : astate) : Prop :=
  map_Forall (fun _ => acamper_ok) (a_campers σ) /\
  map_Forall (fun _ => asignup_ok σ) (a_signups σ).

(** A path of the table's kind: no empty segment, so no leading,
    doubled or trailing slash, which the table does not speak of. *)
Definition path_clean (p : list string) : bool := forallb (fun s => negb (String.eqb s "")) p.

(** Requests of the type that name a route of the table are not
    "unmatched", and an unmatched path is one of the table's kind. *)
Definition areq_wf (a : areq) : bool :=
  match a with AUnmatched p => negb (spec_path p) && path_clean p | _ => true end.

(** ** The contract is consistent *)

(** Every well-formed request has an answer in every state: a fresh id
    always exists. *)
Lemma spec_step_total σ a : areq_wf a = true -> exists r σ', spec_step σ a r σ'.
Proof.
  intros Hwf. destruct a as [|id|name age|id name age| |id|c a t|p].
  - eexists _, _. constructor.
  - destruct (a_campers σ !! Z.of_N id) eqn:H; eexists _, _; by econstructor.
  - destruct (camper_input_ok name age) eqn:Hok; [|eexists _, _; by constructor].
    destruct name as [s|], age as [n|]; try discriminate.
    pose proof (is_fresh (dom (a_campers σ))) as Hf. apply not_elem_of_dom in Hf.
    eexists _, _. by constructor.
  - destruct (a_campers σ !! Z.of_N id) as [c|] eqn:H; [|eexists _, _; by constructor].
    destruct (patch_input_ok name age) eqn:Hok; eexists _, _; by econstructor.
  - eexists _, _. constructor.
  - destruct (a_activities σ !! Z.of_N id) eqn:H; eexists _, _; by econstructor.
  - destruct (signup_input_ok σ c a t) eqn:Hok; [|eexists _, _; by constructor].
    destruct c, a, t; try discriminate.
    pose proof (is_fresh (dom (a_signups σ))) as Hf. apply not_elem_of_dom in Hf.
    eexists _, _. by constructor.
  - apply andb_true_iff in Hwf as [Hwf%negb_true_iff _]. eexists _, _. by constructor.
Qed.

(** A signup stays valid when the rows it references stay. *)
Lemma asignup_ok_mono σ σ' s :
  (is_Some (a_campers σ !! as_camper s) -> is_Some (a_campers σ' !! as_camper s)) ->
  (is_Some (a_activities σ !! as_activity s) -> is_Some (a_activities σ' !! as_activity s)) ->
  asignup_ok σ s -> asignup_ok σ' s.
Proof. intros Hc Ha (Ht & Hc' & Ha'). split; [done|]. split; auto. Qed.

Lemma json_int_in_int lo hi n : json_int_in lo hi (JInt n) = ((lo <=? n) && (n <=? hi))%Z.
Proof. done. Qed.

Lemma acamper_ok_patch c name age :
  acamper_ok c -> patch_input_ok name age = true -> acamper_ok (apatch c name age).
Proof.
  intros [Hn Ha] [Hn' Ha']%andb_true_iff. split.
  - destruct name as [s|]; simpl in *; [by exists s|exact Hn].
  - destruct age as [n|]; simpl in *; [exact Ha'|exact Ha].
Qed.

(** The specification keeps its invariant: the rows a request stores
    are valid, updates re-validate the supplied fields, and the cascade
    removes every signup of a deleted activity. *)
Lemma spec_step_inv σ a r σ' : spec_step σ a r σ' -> spec_inv σ -> spec_inv σ'.
Proof.
  intros Hs [Hc Hsg]. destruct Hs as [| | |σ s n i Hok Hi| |σ id c name age Hc0 Hok| | | |σ id a0 Ha0
                                     | |σ c a t i Hok Hi| |]; try (split; assumption).
  - apply andb_true_iff in Hok as [Hn Ha]. split.
    + apply map_Forall_insert_2; [|exact Hc]. split; [by exists s|exact Ha].
    + eapply map_Forall_impl; [exact Hsg|]. intros k s'. apply asignup_ok_mono; [|done].
      simpl. rewrite lookup_insert_is_Some'. by right.
  - split.
    + apply map_Forall_insert_2; [|exact Hc]. apply acamper_ok_patch; [exact (Hc _ _ Hc0)|exact Hok].
    + eapply map_Forall_impl; [exact Hsg|]. intros k s'. apply asignup_ok_mono; [|done].
      simpl. rewrite lookup_insert_is_Some'. by right.
  - split; [exact Hc|]. intros k s' [Hk Hne]%map_lookup_filter_Some.
    apply (asignup_ok_mono σ); [done| |exact (Hsg _ _ Hk)].
    simpl. by rewrite lookup_delete_ne by congruence.
  - apply andb_true_iff in Hok as [[Hcs Has]%andb_true_iff Ht].
    apply bool_decide_eq_true in Hcs, Has. split; [exact Hc|].
    apply map_Forall_insert_2; [|exact Hsg]. split; [exact Ht|]. split; assumption.
Qed.

(** Along a trace of the contract, the invariant holds in every state. *)
Lemma spec_trace_inv σ rs_a rs_r σ' : spec_trace σ rs_a rs_r σ' -> spec_inv σ -> spec_inv σ'.
Proof. apply trace_inv, spec_step_inv. Qed.
