(* ===== verification/Models.v ===== *)
(** * models.py: rows, validators, constructors

    The three mapped classes of models.py as records, one Module each so
    that the field names are the column names of the code ([Camper.id],
    [Camper.name], [Signup.time], ...).  The [@validates] hooks run on
    every assignment of their attribute: [validate_name], [validate_age]
    and [validate_time] return the value to store or raise
    AssertionError, and raise TypeError where Python's comparison does.
    The declarative constructor of SQLAlchemy assigns the keyword
    arguments in the order of the call, so [Camper(name=..., age=...)]
    validates the name first; [Camper_init] and [Signup_init] model the
    two constructor calls of routes.py.

    SQLite stores a value in the form of its column's affinity
    ([integer_affinity], [text_affinity], [stored_camper]).  A stored
    row also needs its values bindable by sqlite3 at flush:
    [row_name_ok], [row_age_ok] and [row_time_ok] are the conditions a
    committed value satisfies, used by the store invariant.  The
    [__repr__] methods are rendered by [camper_repr], [activity_repr]
    and [signup_repr]. *)

From Stdlib Require Import ZArith QArith String Ascii.
From stdpp Require Import base list strings.
From S2P Require Import Prelude Json.

(** models.py:9-17.  [signups] is a relationship, computed from the
    signups table (see [Store.signups_of_camper]). *)
Module Camper.
Record t := mk { id : Z; name : json; age : json }.
End Camper.

(** models.py:39-48. *)
Module Activity.
Record t := mk { id : Z; name : json; difficulty : json }.
End Activity.

(** models.py:56-64.  The foreign keys are the rowids SQLite stores for
    them; [camper] and [activity] are the backrefs of the two
    relationships. *)
Module Signup.
Record t := mk { id : Z; time : json; camper_id : Z; activity_id : Z }.
End Signup.

(** ** Validators *)

(** models.py:24-28: [if not name: raise AssertionError]. *)
Definition validate_name (name : json) : pyres json :=
  if negb (truthy name) then raise AssertionError else Ok name.

(** models.py:30-34: [if not (8 <= age <= 18): raise AssertionError]. *)
Definition validate_age (age : json) : pyres json :=
  ok <- chain_le 8 age 18 ;;
  if negb ok then raise AssertionError else Ok age.

(** models.py:66-71: [if not (0 <= time <= 23): raise AssertionError]. *)
Definition validate_time (time : json) : pyres json :=
  ok <- chain_le 0 time 23 ;;
  if negb ok then raise AssertionError else Ok time.

(** ** Constructors and validated assignment *)

(** [Camper(name=data.get('name'), age=data.get('age'))]
    (routes.py:38-41): the validated name and age of the new row. *)
Definition Camper_init (name age : json) : pyres (json * json) :=
  n <- validate_name name ;;
  a <- validate_age age ;;
  Ok (n, a).

(** [Signup(camper_id=..., activity_id=..., time=...)]
    (routes.py:117-121): only [time] has a validator. *)
Definition Signup_init (camper_id activity_id time : json) : pyres (json * json * json) :=
  t <- validate_time time ;;
  Ok (camper_id, activity_id, t).

(** [camper.name = v] and [camper.age = v] (routes.py:64, 66). *)
Definition set_name (c : Camper.t) (v : json) : pyres Camper.t :=
  n <- validate_name v ;; Ok (Camper.mk (Camper.id c) n (Camper.age c)).

Definition set_age (c : Camper.t) (v : json) : pyres Camper.t :=
  a <- validate_age v ;; Ok (Camper.mk (Camper.id c) (Camper.name c) a).

(** ** [__repr__] (models.py:36-37, 53-54, 77-78)

    An f-string formats each field with [str]: [None], booleans, ints
    ([int_text]) and strings are modelled; the text of a float, a list
    or a dict ([float_repr_style] and container reprs) is left out, and
    the repr is then [None]. *)
Definition py_str (v : json) : option string :=
  match v with
  | JNull => Some "None"%string
  | JBool b => Some (if b then "True" else "False")%string
  | JInt n => Some (int_text n)
  | JStr s => Some s
  | _ => None
  end.

Definition camper_repr (c : Camper.t) : option string :=
  match py_str (Camper.name c), py_str (Camper.age c) with
  | Some n, Some a => Some ("<Camper " ++ int_text (Camper.id c) ++ ": " ++ n ++ ", Age: " ++ a ++ ">")%string
  | _, _ => None
  end.

Definition activity_repr (a : Activity.t) : option string :=
  match py_str (Activity.name a), py_str (Activity.difficulty a) with
  | Some n, Some k =>
      Some ("<Activity " ++ int_text (Activity.id a) ++ ": " ++ n ++ ", Difficulty: " ++ k ++ ">")%string
  | _, _ => None
  end.

Definition signup_repr (s : Signup.t) : option string :=
  match py_str (Signup.time s) with
  | Some t =>
      Some ("<Signup " ++ int_text (Signup.id s) ++ ": Camper " ++ int_text (Signup.camper_id s) ++
            " for Activity " ++ int_text (Signup.activity_id s) ++ " at " ++ t ++ ":00>")%string
  | None => None
  end.

(** ** What a committed row satisfies *)

Definition in_range (lo hi : Z) (v : json) : bool :=
  match as_number v with
  | Some q => Qle_bool (inject_Z lo) q && Qle_bool q (inject_Z hi)
  | None => false
  end.

Definition row_name_ok (v : json) : bool := truthy v && sqlite_bindable v.
Definition row_age_ok (v : json) : bool := in_range 8 18 v.
Definition row_time_ok (v : json) : bool := in_range 0 23 v.

(** ** Column affinity

    models.py declares [name] a [db.String] (TEXT affinity in SQLite) and
    [age], [difficulty] and [time] [db.Integer] (INTEGER affinity).
    SQLite converts a bound value to the column's affinity when it
    stores it: a [bool] is bound as the integer 0 or 1; an INTEGER
    column stores a REAL with an integral value that fits 64 bits as
    that INTEGER; a TEXT column stores an INTEGER as its decimal text.
    After a commit every attribute is expired, so what a handler
    serialises is read back from the row: the converted value. *)

(** A REAL with an integral value in the 64-bit range. *)
Definition integral_fits (q : Q) : bool :=
  (Z.rem (Qnum q) (Zpos (Qden q)) =? 0)%Z &&
  bool_decide (- 2 ^ 63 <= Z.quot (Qnum q) (Zpos (Qden q)) < 2 ^ 63)%Z.

(** The conversion of a TEXT value that looks like a number is left
    out: no handler stores text in an INTEGER column (the validators
    raise TypeError on it first). *)
Definition integer_affinity (v : json) : json :=
  match v with
  | JBool b => JInt (Z.b2z b)
  | JFloat q => if integral_fits q then JInt (Z.quot (Qnum q) (Zpos (Qden q))) else v
  | _ => v
  end.

(** The text of a REAL stored in a TEXT column (SQLite's [%!.15g]) is
    left out: a float name is kept as the float. *)
Definition text_affinity (v : json) : json :=
  match v with
  | JBool b => JStr (if b then "1" else "0")
  | JInt n => JStr (int_text n)
  | _ => v
  end%string.

(** Values that a column of each affinity can hold. *)
Definition text_normal (v : json) : bool :=
  match v with JBool _ | JInt _ => false | _ => true end.

Definition integer_normal (v : json) : bool :=
  match v with JBool _ => false | JFloat q => negb (integral_fits q) | _ => true end.

(** The row SQLite stores for a camper object at flush. *)
Definition stored_camper (c : Camper.t) : Camper.t :=
  Camper.mk (Camper.id c) (text_affinity (Camper.name c)) (integer_affinity (Camper.age c)).

(** A camper object whose attributes passed the validators and bind. *)
Definition camper_valid (c : Camper.t) : bool :=
  row_name_ok (Camper.name c) && row_age_ok (Camper.age c).

(** A stored camper row: valid, and in the form its columns hold. *)
Definition camper_ok (c : Camper.t) : bool :=
  camper_valid c && text_normal (Camper.name c) && integer_normal (Camper.age c).

(** A stored signup hour: accepted by the validator, in the form of its
    INTEGER column. *)
Definition time_ok (v : json) : bool := row_time_ok v && integer_normal v.

(** ** Lemmas: what each validator accepts *)

Lemma chain_le_in_range lo v hi :
  chain_le lo v hi =
  match as_number v with Some _ => Ok (in_range lo hi v) | None => raise TypeError end.
Proof.
  unfold in_range. destruct (as_number v) as [q|] eqn:Hq.
  - by apply chain_le_number.
  - by apply chain_le_not_number.
Qed.

(** A range validator returns its argument exactly when the argument
    is a number in the interval; it raises AssertionError on a number
    outside it and TypeError on anything else. *)
Lemma range_validator_cases lo hi v :
  (ok <- chain_le lo v hi ;; if negb ok then raise AssertionError else Ok v) =
  if in_range lo hi v then Ok v
  else match as_number v with Some _ => raise AssertionError | None => raise TypeError end.
Proof.
  rewrite chain_le_in_range. unfold in_range.
  destruct (as_number v) as [q|]; simpl; [|done].
  by destruct (Qle_bool _ q && Qle_bool q _).
Qed.

Lemma in_range_int lo hi n :
  in_range lo hi (JInt n) = ((lo <=? n) && (n <=? hi))%Z.
Proof.
  unfold in_range; simpl. f_equal; apply eq_true_iff_eq;
    rewrite Qle_bool_iff, <- Zle_Qle; symmetry; apply Z.leb_le.
Qed.

(** ** The validators on the values the specification talks about *)

(** C19: on an int, the age validator returns it exactly when
    8 <= age <= 18 and raises AssertionError otherwise. *)
Theorem validate_age_int n :
  validate_age (JInt n) = if ((8 <=? n) && (n <=? 18))%Z then Ok (JInt n) else raise AssertionError.
Proof. unfold validate_age. rewrite range_validator_cases, in_range_int. by destruct (_ && _). Qed.

(** C20: on an int, the time validator returns it exactly when
    0 <= time <= 23 and raises AssertionError otherwise. *)
Theorem validate_time_int n :
  validate_time (JInt n) = if ((0 <=? n) && (n <=? 23))%Z then Ok (JInt n) else raise AssertionError.
Proof. unfold validate_time. rewrite range_validator_cases, in_range_int. by destruct (_ && _). Qed.

Lemma validate_age_cases v :
  validate_age v =
  if row_age_ok v then Ok v
  else match as_number v with Some _ => raise AssertionError | None => raise TypeError end.
Proof. apply range_validator_cases. Qed.

Lemma validate_time_cases v :
  validate_time v =
  if row_time_ok v then Ok v
  else match as_number v with Some _ => raise AssertionError | None => raise TypeError end.
Proof. apply range_validator_cases. Qed.

Lemma validate_name_cases v :
  validate_name v = if truthy v then Ok v else raise AssertionError.
Proof. unfold validate_name. by destruct (truthy v). Qed.

#[export] Hint Rewrite validate_age_cases validate_time_cases validate_name_cases
  in_range_int : camp_rw.

(** A number in a 64-bit interval binds. *)
Lemma in_range_bindable lo hi v :
  (- 2 ^ 63 <= lo)%Z -> (hi < 2 ^ 63)%Z -> in_range lo hi v = true -> sqlite_bindable v = true.
Proof.
  intros Hlo Hhi. unfold in_range. destruct v as [| |n| | | |]; simpl; try done.
  intros [Hl Hh]%andb_true_iff. apply bool_decide_eq_true.
  apply Qle_bool_iff in Hl, Hh. rewrite <- Zle_Qle in Hl, Hh. lia.
Qed.

Lemma row_age_bindable v : row_age_ok v = true -> sqlite_bindable v = true.
Proof. apply in_range_bindable; lia. Qed.

Lemma row_time_bindable v : row_time_ok v = true -> sqlite_bindable v = true.
Proof. apply in_range_bindable; lia. Qed.

(** ** Lemmas: what the affinities keep *)

Lemma integral_fits_eq q :
  integral_fits q = true -> inject_Z (Z.quot (Qnum q) (Zpos (Qden q))) == q.
Proof.
  intros [Hr _]%andb_true_iff. apply Z.eqb_eq in Hr.
  pose proof (Z.quot_rem' (Qnum q) (Zpos (Qden q))) as Hq.
  unfold Qeq; simpl. lia.
Qed.

Lemma in_range_Qeq lo hi q q' :
  q == q' -> Qle_bool (inject_Z lo) q && Qle_bool q (inject_Z hi) =
             Qle_bool (inject_Z lo) q' && Qle_bool q' (inject_Z hi).
Proof.
  intros Hq. f_equal; apply eq_true_iff_eq; rewrite !Qle_bool_iff; by rewrite Hq.
Qed.

(** The integer affinity keeps the number: a range check reads the
    same before and after the store. *)
Lemma in_range_integer_affinity lo hi v : in_range lo hi (integer_affinity v) = in_range lo hi v.
Proof.
  unfold in_range. destruct v as [| |n|q| | |]; simpl; try done.
  destruct (integral_fits q) eqn:Hf; simpl; [|done].
  by apply in_range_Qeq, integral_fits_eq.
Qed.

Lemma row_name_ok_text v : row_name_ok v = true -> row_name_ok (text_affinity v) = true.
Proof.
  unfold row_name_ok. destruct v as [|[]|n| | | |]; simpl; try done.
  intros _. destruct (int_text n) eqn:Ht; [by destruct (int_text_nonempty n)|done].
Qed.

Lemma text_affinity_normal v : text_normal (text_affinity v) = true.
Proof. by destruct v. Qed.

Lemma integer_affinity_normal v : integer_normal (integer_affinity v) = true.
Proof. destruct v as [| | |q| | |]; simpl; try done. by destruct (integral_fits q) eqn:Hf; simpl; rewrite ?Hf. Qed.

Lemma text_affinity_id v : text_normal v = true -> text_affinity v = v.
Proof. by destruct v. Qed.

Lemma integer_affinity_id v : integer_normal v = true -> integer_affinity v = v.
Proof. destruct v as [| | |q| | |]; simpl; try done. by destruct (integral_fits q). Qed.

Lemma stored_camper_ok c : camper_valid c = true -> camper_ok (stored_camper c) = true.
Proof.
  unfold camper_ok, camper_valid, row_age_ok. simpl.
  intros [Hn Ha]%andb_true_iff. rewrite row_name_ok_text by exact Hn.
  rewrite in_range_integer_affinity, Ha, text_affinity_normal, integer_affinity_normal. done.
Qed.

Lemma stored_camper_id c : camper_ok c = true -> stored_camper c = c.
Proof.
  unfold camper_ok. intros [[_ Hn]%andb_true_iff Ha]%andb_true_iff.
  destruct c as [i n a]; unfold stored_camper; simpl in *.
  by rewrite text_affinity_id, integer_affinity_id.
Qed.

Lemma camper_ok_valid c : camper_ok c = true -> camper_valid c = true.
Proof. unfold camper_ok. by intros [[-> _]%andb_true_iff _]%andb_true_iff. Qed.

Lemma camper_ok_normal c :
  camper_ok c = true -> text_normal (Camper.name c) = true /\ integer_normal (Camper.age c) = true.
Proof. unfold camper_ok. by intros [[_ ->]%andb_true_iff ->]%andb_true_iff. Qed.
