(* ===== verification/Store.v ===== *)
(** * The store: three tables, rowid allocation, lookups and the cascade

    Each table is the list of its rows in rowid order, which is the order
    [Query.all()] and a lazy relationship load return them in.  A row is
    inserted with SQLite's rowid rule for an [INTEGER PRIMARY KEY] without
    AUTOINCREMENT: one more than the largest rowid in the table, or 1 in
    an empty table ([next_rowid]); once the largest rowid is 2^63-1
    SQLite tries random unused rowids instead, which the model does not
    follow, so the theorems on allocation assume the ids below that
    bound.  [Query.get(v)] goes through SQLAlchemy's identity handling
    ([identity_key]: a list or a dict must have exactly one element, the
    primary key's; a one-element list is the identity, a dict is read at
    key "id", [None] loads nothing) and
    SQLite's comparison of the INTEGER rowid with the bound parameter
    ([sqlite_key]: booleans are 0/1, an integral float and a text whose
    number, read as SQLite's NUMERIC affinity reads it, is an integer
    compare equal to that integer).

    [delete_activity_cascade] is [db.session.delete(activity)] under the
    cascade 'all, delete-orphan' of [Activity.signups] (models.py:48): the
    signups of the activity are deleted with it.

    A row is stored in the form its columns' affinity gives the values
    ([Models.stored_camper]), and an object read after a commit is
    reloaded from its row ([refresh_camper]).

    [db_wf] is the invariant every committed store satisfies. *)

From Stdlib Require Import ZArith QArith String Ascii.
From stdpp Require Import base list strings decidable sets.
From S2P Require Import Prelude Json Models.

Record db := mkdb {
  campers : list Camper.t;
  activities : list Activity.t;
  signups : list Signup.t
}.

Definition camper_ids (d : db) : list Z := map Camper.id (campers d).
Definition activity_ids (d : db) : list Z := map Activity.id (activities d).
Definition signup_ids (d : db) : list Z := map Signup.id (signups d).

(** ** Rowid allocation *)
Definition next_rowid (ids : list Z) : Z :=
  match ids with
  | [] => 1
  | i :: rest => fold_right Z.max i rest + 1
  end.

(** ** Lookup by primary key *)

Definition find_camper (d : db) (k : Z) : option Camper.t :=
  List.find (fun c => Camper.id c =? k)%Z (campers d).
Definition find_activity (d : db) (k : Z) : option Activity.t :=
  List.find (fun a => Activity.id a =? k)%Z (activities d).

(** SQLite's reading of a text as a number ([sqlite3AtoF]), which the
    NUMERIC affinity applies to a text compared with the INTEGER PRIMARY
    KEY: optional spaces, an optional sign, digits with an optional
    fraction (at least one digit in all), an optional exponent whose
    digits saturate at 10000, optional spaces, and nothing else.  The
    value is read exactly; SQLite rounds a text with a fraction or an
    exponent to a double, which differs only beyond 15 significant
    digits. *)
Definition is_space (c : ascii) : bool :=
  let n := nat_of_ascii c in (n =? 32) || ((9 <=? n) && (n <=? 13)).

Definition digit_val (c : ascii) : option Z :=
  let n := Z.of_nat (nat_of_ascii c) in
  if ((48 <=? n) && (n <=? 57))%Z then Some (n - 48)%Z else None.

Fixpoint drop_spaces (l : list ascii) : list ascii :=
  match l with
  | c :: l' => if is_space c then drop_spaces l' else l
  | [] => []
  end.

(** The digits at the head of [l], accumulated into [acc] with [step];
    their number and the rest. *)
Fixpoint take_digits (step : Z -> Z -> Z) (l : list ascii) (acc : Z) (k : nat)
    : Z * nat * list ascii :=
  match l with
  | c :: l' =>
      match digit_val c with
      | Some v => take_digits step l' (step acc v) (S k)
      | None => (acc, k, l)
      end
  | [] => (acc, k, [])
  end.

Definition decimal_step (acc v : Z) : Z := (acc * 10 + v)%Z.
Definition exponent_step (acc v : Z) : Z := if (acc <? 10000)%Z then (acc * 10 + v)%Z else 10000%Z.

Definition take_sign (l : list ascii) : Z * list ascii :=
  match l with
  | "-"%char :: l' => (-1, l')%Z
  | "+"%char :: l' => (1, l')%Z
  | _ => (1, l)%Z
  end.

(** An exponent [e]/[E] with at least one digit; otherwise nothing is
    read and the [e] is left over. *)
Definition take_exponent (l : list ascii) : Z * list ascii :=
  match l with
  | c :: l' =>
      if (Ascii.eqb c "e" || Ascii.eqb c "E")%char then
        let '(es, l1) := take_sign l' in
        let '(ev, ne, l2) := take_digits exponent_step l1 0 0 in
        if (ne =? 0)%nat then (0%Z, l) else ((es * ev)%Z, l2)
      else (0%Z, l)
  | [] => (0%Z, [])
  end.

Definition scale10 (m e : Z) : Q :=
  if (0 <=? e)%Z then inject_Z (m * 10 ^ e) else m # Z.to_pos (10 ^ (- e)).

Definition numeric_text (s : string) : option Q :=
  let '(sg, l0) := take_sign (drop_spaces (list_ascii_of_string s)) in
  let '(m, ni, l1) := take_digits decimal_step l0 0 0 in
  let '(m, nf, l2) :=
    match l1 with
    | "."%char :: l' => take_digits decimal_step l' m 0
    | _ => (m, 0, l1)
    end in
  let '(e, l3) := take_exponent l2 in
  if (ni + nf =? 0)%nat then None
  else match drop_spaces l3 with
       | [] => Some (scale10 (sg * m) (e - Z.of_nat nf))
       | _ => None
       end.

(** The rowid a text selects: its number, when that is an integer in
    the 64-bit range. *)
Definition text_rowid (s : string) : option Z :=
  match numeric_text s with
  | Some q => if integral_fits q then Some (Z.quot (Qnum q) (Zpos (Qden q))) else None
  | None => None
  end.

(** The rowid a scalar parameter selects, if any. *)
Definition sqlite_key (v : json) : option Z :=
  match v with
  | JNull => None
  | JBool b => Some (Z.b2z b)
  | JInt n => Some n
  | JFloat q =>
      if (Z.rem (Qnum q) (Zpos (Qden q)) =? 0)%Z
      then Some (Z.quot (Qnum q) (Zpos (Qden q))) else None
  | JStr s => text_rowid s
  | JArr _ | JObj _ => None
  end.

(** A scalar is bound as the parameter of the SELECT; a list or a dict
    cannot be bound. *)
Definition scalar_key (v : json) : pyres (option Z) :=
  if sqlite_bindable v then Ok (sqlite_key v) else raise DBAPIError.

(** [Query.get(v)]: SQLAlchemy's [Session._get_impl] turns [v] into the
    identity tuple of the one-column primary key: a scalar is a tuple of
    one, a list is its own tuple, and a tuple whose length is not the
    key's raises; a dict (whose length is its number of distinct keys)
    passes the same length test and is then read at the key's name. *)
Definition identity_key (v : json) : pyres (option Z) :=
  match v with
  | JArr [x] => scalar_key x
  | JArr _ => raise InvalidRequestError
  | JObj kvs =>
      if negb (length (remove_dups (map fst kvs)) =? 1)%nat then raise InvalidRequestError else
      match obj_get kvs "id" with
      | Some x => scalar_key x
      | None => raise InvalidRequestError
      end
  | _ => scalar_key v
  end.

Definition query_get_camper (d : db) (v : json) : pyres (option Camper.t) :=
  k <- identity_key v ;;
  Ok (match k with Some k => find_camper d k | None => None end).

Definition query_get_activity (d : db) (v : json) : pyres (option Activity.t) :=
  k <- identity_key v ;;
  Ok (match k with Some k => find_activity d k | None => None end).

(** A committed object is expired: reading an attribute reloads its row
    by primary key ([expire_on_commit], the default of the session). *)
Definition refresh_camper (d : db) (c : Camper.t) : Camper.t :=
  default c (find_camper d (Camper.id c)).

(** ** Relationships *)

Definition signups_of_camper (d : db) (cid : Z) : list Signup.t :=
  List.filter (fun s => Signup.camper_id s =? cid)%Z (signups d).
Definition signups_of_activity (d : db) (aid : Z) : list Signup.t :=
  List.filter (fun s => Signup.activity_id s =? aid)%Z (signups d).

(** ** Writes (each is one committed transaction) *)

Definition insert_camper (d : db) (name age : json) : Camper.t * db :=
  let c := stored_camper (Camper.mk (next_rowid (camper_ids d)) name age) in
  (c, mkdb (campers d ++ [c]) (activities d) (signups d)).

Definition insert_activity (d : db) (name difficulty : json) : Activity.t * db :=
  let a := Activity.mk (next_rowid (activity_ids d)) (text_affinity name)
                       (integer_affinity difficulty) in
  (a, mkdb (campers d) (activities d ++ [a]) (signups d)).

Definition insert_signup (d : db) (time : json) (cid aid : Z) : Signup.t * db :=
  let s := Signup.mk (next_rowid (signup_ids d)) (integer_affinity time) cid aid in
  (s, mkdb (campers d) (activities d) (signups d ++ [s])).

(** The UPDATE of the camper row with the id of [c]; the columns of an
    unassigned attribute keep their stored value, which the affinity
    leaves as it is. *)
Definition update_camper_row (d : db) (c : Camper.t) : db :=
  mkdb (map (fun c' => if (Camper.id c' =? Camper.id c)%Z then stored_camper c else c') (campers d))
       (activities d) (signups d).

Definition delete_activity_cascade (d : db) (aid : Z) : db :=
  mkdb (campers d)
       (List.filter (fun a => negb (Activity.id a =? aid)%Z) (activities d))
       (List.filter (fun s => negb (Signup.activity_id s =? aid)%Z) (signups d)).

(** ** The invariant of committed stores *)

Definition ids_ok (ids : list Z) : Prop := NoDup ids /\ Forall (fun i => 0 < i)%Z ids.

Definition signup_refs_ok (d : db) (s : Signup.t) : Prop :=
  Signup.camper_id s ∈ camper_ids d /\ Signup.activity_id s ∈ activity_ids d.

Definition db_wf (d : db) : Prop :=
  ids_ok (camper_ids d) /\ ids_ok (activity_ids d) /\ ids_ok (signup_ids d) /\
  Forall (fun c => camper_ok c = true) (campers d) /\
  Forall (fun s => time_ok (Signup.time s) = true) (signups d) /\
  Forall (signup_refs_ok d) (signups d).

#[export] Instance db_wf_dec d : Decision (db_wf d).
Proof. unfold db_wf, ids_ok, signup_refs_ok. apply _. Defined.

Definition empty_db : db := mkdb [] [] [].

(** ** SQLite reads back the text of an integer *)

Lemma digit_val_char d : (d < 10)%N -> digit_val (digit_char d) = Some (Z.of_N d).
Proof.
  intros Hd. unfold digit_val, digit_char, nat_of_ascii. rewrite N_ascii_embedding by lia.
  cbv zeta. rewrite N_nat_Z, N2Z.inj_add. change (Z.of_N 48) with 48%Z.
  destruct (Z.leb_spec 48 (48 + Z.of_N d)), (Z.leb_spec (48 + Z.of_N d) 57); cbn [andb];
    [f_equal; lia|lia..].
Qed.

Lemma is_space_digit d : (d < 10)%N -> is_space (digit_char d) = false.
Proof.
  intros Hd. unfold is_space, digit_char, nat_of_ascii. rewrite N_ascii_embedding by lia.
  rewrite N2Nat.inj_add. assert (N.to_nat d < 10)%nat by lia. cbn [N.to_nat] in *.
  apply orb_false_iff. split; [apply Nat.eqb_neq; lia|].
  apply andb_false_iff. right. apply Nat.leb_gt. lia.
Qed.

Lemma take_digits_all ds acc k :
  Forall (fun d => d < 10)%N ds ->
  take_digits decimal_step (map digit_char ds) acc k = (horner ds acc, (k + length ds)%nat, []).
Proof.
  revert acc k. induction ds as [|d ds IH]; intros acc k Hds; simpl; [by rewrite Nat.add_0_r|].
  apply Forall_cons_1 in Hds as [Hd Hds]. rewrite digit_val_char by exact Hd.
  rewrite IH by exact Hds. by rewrite Nat.add_succ_r.
Qed.

(** The digits of [dec_string n]. *)
Lemma dec_string_digits n :
  exists ds, dec_string n = str_of_digits ds /\ ds <> [] /\
             Forall (fun d => d < 10)%N ds /\ horner ds 0 = Z.of_N n.
Proof.
  exists (rev (dec_rev (S (N.to_nat (N.size n))) n)). split; [done|]. split.
  - simpl. destruct (n <? 10)%N; simpl; [done|]. intros H%app_eq_nil. by destruct H.
  - split; [apply Forall_rev, dec_rev_digits|]. apply horner_rev_dec, dec_string_fuel.
Qed.

Lemma take_sign_digit d l :
  (d < 10)%N -> take_sign (digit_char d :: l) = (1%Z, digit_char d :: l).
Proof.
  intros Hd. assert (Hc : (d = 0 \/ d = 1 \/ d = 2 \/ d = 3 \/ d = 4 \/ d = 5 \/ d = 6 \/
                           d = 7 \/ d = 8 \/ d = 9)%N) by lia.
  repeat destruct Hc as [->|Hc]; subst; reflexivity.
Qed.

Lemma numeric_text_digits sg ds :
  ds <> [] -> Forall (fun d => d < 10)%N ds ->
  numeric_text (if (sg <? 0)%Z then String "-" (str_of_digits ds) else str_of_digits ds) =
  Some (inject_Z ((if (sg <? 0)%Z then -1 else 1) * horner ds 0)).
Proof.
  intros Hne Hds. unfold numeric_text, str_of_digits.
  destruct ds as [|d ds']; [done|]. pose proof (Forall_inv Hds) as Hd.
  destruct (sg <? 0)%Z; cbn [list_ascii_of_string]; rewrite list_ascii_of_string_of_list_ascii;
    cbn [map drop_spaces]; rewrite ?is_space_digit by exact Hd;
    [replace (is_space "-") with false by reflexivity; cbn [take_sign]
    |rewrite take_sign_digit by exact Hd];
    rewrite <- (map_cons digit_char d ds'), take_digits_all by exact Hds; cbn [length];
    unfold scale10; cbn; by rewrite Z.mul_1_r.
Qed.

(** A text that reads as an integer in the 64-bit range selects it. *)
Lemma text_rowid_inject_Z s z :
  numeric_text s = Some (inject_Z z) -> (- 2 ^ 63 <= z < 2 ^ 63)%Z -> text_rowid s = Some z.
Proof.
  intros Hs Hz. unfold text_rowid, integral_fits. rewrite Hs. cbn [Qnum Qden inject_Z].
  rewrite Z.rem_1_r, Z.quot_1_r, bool_decide_eq_true_2 by exact Hz. done.
Qed.

(** The sign and the digits of [int_text n]. *)
Lemma int_text_numeric n : numeric_text (int_text n) = Some (inject_Z n).
Proof.
  unfold int_text. destruct (Z.ltb_spec n 0) as [Hn|Hn].
  - destruct (dec_string_digits (Z.to_N (- n))) as (ds & -> & Hne & Hds & Hh).
    pose proof (numeric_text_digits (-1) ds Hne Hds) as Hnt.
    change (-1 <? 0)%Z with true in Hnt. cbv iota in Hnt.
    rewrite Hnt, Hh, Z2N.id by lia. do 2 f_equal. lia.
  - destruct (dec_string_digits (Z.to_N n)) as (ds & -> & Hne & Hds & Hh).
    pose proof (numeric_text_digits 1 ds Hne Hds) as Hnt.
    change (1 <? 0)%Z with false in Hnt. cbv iota in Hnt.
    rewrite Hnt, Hh, Z2N.id by lia. do 2 f_equal. lia.
Qed.

(** ** Rowid allocation gives a fresh, larger id *)

Lemma next_rowid_gt (ids : list Z) i : i ∈ ids -> (i < next_rowid ids)%Z.
Proof.
  destruct ids as [|j rest]; [by intros ?%not_elem_of_nil|]. simpl.
  assert (Hmax : forall x, x ∈ j :: rest -> (x <= fold_right Z.max j rest)%Z).
  { clear i. induction rest as [|k rest IH]; intros x Hx; simpl.
    - apply list_elem_of_singleton in Hx. lia.
    - rewrite elem_of_cons in Hx. destruct Hx as [->|Hx]; [|rewrite elem_of_cons in Hx; destruct Hx as [->|Hx]].
      + specialize (IH j ltac:(left)). lia.
      + lia.
      + specialize (IH x ltac:(by right)). lia. }
  intros Hi. specialize (Hmax i Hi). lia.
Qed.

Lemma next_rowid_fresh (ids : list Z) : next_rowid ids ∉ ids.
Proof. intros Hin. apply next_rowid_gt in Hin. lia. Qed.

Lemma next_rowid_pos (ids : list Z) : Forall (fun i => 0 < i)%Z ids -> (0 < next_rowid ids)%Z.
Proof.
  destruct ids as [|j rest]; [simpl; lia|]. intros Hf.
  assert (Hj : j ∈ j :: rest) by left. apply next_rowid_gt in Hj.
  apply Forall_cons_1 in Hf as [Hj0 _]. lia.
Qed.

Lemma next_rowid_le (ids : list Z) m :
  Forall (fun i => i <= m)%Z ids -> (0 <= m)%Z -> (next_rowid ids <= m + 1)%Z.
Proof.
  destruct ids as [|j rest]; simpl; [intros; lia|]. intros [Hj Hr]%Forall_cons_1 Hm.
  enough (fold_right Z.max j rest <= m)%Z by lia.
  induction rest as [|k rest IH]; simpl; [done|].
  apply Forall_cons_1 in Hr as [Hk Hr]. specialize (IH Hr). lia.
Qed.

(** Appending the next rowid keeps a table's ids below its size. *)
Lemma ids_bounded_snoc (ids : list Z) (n : nat) :
  Forall (fun i => i <= Z.of_nat n)%Z ids ->
  Forall (fun i => i <= Z.of_nat (S n))%Z (ids ++ [next_rowid ids]).
Proof.
  intros H. apply Forall_app_single.
  - eapply Forall_impl; [exact H|]. intros i Hi. cbv beta in *. lia.
  - pose proof (next_rowid_le ids (Z.of_nat n) H ltac:(lia)). lia.
Qed.

(** The rowids [1 .. n] of a table filled from empty: the next is [n + 1]. *)
Lemma next_rowid_seq n : next_rowid (map Z.of_nat (seq 1 n)) = Z.of_nat (S n).
Proof.
  destruct n as [|n]; [done|]. apply Z.le_antisymm.
  - assert (Hb : Forall (fun i => i <= Z.of_nat (S n))%Z (map Z.of_nat (seq 1 (S n))))
      by (apply Forall_map, Forall_seq; lia).
    pose proof (next_rowid_le _ _ Hb ltac:(lia)). lia.
  - enough (Z.of_nat (S n) < next_rowid (map Z.of_nat (seq 1 (S n))))%Z by lia.
    apply next_rowid_gt, list_elem_of_In, in_map, in_seq. lia.
Qed.

Lemma ids_ok_snoc (ids : list Z) :
  ids_ok ids -> ids_ok (ids ++ [next_rowid ids]).
Proof.
  intros [Hnd Hpos]. split.
  - apply list.NoDup_app. split; [done|]. split; [|apply list.NoDup_singleton].
    intros x Hx ->%list_elem_of_singleton. by apply next_rowid_fresh in Hx.
  - apply Forall_app_single; [done|]. by apply next_rowid_pos.
Qed.

Lemma ids_ok_filter {A} (f : A -> Z) (p : A -> bool) (l : list A) :
  ids_ok (map f l) -> ids_ok (map f (List.filter p l)).
Proof. intros [Hnd Hpos]. split; auto with camp. Qed.

#[export] Hint Resolve ids_ok_snoc ids_ok_filter : camp.

(** ** Lookup *)

Lemma find_camper_Some d k c :
  find_camper d k = Some c -> c ∈ campers d /\ Camper.id c = k.
Proof.
  unfold find_camper. intros H. apply find_some in H as [Hin Hk].
  split; [by apply list_elem_of_In | by apply Z.eqb_eq].
Qed.

Lemma find_camper_None d k : find_camper d k = None <-> k ∉ camper_ids d.
Proof.
  unfold find_camper, camper_ids. rewrite list_elem_of_fmap. split.
  - intros H (c & -> & Hc). apply list_elem_of_In in Hc.
    apply (find_none _ _ H) in Hc. by rewrite Z.eqb_refl in Hc.
  - intros Hk. destruct (List.find _ _) as [c|] eqn:E; [|done].
    apply find_some in E as [Hc Hid%Z.eqb_eq]. subst k.
    exfalso. apply Hk. exists c. split; [done|]. by apply list_elem_of_In.
Qed.

Lemma find_activity_Some d k a :
  find_activity d k = Some a -> a ∈ activities d /\ Activity.id a = k.
Proof.
  unfold find_activity. intros H. apply find_some in H as [Hin Hk].
  split; [by apply list_elem_of_In | by apply Z.eqb_eq].
Qed.

Lemma find_activity_None d k : find_activity d k = None <-> k ∉ activity_ids d.
Proof.
  unfold find_activity, activity_ids. rewrite list_elem_of_fmap. split.
  - intros H (a & -> & Ha). apply list_elem_of_In in Ha.
    apply (find_none _ _ H) in Ha. by rewrite Z.eqb_refl in Ha.
  - intros Hk. destruct (List.find _ _) as [a|] eqn:E; [|done].
    apply find_some in E as [Ha Hid%Z.eqb_eq]. subst k.
    exfalso. apply Hk. exists a. split; [done|]. by apply list_elem_of_In.
Qed.

(** After the cascade, the deleted id selects no activity. *)
Lemma find_activity_cascade_self d aid : find_activity (delete_activity_cascade d aid) aid = None.
Proof.
  unfold find_activity, delete_activity_cascade; cbn [activities].
  induction (activities d) as [|a l IH]; [done|]. cbn [List.filter List.find].
  by destruct (Activity.id a =? aid)%Z eqn:E; cbn [negb List.find]; rewrite ?E.
Qed.

Lemma find_camper_id d k c : find_camper d k = Some c -> k ∈ camper_ids d.
Proof.
  intros H. apply find_camper_Some in H as [Hc <-].
  apply list_elem_of_fmap. eauto.
Qed.

Lemma find_activity_id d k a : find_activity d k = Some a -> k ∈ activity_ids d.
Proof.
  intros H. apply find_activity_Some in H as [Ha <-].
  apply list_elem_of_fmap. eauto.
Qed.

(** In a well-formed store the camper and the activity of a signup are
    found. *)
Lemma signup_refs_found d s :
  db_wf d -> s ∈ signups d ->
  (exists c, find_camper d (Signup.camper_id s) = Some c) /\
  (exists a, find_activity d (Signup.activity_id s) = Some a).
Proof.
  intros (_ & _ & _ & _ & _ & Hr) Hs. eapply Forall_forall in Hr as [Hc Ha]; [|exact Hs].
  split.
  - destruct (find_camper d _) as [c|] eqn:E; [by eexists|]. by apply find_camper_None in E.
  - destruct (find_activity d _) as [a|] eqn:E; [by eexists|]. by apply find_activity_None in E.
Qed.

(** ** The cascade of [Activity.signups] *)

(** C9: deleting an activity keeps every camper, keeps exactly the
    activities with another id and exactly the signups of other
    activities: the signups of the deleted activity go with it, as many
    as the activity had, and no other row is touched. *)
Theorem delete_activity_cascade_exact d aid :
  campers (delete_activity_cascade d aid) = campers d /\
  (forall a, a ∈ activities (delete_activity_cascade d aid) <->
             a ∈ activities d /\ Activity.id a <> aid) /\
  (forall s, s ∈ signups (delete_activity_cascade d aid) <->
             s ∈ signups d /\ Signup.activity_id s <> aid) /\
  length (signups d) =
  length (signups (delete_activity_cascade d aid)) + length (signups_of_activity d aid).
Proof.
  unfold delete_activity_cascade; simpl. split; [done|].
  split; [|split; [|apply length_filter_split]]; intros x;
    rewrite list_elem_of_In, filter_In, <- list_elem_of_In, negb_true_iff, Z.eqb_neq; done.
Qed.

(** Deleting an activity hides it from [Query.get] and no other. *)
Lemma find_activity_cascade d a k :
  find_activity (delete_activity_cascade d a) k = if (a =? k)%Z then None else find_activity d k.
Proof.
  destruct (Z.eqb_spec a k) as [<-|Hne]; [apply find_activity_cascade_self|].
  unfold find_activity, delete_activity_cascade; cbn [activities]. apply find_filter_weaken.
  intros x ->%Z.eqb_eq. by apply negb_true_iff, Z.eqb_neq.
Qed.


(** C18: while every id of the table lies in [1, 2^63-2] (below the
    largest rowid, where SQLite's allocation turns random), a new camper
    gets an id larger than every id in the table (hence fresh) that
    still fits a signed 64-bit integer, and the table grows by exactly
    that row at its end. *)
Theorem insert_camper_fresh_id d name age :
  Forall (fun i => 0 < i < 2 ^ 63 - 1)%Z (camper_ids d) ->
  let '(c, d') := insert_camper d name age in
  ((Camper.id c) ∉ (camper_ids d) /\ (forall i, i ∈ camper_ids d -> (i < Camper.id c)%Z) /\
   camper_ids d' = camper_ids d ++ [Camper.id c] /\ (1 <= Camper.id c <= 2 ^ 63 - 1)%Z).
Proof.
  intros Hb. simpl. split; [apply next_rowid_fresh|]. split; [apply next_rowid_gt|].
  split; [unfold camper_ids; simpl; by rewrite map_app|].
  assert (Hpos : Forall (fun i => 0 < i)%Z (camper_ids d)) by (apply Forall_forall; intros i Hi; eapply Forall_forall in Hb; [|exact Hi]; cbv beta in Hb; lia).
  assert (Hle : Forall (fun i => i <= 2 ^ 63 - 2)%Z (camper_ids d)) by (apply Forall_forall; intros i Hi; eapply Forall_forall in Hb; [|exact Hi]; cbv beta in Hb; lia).
  pose proof (next_rowid_pos _ Hpos). pose proof (next_rowid_le _ _ Hle ltac:(lia)). lia.
Qed.


(** ** Every write preserves [db_wf] *)

Lemma refs_mono d d' (l : list Signup.t) :
  camper_ids d ⊆ camper_ids d' -> activity_ids d ⊆ activity_ids d' ->
  Forall (signup_refs_ok d) l -> Forall (signup_refs_ok d') l.
Proof.
  intros Hc Ha Hl. eapply Forall_impl; [exact Hl|].
  intros s [Hsc Hsa]. split; [apply Hc | apply Ha]; done.
Qed.

Lemma update_camper_row_ids d c : camper_ids (update_camper_row d c) = camper_ids d.
Proof.
  unfold camper_ids, update_camper_row; simpl. rewrite map_map.
  apply map_ext. intros c'. destruct (Z.eqb_spec (Camper.id c') (Camper.id c)); simpl; congruence.
Qed.

(** After the UPDATE, the row of the camper's id is the stored form of
    the camper: what a refresh reads back. *)
(** The inserted camper is found by its fresh id. *)
Lemma find_camper_insert d name age :
  find_camper (insert_camper d name age).2 (Camper.id (insert_camper d name age).1) =
  Some (insert_camper d name age).1.
Proof.
  unfold find_camper, insert_camper; cbn [fst snd campers Camper.id stored_camper].
  rewrite find_app_skip; [by cbn [List.find]; rewrite Z.eqb_refl|].
  intros x Hx. apply Z.eqb_neq. intros Heq. apply (next_rowid_fresh (camper_ids d)).
  rewrite <- Heq. apply list_elem_of_In, in_map, Hx.
Qed.

Lemma find_camper_update d c :
  Camper.id c ∈ camper_ids d -> find_camper (update_camper_row d c) (Camper.id c) = Some (stored_camper c).
Proof.
  unfold find_camper, update_camper_row, camper_ids; simpl.
  induction (campers d) as [|c' l IH]; simpl; intros Hin; [by apply not_elem_of_nil in Hin|].
  destruct (Z.eqb_spec (Camper.id c') (Camper.id c)) as [E|E]; simpl; [by rewrite Z.eqb_refl|].
  rewrite (proj2 (Z.eqb_neq _ _) E). apply IH.
  rewrite elem_of_cons in Hin. destruct Hin as [Hin|Hin]; [congruence|exact Hin].
Qed.

(** [refresh_camper]'s result after an UPDATE. *)
Lemma refresh_camper_update d c :
  Camper.id c ∈ camper_ids d -> refresh_camper (update_camper_row d c) c = stored_camper c.
Proof. intros H. unfold refresh_camper. by rewrite find_camper_update. Qed.

(** Writing a row that stores as the one just written changes nothing. *)
Lemma update_camper_row_twice d x y :
  Camper.id x = Camper.id y -> stored_camper x = stored_camper y ->
  update_camper_row (update_camper_row d y) x = update_camper_row d y.
Proof.
  intros Hid Hs. destruct d as [cs acts ss]. unfold update_camper_row; cbn [campers activities signups].
  f_equal. rewrite map_map. apply map_ext. intros c'. rewrite Hid.
  destruct (Z.eqb_spec (Camper.id c') (Camper.id y)) as [E|E].
  - change (Camper.id (stored_camper y)) with (Camper.id y). by rewrite Z.eqb_refl.
  - by rewrite (proj2 (Z.eqb_neq _ _) E).
Qed.

(** Writing back a stored camper unchanged leaves the store as it was. *)
Lemma update_camper_row_same d c :
  NoDup (camper_ids d) -> c ∈ campers d -> camper_ok c = true -> update_camper_row d c = d.
Proof.
  intros Hnd Hc Hok. destruct d as [cs acts ss]. unfold update_camper_row; simpl in *. f_equal.
  rewrite <- (map_id cs) at 2. apply map_ext_in. intros c' Hc'%list_elem_of_In.
  destruct (Z.eqb_spec (Camper.id c') (Camper.id c)) as [E|]; [|done].
  rewrite stored_camper_id by exact Hok. symmetry. exact (NoDup_map_eq _ _ _ _ Hnd Hc' Hc E).
Qed.

(** The activity ids left by the cascade are the old ones but [aid]. *)
Lemma delete_activity_ids d aid x :
  x ∈ activity_ids (delete_activity_cascade d aid) <-> x ∈ activity_ids d /\ x <> aid.
Proof.
  unfold activity_ids, delete_activity_cascade; simpl.
  rewrite elem_of_map_filter, list_elem_of_fmap. split.
  - intros (a & Ha & Hp & ->). apply negb_true_iff, Z.eqb_neq in Hp. eauto.
  - intros ((a & -> & Ha) & Hne). exists a. repeat split; auto.
    by apply negb_true_iff, Z.eqb_neq.
Qed.

Lemma db_wf_intro d :
  ids_ok (camper_ids d) -> ids_ok (activity_ids d) -> ids_ok (signup_ids d) ->
  Forall (fun c => camper_ok c = true) (campers d) ->
  Forall (fun s => time_ok (Signup.time s) = true) (signups d) ->
  Forall (signup_refs_ok d) (signups d) -> db_wf d.
Proof. unfold db_wf. tauto. Qed.

Lemma row_time_ok_affinity v : row_time_ok v = true -> row_time_ok (integer_affinity v) = true.
Proof. unfold row_time_ok. by rewrite in_range_integer_affinity. Qed.

(** The hour a signup stores: the validated value under INTEGER affinity. *)
Lemma time_ok_affinity v : row_time_ok v = true -> time_ok (integer_affinity v) = true.
Proof. intros H. unfold time_ok. by rewrite row_time_ok_affinity, integer_affinity_normal. Qed.

#[export] Hint Resolve row_time_ok_affinity time_ok_affinity : camp.

Section preservation.
Context (d : db) (Hwf : db_wf d).

Lemma insert_camper_wf name age :
    row_name_ok name = true -> row_age_ok age = true ->
    db_wf (insert_camper d name age).2.
  Proof.
    destruct Hwf as (Hc & Ha & Hs & Hcs & Ht & Hr). intros Hn Hag.
    apply db_wf_intro; unfold insert_camper, camper_ids in *; simpl;
      rewrite ?map_app; auto with camp.
    - apply Forall_app_single; [done|]. apply stored_camper_ok. unfold camper_valid; simpl.
      by rewrite Hn, Hag.
    - eapply refs_mono; [| |exact Hr]; unfold camper_ids; simpl; [rewrite map_app|]; set_solver.
  Qed.

Lemma insert_activity_wf name difficulty :
    db_wf (insert_activity d name difficulty).2.
  Proof.
    destruct Hwf as (Hc & Ha & Hs & Hcs & Ht & Hr).
    apply db_wf_intro; unfold insert_activity, activity_ids in *; simpl;
      rewrite ?map_app; auto with camp.
    eapply refs_mono; [| |exact Hr]; unfold activity_ids; simpl; [|rewrite map_app]; set_solver.
  Qed.

Lemma insert_signup_wf time cid aid :
    row_time_ok time = true -> cid ∈ camper_ids d -> aid ∈ activity_ids d ->
    db_wf (insert_signup d time cid aid).2.
  Proof.
    destruct Hwf as (Hc & Ha & Hs & Hcs & Ht & Hr). intros Htime Hcid Haid.
    apply db_wf_intro; unfold insert_signup, signup_ids in *; simpl;
      rewrite ?map_app; auto with camp.
    - apply Forall_app_single; [done|]. by apply time_ok_affinity.
    - apply Forall_app_single; [|done]. by eapply refs_mono; [| |exact Hr].
  Qed.

Lemma update_camper_row_wf c :
    camper_valid c = true -> db_wf (update_camper_row d c).
  Proof.
    destruct Hwf as (Hc & Ha & Hs & Hcs & Ht & Hr). intros Hok.
    apply db_wf_intro; rewrite ?update_camper_row_ids; auto.
    - unfold update_camper_row; simpl. apply Forall_forall.
      intros c' (c'' & -> & Hc'')%list_elem_of_fmap.
      destruct (Camper.id c'' =? Camper.id c)%Z; [by apply stored_camper_ok|].
      by eapply Forall_forall in Hcs.
    - eapply refs_mono; [| |exact Hr]; [rewrite update_camper_row_ids|]; set_solver.
  Qed.

Lemma delete_activity_cascade_wf aid : db_wf (delete_activity_cascade d aid).
  Proof.
    destruct Hwf as (Hc & Ha & Hs & Hcs & Ht & Hr).
    apply db_wf_intro; try apply ids_ok_filter; simpl; auto with camp.
    apply Forall_forall. intros s Hs'.
    apply list_elem_of_In, filter_In in Hs' as [Hs' Hne].
    apply negb_true_iff, Z.eqb_neq in Hne.
    assert (Hs'' : s ∈ signups d) by by apply list_elem_of_In.
    eapply Forall_forall in Hr as [Hrc Hra]; [|exact Hs''].
    split; [done|]. by apply delete_activity_ids.
  Qed.
End preservation.

#[export] Hint Resolve insert_camper_wf insert_activity_wf insert_signup_wf
  update_camper_row_wf delete_activity_cascade_wf : camp.

(** ** Flush: every value written by an INSERT or UPDATE is bound *)
Definition flush_check (vs : list json) : pyres unit :=
  if forallb sqlite_bindable vs then Ok tt else raise DBAPIError.

Lemma flush_check_Ok vs : flush_check vs = Ok tt <-> forallb sqlite_bindable vs = true.
Proof. unfold flush_check. destruct (forallb _ _); split; congruence. Qed.

(** ** A small store used by the witnesses: one camper, one activity,
    one signup between them. *)
Definition sample_db : db :=
  mkdb [Camper.mk 1 (JStr "Sam") (JInt 12)]
       [Activity.mk 1 (JStr "Canoeing") (JInt 3)]
       [Signup.mk 1 (JInt 9) 1 1].

Lemma sample_db_wf : db_wf sample_db.
Proof. apply (bool_decide_unpack _). vm_compute. reflexivity. Qed.

Lemma insert_camper_fresh_id_witness :
  Forall (fun i => 0 < i < 2 ^ 63 - 1)%Z (camper_ids sample_db) /\
  let '(c, d') := insert_camper sample_db (JStr "Ann") (JInt 9) in
  ((Camper.id c) ∉ (camper_ids sample_db) /\ (forall i, i ∈ camper_ids sample_db -> (i < Camper.id c)%Z) /\
   camper_ids d' = camper_ids sample_db ++ [Camper.id c] /\ (1 <= Camper.id c <= 2 ^ 63 - 1)%Z).
Proof.
  assert (H : Forall (fun i => 0 < i < 2 ^ 63 - 1)%Z (camper_ids sample_db)) by (repeat constructor; lia).
  split; [exact H|]. exact (insert_camper_fresh_id sample_db (JStr "Ann") (JInt 9) H).
Defined.
