(* ===== verification/Serialize.v ===== *)
(** * Serialisation: [to_dict] with the [serialize_rules] of models.py

    The three classes inherit [SerializerMixin] (sqlalchemy_serializer).
    [obj.to_dict(rules=...)] walks the object greedily: every mapped
    attribute of the class (its columns and its relationships, backrefs
    included) is serialised unless the schema excludes it.  The schema is
    a tree built from rule strings: ["-signups.camper"] marks the node at
    path [signups], [camper] as excluded, ["signups"] marks a node as
    included.  Before serialising a model, the serialiser extends its
    current schema with the model's own [serialize_rules]; the value of
    an attribute [k] is serialised with the subtree at [k].  No call of
    this program passes [only=...], so every schema is greedy: a key is
    serialised unless its node is excluded.

    [ser_model] / [ser_value] implement this walk with depth fuel; the
    explicit views ([camper_view], [signup_view], ...) are what the walk
    produces for the rules of models.py, and the theorems of this file
    prove the walk equal to them for every fuel from [ser_fuel] on, so
    the fuel bound never cuts the output.  Dict keys are listed in sorted
    order, the order in which [jsonify] (sort_keys) emits them. *)

From Stdlib Require Import ZArith QArith String Ascii.
From stdpp Require Import base list strings decidable.
From S2P Require Import Prelude Json Models Store.

(** ** Rules and schema trees *)

(** [str.split('.')]. *)
Fixpoint split_dot (s : string) : list string :=
  match s with
  | EmptyString => [""%string]
  | String c s' =>
      let rest := split_dot s' in
      if Ascii.eqb c "."%char then ""%string :: rest
      else match rest with
           | [] => [String c EmptyString]
           | r :: rs => String c r :: rs
           end
  end.

(** [str.lstrip('-')]. *)
Fixpoint lstrip_dash (s : string) : string :=
  match s with
  | String c s' => if Ascii.eqb c "-"%char then lstrip_dash s' else s
  | EmptyString => EmptyString
  end.

Record rule := mk_rule { rule_negative : bool; rule_keys : list string }.

(** [Rule(text)]: negative when the text starts with ['-']. *)
Definition parse_rule (text : string) : rule :=
  mk_rule (String.prefix "-" text) (split_dot (lstrip_dash text)).

Inductive tree := Node (to_include to_exclude : bool) (children : list (string * tree)).

Definition empty_tree : tree := Node false false [].

Definition children (t : tree) : list (string * tree) :=
  match t with Node _ _ ch => ch end.

Fixpoint assoc (k : string) (ch : list (string * tree)) : option tree :=
  match ch with
  | [] => None
  | (k', t) :: ch' => if String.eqb k' k then Some t else assoc k ch'
  end.

Fixpoint set_child (k : string) (t : tree) (ch : list (string * tree)) : list (string * tree) :=
  match ch with
  | [] => [(k, t)]
  | (k', t') :: ch' => if String.eqb k' k then (k, t) :: ch' else (k', t') :: set_child k t ch'
  end.

(** [schema.fork(key)]: the subtree at [key], or a fresh greedy tree. *)
Definition fork (t : tree) (k : string) : tree := default empty_tree (assoc k (children t)).

(** Apply one rule: walk its keys, creating nodes, and flag the last. *)
Fixpoint apply_keys (neg : bool) (keys : list string) (t : tree) : tree :=
  match keys, t with
  | [], Node inc exc ch => if neg then Node inc true ch else Node true exc ch
  | k :: ks, Node inc exc ch => Node inc exc (set_child k (apply_keys neg ks (fork t k)) ch)
  end.

Definition apply_rules (t : tree) (rules : list string) : tree :=
  fold_left (fun t r => let r := parse_rule r in apply_keys (rule_negative r) (rule_keys r) t)
    rules t.

(** [schema.is_included(key)] for a greedy schema. *)
Definition is_included (t : tree) (k : string) : bool :=
  match assoc k (children t) with
  | Some (Node _ true _) => false
  | _ => true
  end.

(** ** The objects and their attributes *)

Inductive obj := OCamper (c : Camper.t) | OActivity (a : Activity.t) | OSignup (s : Signup.t).

Inductive attrval :=
| AScalar (j : json)
| AObj (o : obj)
| AList (l : list obj)
| ANone.

(** The [serialize_rules] class attributes of models.py. *)
Definition camper_serialize_rules : list string := ["-signups.camper"]%string.
Definition activity_serialize_rules : list string := ["-signups.activity"]%string.
Definition signup_serialize_rules : list string := ["-camper.signups"; "-activity.signups"]%string.

Definition serialize_rules (o : obj) : list string :=
  match o with
  | OCamper _ => camper_serialize_rules
  | OActivity _ => activity_serialize_rules
  | OSignup _ => signup_serialize_rules
  end.

(** The mapped attributes of each class, columns and relationships
    (the [camper] and [activity] backrefs of [Signup] included). *)
Definition attrs (o : obj) : list string :=
  match o with
  | OCamper _ => ["age"; "id"; "name"; "signups"]
  | OActivity _ => ["difficulty"; "id"; "name"; "signups"]
  | OSignup _ => ["activity"; "activity_id"; "camper"; "camper_id"; "id"; "time"]
  end%string.

Definition getattr (d : db) (o : obj) (k : string) : attrval :=
  match o with
  | OCamper c =>
      if String.eqb k "age" then AScalar (Camper.age c)
      else if String.eqb k "id" then AScalar (JInt (Camper.id c))
      else if String.eqb k "name" then AScalar (Camper.name c)
      else if String.eqb k "signups" then AList (map OSignup (signups_of_camper d (Camper.id c)))
      else ANone
  | OActivity a =>
      if String.eqb k "difficulty" then AScalar (Activity.difficulty a)
      else if String.eqb k "id" then AScalar (JInt (Activity.id a))
      else if String.eqb k "name" then AScalar (Activity.name a)
      else if String.eqb k "signups" then AList (map OSignup (signups_of_activity d (Activity.id a)))
      else ANone
  | OSignup s =>
      if String.eqb k "activity" then
        match find_activity d (Signup.activity_id s) with Some a => AObj (OActivity a) | None => ANone end
      else if String.eqb k "activity_id" then AScalar (JInt (Signup.activity_id s))
      else if String.eqb k "camper" then
        match find_camper d (Signup.camper_id s) with Some c => AObj (OCamper c) | None => ANone end
      else if String.eqb k "camper_id" then AScalar (JInt (Signup.camper_id s))
      else if String.eqb k "id" then AScalar (JInt (Signup.id s))
      else if String.eqb k "time" then AScalar (Signup.time s)
      else ANone
  end.

(** ** The serialiser *)

Fixpoint ser_model (fuel : nat) (d : db) (sch : tree) (o : obj) : json :=
  match fuel with
  | O => JNull
  | S n =>
      let sch' := apply_rules sch (serialize_rules o) in
      JObj (map (fun k => (k, ser_value n d (fork sch' k) (getattr d o k)))
                (List.filter (is_included sch') (attrs o)))
  end
with ser_value (fuel : nat) (d : db) (sch : tree) (v : attrval) : json :=
  match fuel with
  | O => JNull
  | S n =>
      match v with
      | AScalar j => j
      | ANone => JNull
      | AObj o => ser_model n d sch o
      | AList os => JArr (map (ser_model n d sch) os)
      end
  end.

(** Depth fuel of [to_dict]: the deepest view nests three models. *)
Definition ser_fuel : nat := 8.

(** [obj.to_dict(rules=rules)]. *)
Definition to_dict (d : db) (rules : list string) (o : obj) : json :=
  ser_model ser_fuel d (apply_rules empty_tree rules) o.

(** ** The views the rules of models.py produce *)

Definition opt_json {A} (f : A -> json) (o : option A) : json :=
  match o with Some a => f a | None => JNull end.

Definition camper_plain (c : Camper.t) : json :=
  JObj [("age", Camper.age c); ("id", JInt (Camper.id c)); ("name", Camper.name c)]%string.

Definition activity_plain (a : Activity.t) : json :=
  JObj [("difficulty", Activity.difficulty a); ("id", JInt (Activity.id a));
        ("name", Activity.name a)]%string.

(** A signup under its camper: its activity nested, no camper. *)
Definition signup_in_camper_view (d : db) (s : Signup.t) : json :=
  JObj [("activity", opt_json activity_plain (find_activity d (Signup.activity_id s)));
        ("activity_id", JInt (Signup.activity_id s)); ("camper_id", JInt (Signup.camper_id s));
        ("id", JInt (Signup.id s)); ("time", Signup.time s)]%string.

(** A signup under its activity: its camper nested, no activity. *)
Definition signup_in_activity_view (d : db) (s : Signup.t) : json :=
  JObj [("activity_id", JInt (Signup.activity_id s));
        ("camper", opt_json camper_plain (find_camper d (Signup.camper_id s)));
        ("camper_id", JInt (Signup.camper_id s)); ("id", JInt (Signup.id s));
        ("time", Signup.time s)]%string.

Definition camper_view (d : db) (c : Camper.t) : json :=
  JObj [("age", Camper.age c); ("id", JInt (Camper.id c)); ("name", Camper.name c);
        ("signups", JArr (map (signup_in_camper_view d) (signups_of_camper d (Camper.id c))))]%string.

Definition activity_view (d : db) (a : Activity.t) : json :=
  JObj [("difficulty", Activity.difficulty a); ("id", JInt (Activity.id a));
        ("name", Activity.name a);
        ("signups", JArr (map (signup_in_activity_view d)
                              (signups_of_activity d (Activity.id a))))]%string.

(** A signup on its own: camper and activity nested, neither with its
    signups. *)
Definition signup_view (d : db) (s : Signup.t) : json :=
  JObj [("activity", opt_json activity_plain (find_activity d (Signup.activity_id s)));
        ("activity_id", JInt (Signup.activity_id s));
        ("camper", opt_json camper_plain (find_camper d (Signup.camper_id s)));
        ("camper_id", JInt (Signup.camper_id s)); ("id", JInt (Signup.id s));
        ("time", Signup.time s)]%string.

(** The rules of the camper-by-id lookup (routes.py:31). *)
Definition camper_detail_rules : list string := ["signups"; "signups.activity"]%string.

(** Unfold the views, step the walk through the relationship list, and
    finish by cases on the backref lookups. *)
Ltac ser_unfold :=
  unfold camper_view, activity_view, signup_view, signup_in_camper_view,
    signup_in_activity_view, opt_json, activity_plain, camper_plain;
  simpl; rewrite ?map_map;
  try (erewrite map_ext; [reflexivity|]; intros ?; simpl);
  repeat match goal with
    | |- context [find_activity ?d ?k] => destruct (find_activity d k); simpl
    | |- context [find_camper ?d ?k] => destruct (find_camper d k); simpl
    end; reflexivity.

(** ** The walk equals the views from depth 6 on *)

Lemma ser_camper_default d c n :
  ser_model (6 + n) d empty_tree (OCamper c) = camper_view d c.
Proof. ser_unfold. Qed.

Lemma ser_camper_detail d c n :
  ser_model (6 + n) d (apply_rules empty_tree camper_detail_rules) (OCamper c) = camper_view d c.
Proof. ser_unfold. Qed.

Lemma ser_activity_default d a n :
  ser_model (6 + n) d empty_tree (OActivity a) = activity_view d a.
Proof. ser_unfold. Qed.

Lemma ser_signup_default d s n :
  ser_model (6 + n) d empty_tree (OSignup s) = signup_view d s.
Proof. ser_unfold. Qed.

Lemma fuel_split (n : nat) : 6 <= n -> exists k, n = 6 + k.
Proof. intros H. exists (n - 6). lia. Qed.

(** ** [to_dict] at the calls of routes.py *)

(** Handlers are reasoned about through the views below, not by
    unfolding the walk. *)
Arguments to_dict : simpl never.

Lemma to_dict_camper d c : to_dict d [] (OCamper c) = camper_view d c.
Proof. apply (ser_camper_default d c 2). Qed.

Lemma to_dict_camper_detail d c : to_dict d camper_detail_rules (OCamper c) = camper_view d c.
Proof. apply (ser_camper_detail d c 2). Qed.

Lemma to_dict_activity d a : to_dict d [] (OActivity a) = activity_view d a.
Proof. apply (ser_activity_default d a 2). Qed.

Lemma to_dict_signup d s : to_dict d [] (OSignup s) = signup_view d s.
Proof. apply (ser_signup_default d s 2). Qed.

(** C17: from depth 6 on, the walk of every object under the schema of
    [to_dict()] and of the camper under the detail rules does not
    depend on the fuel: the exclusion rules of models.py cut every cycle
    Camper -> Signup -> Camper and Activity -> Signup -> Activity, and
    [ser_fuel] never truncates a response. *)
Theorem ser_fuel_sufficient d n :
  6 <= n ->
  (forall o, ser_model n d empty_tree o = to_dict d [] o) /\
  (forall c, ser_model n d (apply_rules empty_tree camper_detail_rules) (OCamper c) =
             to_dict d camper_detail_rules (OCamper c)).
Proof.
  intros [k ->]%fuel_split. unfold to_dict, ser_fuel. split.
  - intros [c|a|s].
    + rewrite (ser_camper_default d c k). symmetry. apply (ser_camper_default d c 2).
    + rewrite (ser_activity_default d a k). symmetry. apply (ser_activity_default d a 2).
    + rewrite (ser_signup_default d s k). symmetry. apply (ser_signup_default d s 2).
  - intros c. rewrite (ser_camper_detail d c k). symmetry. apply (ser_camper_detail d c 2).
Qed.

Lemma ser_fuel_sufficient_witness :
  6 <= 6 /\
  ((forall o, ser_model 6 sample_db empty_tree o = to_dict sample_db [] o) /\
   (forall c, ser_model 6 sample_db (apply_rules empty_tree camper_detail_rules) (OCamper c) =
              to_dict sample_db camper_detail_rules (OCamper c))).
Proof. split; [lia|]. apply (ser_fuel_sufficient sample_db 6). lia. Defined.

(** ** The nesting the specification asks for (spec.md §8) *)

(** C27: GET /campers/<id> serialises the camper with [signups], one
    entry per signup of the camper; in a well-formed store each entry
    nests its activity (without the activity's signups) and never its
    camper. *)
Theorem detail_response_shape d c :
  db_wf d ->
  exists kvs ss, to_dict d camper_detail_rules (OCamper c) = JObj kvs /\
    obj_get kvs "signups" = Some (JArr ss) /\ length ss = length (signups_of_camper d (Camper.id c)) /\
    Forall (fun sj => exists skvs ak, sj = JObj skvs /\ obj_get skvs "activity" = Some (JObj ak) /\
                                      obj_get skvs "camper" = None /\ obj_get ak "signups" = None) ss.
Proof.
  intros Hwf. rewrite to_dict_camper_detail. do 2 eexists. split; [reflexivity|].
  split; [reflexivity|]. split; [apply length_map|].
  apply Forall_forall. intros sj Hsj%list_elem_of_In. apply list_elem_of_fmap in Hsj as (s & -> & Hs).
  assert (Hs' : s ∈ signups d).
  { unfold signups_of_camper in Hs. apply list_elem_of_In, filter_In in Hs as [Hs _].
    by apply list_elem_of_In. }
  destruct (signup_refs_found d s Hwf Hs') as [_ [a Ha]].
  unfold signup_in_camper_view, activity_plain. rewrite Ha. simpl.
  do 2 eexists. split; [reflexivity|]. split; [reflexivity|]. split; reflexivity.
Qed.

(** C28: POST /signups answers the signup with its camper and its
    activity nested, in a well-formed store both present, and neither
    nests its signups back. *)
Theorem signup_response_shape d s :
  db_wf d -> s ∈ signups d ->
  exists kvs ck ak, to_dict d [] (OSignup s) = JObj kvs /\
    obj_get kvs "camper" = Some (JObj ck) /\ obj_get kvs "activity" = Some (JObj ak) /\
    obj_get ck "signups" = None /\ obj_get ak "signups" = None.
Proof.
  intros Hwf Hs. destruct (signup_refs_found d s Hwf Hs) as [[c Hc] [a Ha]].
  rewrite to_dict_signup. unfold signup_view, camper_plain, activity_plain. rewrite Hc, Ha. simpl.
  do 3 eexists. split; [reflexivity|]. split; [reflexivity|]. split; [reflexivity|]. split; reflexivity.
Qed.

Lemma detail_response_shape_witness :
  db_wf sample_db /\
  exists kvs ss, to_dict sample_db camper_detail_rules (OCamper (Camper.mk 1 (JStr "Sam") (JInt 12))) = JObj kvs /\
    obj_get kvs "signups" = Some (JArr ss) /\
    length ss = length (signups_of_camper sample_db 1) /\
    Forall (fun sj => exists skvs ak, sj = JObj skvs /\ obj_get skvs "activity" = Some (JObj ak) /\
                                      obj_get skvs "camper" = None /\ obj_get ak "signups" = None) ss.
Proof. split; [exact sample_db_wf|]. apply detail_response_shape, sample_db_wf. Defined.

Lemma signup_response_shape_witness :
  db_wf sample_db /\ Signup.mk 1 (JInt 9) 1 1 ∈ signups sample_db /\
  exists kvs ck ak, to_dict sample_db [] (OSignup (Signup.mk 1 (JInt 9) 1 1)) = JObj kvs /\
    obj_get kvs "camper" = Some (JObj ck) /\ obj_get kvs "activity" = Some (JObj ak) /\
    obj_get ck "signups" = None /\ obj_get ak "signups" = None.
Proof.
  assert (Hs : Signup.mk 1 (JInt 9) 1 1 ∈ signups sample_db) by left.
  split; [exact sample_db_wf|]. split; [exact Hs|]. exact (signup_response_shape _ _ sample_db_wf Hs).
Defined.
