(* ===== verification/Routing.v ===== *)
(** * The URL map: the rules of routes.py and werkzeug's matching

    Each [@api_bp.route] decorator of routes.py is a [rule]: its path,
    split at ['/'] into static parts and the [<int:id>] converter, the
    methods of the decorator and the view it binds.  Flask adds HEAD to
    a rule with GET and OPTIONS to every rule ([provide_automatic_options]);
    [url_map] lists the rules in the order routes.py declares them, the
    blueprint's prefix ['/'] leaving their paths as written.

    A request path is the list of segments after its first ['/']
    (["campers"; "12"] for [/campers/12], ["campers"; ""] for
    [/campers/], [""; "campers"] for [//campers]).  [match_url] is
    werkzeug's [MapAdapter.match] on these rules (werkzeug 2.2 and
    later): the leading slashes of the path are stripped; a rule whose
    parts match and whose methods contain the request's is the match
    (OPTIONS then answered by Flask itself); otherwise the path is
    matched again with its slashes merged by [re.sub("/{2,}?", "/", path)],
    and a match there is a 308 redirect to the merged path; otherwise a
    rule whose parts matched in either attempt with other methods makes
    a 405, and no such rule a 404. *)

From Stdlib Require Import ZArith String Ascii.
From stdpp Require Import base list strings sets.
From S2P Require Import Prelude Json.

Local Open Scope string_scope.

Inductive method := GET | HEAD | POST | PUT | PATCH | DELETE | OPTIONS.

#[export] Instance method_eq_dec : EqDecision method.
Proof. solve_decision. Defined.

Definition mem_method (m : method) (ms : list method) : bool :=
  existsb (fun m' => bool_decide (m = m')) ms.

(** The endpoints of routes.py, with the converted URL argument. *)
Inductive endpoint :=
| EListCampers
| EGetCamperById (id : Z)
| ECreateCamper
| EUpdateCamper (id : Z)
| EListActivities
| EDeleteActivity (id : Z)
| ECreateSignup.

Inductive url_match :=
| Matched (e : endpoint)
| AutoOptions
| WrongMethod
| Redirect (path : list string)
| NoRule.

(** The value of a string of decimal digits, accumulated into [acc];
    [None] at the first character that is not a digit. *)
Fixpoint digits_value (s : string) (acc : Z) : option Z :=
  match s with
  | EmptyString => Some acc
  | String c s' =>
      let n := Z.of_nat (nat_of_ascii c) in
      if ((48 <=? n) && (n <=? 57))%Z then digits_value s' (acc * 10 + (n - 48))%Z
      else None
  end.

(** werkzeug's IntegerConverter: [\d+], then [int(...)]. *)
Definition int_converter (seg : string) : option Z :=
  match seg with
  | EmptyString => None
  | _ => digits_value seg 0
  end.

(** ** The rules *)

Inductive part := PStatic (s : string) | PInt.

Record rule := mkrule {
  rule_parts : list part;
  rule_methods : list method;     (** the [methods=] of the decorator *)
  rule_endpoint : list Z -> endpoint
}.

(** The methods Flask registers for a rule: HEAD with GET, and OPTIONS. *)
Definition flask_methods (ms : list method) : list method :=
  (ms ++ (if mem_method GET ms then [HEAD] else []) ++ [OPTIONS])%list.

(** routes.py:16. *)
Definition rule_list_campers := mkrule [PStatic "campers"] [GET] (fun _ => EListCampers).
(** routes.py:23. *)
Definition rule_get_camper_by_id :=
  mkrule [PStatic "campers"; PInt] [GET] (fun args => EGetCamperById (List.hd 0%Z args)).
(** routes.py:33. *)
Definition rule_create_camper := mkrule [PStatic "campers"] [POST] (fun _ => ECreateCamper).
(** routes.py:54. *)
Definition rule_update_camper :=
  mkrule [PStatic "campers"; PInt] [PATCH] (fun args => EUpdateCamper (List.hd 0%Z args)).
(** routes.py:81. *)
Definition rule_list_activities := mkrule [PStatic "activities"] [GET] (fun _ => EListActivities).
(** routes.py:87. *)
Definition rule_delete_activity :=
  mkrule [PStatic "activities"; PInt] [DELETE] (fun args => EDeleteActivity (List.hd 0%Z args)).
(** routes.py:101. *)
Definition rule_create_signup := mkrule [PStatic "signups"] [POST] (fun _ => ECreateSignup).

(** routes.py:8, the blueprint with prefix ['/'] and its rules in order. *)
Definition url_map : list rule :=
  [rule_list_campers; rule_get_camper_by_id; rule_create_camper; rule_update_camper;
   rule_list_activities; rule_delete_activity; rule_create_signup].

(** ** Matching *)

(** The converted arguments when every part matches its segment. *)
Fixpoint match_parts (ps : list part) (segs : list string) : option (list Z) :=
  match ps, segs with
  | [], [] => Some []
  | PStatic s :: ps, seg :: segs => if String.eqb s seg then match_parts ps segs else None
  | PInt :: ps, seg :: segs =>
      match int_converter seg with
      | Some n => option_map (cons n) (match_parts ps segs)
      | None => None
      end
  | _, _ => None
  end.

(** The first rule whose parts match and whose methods contain [m]. *)
Fixpoint find_rule (m : method) (p : list string) (rs : list rule) : option endpoint :=
  match rs with
  | [] => None
  | r :: rs =>
      match match_parts (rule_parts r) p with
      | Some args =>
          if mem_method m (flask_methods (rule_methods r)) then Some (rule_endpoint r args)
          else find_rule m p rs
      | None => find_rule m p rs
      end
  end.

(** [have_match_for]: the methods of the rules whose parts match. *)
Definition allowed_methods (p : list string) (rs : list rule) : list method :=
  flat_map (fun r => match match_parts (rule_parts r) p with
                     | Some _ => flask_methods (rule_methods r)
                     | None => []
                     end) rs.

(** [path_info.lstrip('/')]: the leading empty segments go, the path
    [/] keeping its one empty segment. *)
Fixpoint lstrip_path (p : list string) : list string :=
  match p with
  | [] => []
  | s :: rest =>
      match rest with
      | [] => [s]
      | _ :: _ => if String.eqb s "" then lstrip_path rest else p
      end
  end.

(** [re.sub("/{2,}?", "/", path)] read on segments: the lazy pattern
    takes two slashes at a time from the left, so an empty segment
    followed by another segment merges the slash before it with the one
    after it, and the scan goes on after that second slash. *)
Fixpoint merge_slashes (p : list string) : list string :=
  match p with
  | [] => []
  | s :: rest =>
      match rest with
      | [] => [s]
      | t :: rest' => if String.eqb s "" then t :: merge_slashes rest' else s :: merge_slashes rest
      end
  end.

(** app.py:11, the rules registered on the application and matched by
    werkzeug's [MapAdapter.match] as Flask's [dispatch_request] uses it. *)
Definition match_url (m : method) (path : list string) : url_match :=
  let p := lstrip_path path in
  match find_rule m p url_map with
  | Some e => if bool_decide (m = OPTIONS) then AutoOptions else Matched e
  | None =>
      let p' := merge_slashes p in
      match find_rule m p' url_map with
      | Some _ => Redirect p'
      | None =>
          match (allowed_methods p url_map ++ allowed_methods p' url_map)%list with
          | [] => NoRule
          | _ => WrongMethod
          end
      end
  end.

(** ** URLs with a decimal id *)

Lemma digits_value_str ds acc :
  Forall (fun d => d < 10)%N ds -> digits_value (str_of_digits ds) acc = Some (horner ds acc).
Proof.
  revert acc. induction ds as [|d ds IH]; intros acc Hds; [done|].
  apply Forall_cons_1 in Hds as [Hd Hds]. simpl.
  unfold nat_of_ascii, digit_char. rewrite N_ascii_embedding by lia.
  rewrite N_nat_Z, N2Z.inj_add.
  rewrite IH by exact Hds. unfold horner; simpl.
  replace ((48 <=? 48 + Z.of_N d) && (48 + Z.of_N d <=? 57))%Z with true
    by (symmetry; apply andb_true_iff; split; apply Z.leb_le; lia).
  by replace (acc * 10 + (48 + Z.of_N d - 48))%Z with (acc * 10 + Z.of_N d)%Z by lia.
Qed.

(** werkzeug's [int] converter reads back the decimal form of an id. *)
Lemma int_converter_dec n : int_converter (dec_string n) = Some (Z.of_N n).
Proof.
  unfold dec_string. remember (S (N.to_nat (N.size n))) as f eqn:Hf.
  assert (Hne : rev (dec_rev f n) <> []).
  { subst f; simpl. destruct (n <? 10)%N; simpl; [done|]. intros H%app_eq_nil. by destruct H. }
  pose proof (digits_value_str (rev (dec_rev f n)) 0) as Hd.
  rewrite horner_rev_dec in Hd by (subst f; apply dec_string_fuel).
  destruct (rev (dec_rev f n)) as [|d ds] eqn:Hr; [done|].
  apply Hd. rewrite <- Hr. apply Forall_rev, dec_rev_digits.
Qed.

Lemma int_text_nonneg n : (0 <= n)%Z -> int_text n = dec_string (Z.to_N n).
Proof. intros Hn. unfold int_text. by destruct (Z.ltb_spec n 0); [lia|]. Qed.

(** The URL [/campers/<str(id)>] of a positive 64-bit id selects the
    camper-by-id view of that id. *)
Lemma match_url_camper_id id :
  (0 <= id)%Z -> match_url GET ["campers"; int_text id] = Matched (EGetCamperById id).
Proof.
  intros Hid. rewrite int_text_nonneg by exact Hid. unfold match_url.
  cbn -[int_converter dec_string]. rewrite int_converter_dec, Z2N.id by exact Hid. reflexivity.
Qed.

(** ** HEAD and OPTIONS *)

Lemma flask_methods_options ms : mem_method OPTIONS (flask_methods ms) = true.
Proof. unfold flask_methods, mem_method. rewrite !existsb_app. cbn. by rewrite !orb_true_r. Qed.

Lemma flask_methods_head ms :
  mem_method HEAD ms = false ->
  mem_method HEAD (flask_methods ms) = mem_method GET (flask_methods ms).
Proof.
  unfold flask_methods. intros H. unfold mem_method in *. rewrite !existsb_app, H. cbn.
  destruct (existsb (fun m' => bool_decide (GET = m')) ms); reflexivity.
Qed.

(** HEAD finds the rule GET finds: no decorator lists HEAD itself. *)
Lemma find_rule_head rs q :
  Forall (fun r => mem_method HEAD (rule_methods r) = false) rs ->
  find_rule HEAD q rs = find_rule GET q rs.
Proof.
  induction 1 as [|r rs Hr _ IH]; [done|]. cbn [find_rule].
  rewrite flask_methods_head by exact Hr. by destruct (match_parts _ _); rewrite IH.
Qed.

(** Every rule answers OPTIONS: a path with no rule for OPTIONS has no
    rule at all. *)
Lemma find_rule_options rs q : find_rule OPTIONS q rs = None -> allowed_methods q rs = [].
Proof.
  induction rs as [|r rs IH]; [done|]. cbn [find_rule]. unfold allowed_methods in *. cbn [flat_map].
  rewrite flask_methods_options. destruct (match_parts _ _); [done|]. apply IH.
Qed.

Lemma url_map_no_head : Forall (fun r => mem_method HEAD (rule_methods r) = false) url_map.
Proof. by repeat constructor. Qed.

Lemma match_url_head p : match_url HEAD p = match_url GET p.
Proof. unfold match_url. by rewrite !(find_rule_head _ _ url_map_no_head). Qed.

(** OPTIONS is answered by Flask on a path some rule matches, redirected
    when the path needs its slashes merged, and 404 elsewhere: never 405. *)
Lemma match_url_options p :
  match_url OPTIONS p = AutoOptions \/ match_url OPTIONS p = NoRule \/
  match_url OPTIONS p = Redirect (merge_slashes (lstrip_path p)).
Proof.
  unfold match_url. destruct (find_rule OPTIONS (lstrip_path p) url_map) as [e|] eqn:F1; [by left|].
  destruct (find_rule OPTIONS (merge_slashes _) url_map) as [e|] eqn:F2; [by right; right|].
  rewrite !find_rule_options by assumption. by right; left.
Qed.

(** ** Paths without empty segments *)

Definition clean_path (p : list string) : Prop := Forall (fun s => s <> "") p.

Lemma lstrip_clean p : clean_path p -> lstrip_path p = p.
Proof.
  intros Hp. destruct Hp as [|s rest Hs _]; [done|]. cbn.
  destruct rest; [done|]. by rewrite (proj2 (String.eqb_neq _ _) Hs).
Qed.

Lemma merge_clean p : clean_path p -> merge_slashes p = p.
Proof.
  induction 1 as [|s rest Hs Hrest IH]; [done|]. cbn.
  destruct rest as [|t rest']; [done|]. by rewrite (proj2 (String.eqb_neq _ _) Hs), IH.
Qed.

Lemma lstrip_head r rest : r <> "" -> lstrip_path (r :: rest) = r :: rest.
Proof. intros Hr. cbn. destruct rest; [done|]. by rewrite (proj2 (String.eqb_neq _ _) Hr). Qed.

Lemma merge_head r rest : r <> "" -> exists rest', merge_slashes (r :: rest) = r :: rest'.
Proof.
  intros Hr. cbn. destruct rest as [|t rest]; [by eexists|].
  rewrite (proj2 (String.eqb_neq _ _) Hr). by eexists.
Qed.

Ltac unfold_rules :=
  unfold url_map, rule_list_campers, rule_get_camper_by_id, rule_create_camper, rule_update_camper,
    rule_list_activities, rule_delete_activity, rule_create_signup;
  cbn [find_rule allowed_methods flat_map rule_parts rule_methods rule_endpoint match_parts].

(** Every rule starts with [campers], [activities] or [signups]. *)
Lemma url_map_first_segment m r q :
  r ∉ ["campers"; "activities"; "signups"] ->
  find_rule m (r :: q) url_map = None /\ allowed_methods (r :: q) url_map = [].
Proof.
  intros Hr.
  assert (H1 : String.eqb "campers" r = false) by (apply String.eqb_neq; set_solver).
  assert (H2 : String.eqb "activities" r = false) by (apply String.eqb_neq; set_solver).
  assert (H3 : String.eqb "signups" r = false) by (apply String.eqb_neq; set_solver).
  unfold allowed_methods. unfold_rules. by rewrite H1, H2, H3.
Qed.

(** No rule has an empty second part: an empty segment after the first
    matches no rule. *)
Lemma url_map_empty_second m r q : find_rule m (r :: "" :: q) url_map = None.
Proof.
  unfold_rules. cbn -[String.eqb].
  by destruct (String.eqb "campers" r), (String.eqb "activities" r), (String.eqb "signups" r).
Qed.

(** Merging the slashes of [/r//t/...] gives [/r/t/...]. *)
Lemma merge_double r t rest :
  clean_path (r :: t :: rest) -> merge_slashes (r :: "" :: t :: rest) = r :: t :: rest.
Proof.
  intros Hc. apply Forall_cons_1 in Hc as [Hr Hc]. apply Forall_cons_1 in Hc as [_ Hc].
  cbn. rewrite (proj2 (String.eqb_neq _ _) Hr). cbn. by rewrite merge_clean.
Qed.

(** On a path without empty segments werkzeug's two attempts are one:
    the view of the first rule with the method, else 405 when some rule
    matches the path, else 404. *)
Lemma match_url_clean m p :
  clean_path p ->
  match_url m p =
  match find_rule m p url_map with
  | Some e => if bool_decide (m = OPTIONS) then AutoOptions else Matched e
  | None => match allowed_methods p url_map with [] => NoRule | _ => WrongMethod end
  end.
Proof.
  intros Hp. unfold match_url. rewrite lstrip_clean, merge_clean by exact Hp.
  destruct (find_rule m p url_map); [done|]. by destruct (allowed_methods p url_map).
Qed.
