(* ===== verification/Routes.v ===== *)
(** * routes.py: the request handlers

    Each handler is a function of the committed store [d] (and of the
    URL argument and the request body where the handler reads them) to
    a [pyres (response * db)]: [Ok (r, d')] when the view returns the
    response [r] and the store is [d'] after its commit, [Err e] when an
    exception escapes the view (Flask then answers by itself and the
    uncommitted session is discarded; see [App.finish]).

    The structure of the code is kept: what routes.py runs before its
    [try:] can escape; inside [try:], every exception is caught
    ([except AssertionError] and [except Exception] answer alike), the
    session is rolled back, so the store stays [d], and the uniform 400
    is returned.  The writes of a handler happen at its commit, the last
    step of the [try:] block, so the store after a caught exception is
    the store before the request. *)

From Stdlib Require Import ZArith QArith String.
From stdpp Require Import base list strings.
From S2P Require Import Prelude Json Models Store Serialize Routing.

(** ** Requests and responses *)

(** The body of a request as [request.get_json()] sees it. *)
Inductive req_body :=
| RJson (j : json)   (** a JSON body with a JSON content type *)
| RNotJson           (** no JSON content type: 415 Unsupported Media Type *)
| RMalformed.        (** a JSON content type with a body that does not parse *)

Definition get_json (b : req_body) : pyres json :=
  match b with
  | RJson j => Ok j
  | RNotJson => raise (HTTPError 415)
  | RMalformed => raise (HTTPError 400)
  end.

Inductive body :=
| BJson (j : json)   (** [jsonify(...)] *)
| BEmpty             (** [''] *)
| BPage (code : Z)   (** werkzeug's HTML page for an HTTP error *)
| BRedirect (location : list string).
    (** werkzeug's 308 page, whose [Location] is the path given *)

Record response := mkresp { status : Z; resp_body : body }.

Definition error_json (msg : string) : body := BJson (JObj [("error", JStr msg)]%string).

(** routes.py:11-12. *)
Definition validation_error_response : response :=
  mkresp 400 (BJson (JObj [("errors", JArr [JStr "validation errors"])]%string)).

Abbreviation outcome := (pyres (response * db)).

(** ** The handlers *)

(** routes.py:16-21. *)
Definition list_campers (d : db) : outcome :=
  Ok (mkresp 200 (BJson (JArr (map (fun c => to_dict d [] (OCamper c)) (campers d)))), d).

(** routes.py:23-31. *)
Definition get_camper_by_id (d : db) (id : Z) : outcome :=
  camper <- query_get_camper d (JInt id) ;;
  match camper with
  | None => Ok (mkresp 404 (error_json "Camper not found"), d)
  | Some c => Ok (mkresp 200 (BJson (to_dict d camper_detail_rules (OCamper c))), d)
  end.

(** routes.py:33-52. *)
Definition create_camper (d : db) (b : req_body) : outcome :=
  data <- get_json b ;;
  Ok (try (name <- py_get data "name" ;;
           age <- py_get data "age" ;;
           na <- Camper_init name age ;;
           flush_check [na.1; na.2] ;;;
           let '(c, d') := insert_camper d na.1 na.2 in
           Ok (mkresp 201 (BJson (to_dict d' [] (OCamper c))), d'))
      except (fun _ => (validation_error_response, d))).

(** [if key in data: camper.<key> = data[key]]: the assignment runs the
    validator through [set]; the assigned value is recorded for the
    flush. *)
Definition assign_if_present (data : json) (key : string)
    (set : Camper.t -> json -> pyres Camper.t) (c : Camper.t) (written : list json)
    : pyres (Camper.t * list json) :=
  present <- py_in key data ;;
  if present then
    v <- py_getitem data key ;;
    c' <- set c v ;;
    Ok (c', written ++ [v])
  else Ok (c, written).

(** routes.py:54-76. *)
Definition update_camper (d : db) (id : Z) (b : req_body) : outcome :=
  camper <- query_get_camper d (JInt id) ;;
  match camper with
  | None => Ok (mkresp 404 (error_json "Camper not found"), d)
  | Some c =>
      data <- get_json b ;;
      Ok (try (cw <- assign_if_present data "name" set_name c [] ;;
               cw <- assign_if_present data "age" set_age cw.1 cw.2 ;;
               flush_check cw.2 ;;;
               let d' := update_camper_row d cw.1 in
               Ok (mkresp 202 (BJson (to_dict d' [] (OCamper (refresh_camper d' cw.1)))), d'))
          except (fun _ => (validation_error_response, d)))
  end.

(** routes.py:81-85. *)
Definition list_activities (d : db) : outcome :=
  Ok (mkresp 200 (BJson (JArr (map (fun a => to_dict d [] (OActivity a)) (activities d)))), d).

(** routes.py:87-97. *)
Definition delete_activity (d : db) (id : Z) : outcome :=
  activity <- query_get_activity d (JInt id) ;;
  match activity with
  | None => Ok (mkresp 404 (error_json "Activity not found"), d)
  | Some a => Ok (mkresp 204 BEmpty, delete_activity_cascade d (Activity.id a))
  end.

(** routes.py:101-138.  [not Camper.query.get(camper_id) or not
    Activity.query.get(activity_id)] runs the second query only when the
    camper exists. *)
Definition create_signup (d : db) (b : req_body) : outcome :=
  data <- get_json b ;;
  camper_id <- py_get data "camper_id" ;;
  activity_id <- py_get data "activity_id" ;;
  time <- py_get data "time" ;;
  camper <- query_get_camper d camper_id ;;
  match camper with
  | None => Ok (validation_error_response, d)
  | Some c =>
      activity <- query_get_activity d activity_id ;;
      match activity with
      | None => Ok (validation_error_response, d)
      | Some a =>
          Ok (try (f <- Signup_init camper_id activity_id time ;;
                   flush_check [f.1.1; f.1.2; f.2] ;;;
                   let '(s, d') := insert_signup d f.2 (Camper.id c) (Activity.id a) in
                   Ok (mkresp 201 (BJson (to_dict d' [] (OSignup s))), d'))
              except (fun _ => (validation_error_response, d)))
      end
  end.

(** routes.py:142-144. *)
Definition not_found_response : response := mkresp 404 (error_json "Resource not found").

(** ** Lemmas shared by the handler theorems *)

Definition field (kvs : list (string * json)) (k : string) : json := default JNull (obj_get kvs k).

Definition in_int64 (n : Z) : Prop := (- 2 ^ 63 <= n < 2 ^ 63)%Z.

Lemma query_get_camper_int d n : in_int64 n -> query_get_camper d (JInt n) = Ok (find_camper d n).
Proof. intros Hn. unfold query_get_camper, identity_key, scalar_key; simpl.
  by rewrite bool_decide_eq_true_2 by exact Hn. Qed.

Lemma query_get_activity_int d n : in_int64 n -> query_get_activity d (JInt n) = Ok (find_activity d n).
Proof. intros Hn. unfold query_get_activity, identity_key, scalar_key; simpl.
  by rewrite bool_decide_eq_true_2 by exact Hn. Qed.

(** An id sent as the decimal text [str(n)] selects the row [n]. *)
Lemma query_get_camper_text d n :
  in_int64 n -> query_get_camper d (JStr (int_text n)) = Ok (find_camper d n).
Proof.
  intros Hn. unfold query_get_camper, identity_key, scalar_key. cbn [sqlite_bindable sqlite_key rbind].
  by rewrite (text_rowid_inject_Z _ n (int_text_numeric n) Hn).
Qed.

Lemma query_get_activity_text d n :
  in_int64 n -> query_get_activity d (JStr (int_text n)) = Ok (find_activity d n).
Proof.
  intros Hn. unfold query_get_activity, identity_key, scalar_key. cbn [sqlite_bindable sqlite_key rbind].
  by rewrite (text_rowid_inject_Z _ n (int_text_numeric n) Hn).
Qed.

(** The constructor and the flush of create_camper succeed together
    exactly on a committable name and age; whatever they raise, the
    handler's [except] answers the same. *)
Lemma Camper_init_flush {A} name age (k : json * json -> pyres A) (x : A) :
  (try (na <- Camper_init name age ;; flush_check [na.1; na.2] ;;; k na) except (fun _ => x)) =
  if row_name_ok name && row_age_ok age then try (k (name, age)) except (fun _ => x) else x.
Proof.
  unfold Camper_init, row_name_ok. rewrite validate_name_cases, validate_age_cases.
  destruct (truthy name); simpl; [|done].
  destruct (row_age_ok age) eqn:Ha; [|rewrite andb_false_r; by destruct (as_number age)].
  unfold flush_check; simpl. rewrite (row_age_bindable age Ha).
  by destruct (sqlite_bindable name).
Qed.

#[export] Hint Rewrite to_dict_camper to_dict_camper_detail to_dict_activity to_dict_signup
  : camp_rw.

(** ** create_camper *)

(** C2: POST /campers answers 201 with the new camper and inserts it
    exactly when the body is an object whose [name] is truthy and
    bindable and whose [age] is a number in [8, 18]; every other JSON
    body answers the uniform 400 and leaves the store unchanged. *)
Theorem create_camper_spec d j :
  create_camper d (RJson j) =
  match j with
  | JObj kvs =>
      let name := field kvs "name" in
      let age := field kvs "age" in
      if row_name_ok name && row_age_ok age then
        let '(c, d') := insert_camper d name age in
        Ok (mkresp 201 (BJson (camper_view d' c)), d')
      else Ok (validation_error_response, d)
  | _ => Ok (validation_error_response, d)
  end.
Proof.
  destruct j as [| | | | | |kvs]; try reflexivity.
  unfold create_camper; simpl. rewrite Camper_init_flush. unfold field.
  destruct (_ && _); [|done]. simpl. by rewrite to_dict_camper.
Qed.

(** [create_camper] on an object body: the shape of its [try:]. *)
Lemma create_camper_obj d kvs :
  create_camper d (RJson (JObj kvs)) =
  if row_name_ok (field kvs "name") && row_age_ok (field kvs "age") then
    let '(c, d') := insert_camper d (field kvs "name") (field kvs "age") in
    Ok (mkresp 201 (BJson (camper_view d' c)), d')
  else Ok (validation_error_response, d).
Proof.
  unfold create_camper; simpl. rewrite Camper_init_flush. unfold field.
  destruct (_ && _); [|done]. simpl. by rewrite to_dict_camper.
Qed.

(** ** update_camper *)

(** The camper after [PATCH]: each field present in the body replaces
    the stored one. *)
Definition patched (c : Camper.t) (kvs : list (string * json)) : Camper.t :=
  Camper.mk (Camper.id c) (default (Camper.name c) (obj_get kvs "name"))
            (default (Camper.age c) (obj_get kvs "age")).

(** Every field present in the body is committable. *)
Definition patch_ok (kvs : list (string * json)) : bool :=
  match obj_get kvs "name" with Some v => row_name_ok v | None => true end &&
  match obj_get kvs "age" with Some v => row_age_ok v | None => true end.

Lemma assign_if_present_obj kvs key set c w :
  assign_if_present (JObj kvs) key set c w =
  match obj_get kvs key with
  | Some v => c' <- set c v ;; Ok (c', w ++ [v])
  | None => Ok (c, w)
  end.
Proof.
  unfold assign_if_present, py_in, py_getitem; simpl.
  by destruct (obj_get kvs key).
Qed.

(** The assignments and the flush of update_camper succeed together
    exactly when every field present is committable. *)
Definition patch_written (kvs : list (string * json)) : list json :=
  match obj_get kvs "name" with Some v => [v] | None => [] end ++
  match obj_get kvs "age" with Some v => [v] | None => [] end.

Lemma patch_flush {A} c kvs (k : Camper.t * list json -> pyres A) (x : A) :
  (try (cw <- assign_if_present (JObj kvs) "name" set_name c [] ;;
        cw <- assign_if_present (JObj kvs) "age" set_age cw.1 cw.2 ;;
        flush_check cw.2 ;;; k cw) except (fun _ => x)) =
  if patch_ok kvs then try (k (patched c kvs, patch_written kvs)) except (fun _ => x) else x.
Proof.
  destruct c as [cid cname cage].
  unfold patch_ok, patched, patch_written, row_name_ok, set_name, set_age.
  rewrite assign_if_present_obj. destruct (obj_get kvs "name") as [vn|]; simpl.
  - rewrite validate_name_cases. destruct (truthy vn); simpl; [|done].
    rewrite assign_if_present_obj. destruct (obj_get kvs "age") as [va|]; simpl.
    + rewrite validate_age_cases. destruct (row_age_ok va) eqn:Ha; simpl.
      * unfold flush_check; simpl. rewrite (row_age_bindable va Ha).
        by destruct (sqlite_bindable vn).
      * rewrite andb_false_r. by destruct (as_number va).
    + unfold flush_check; simpl. by destruct (sqlite_bindable vn).
  - rewrite assign_if_present_obj. destruct (obj_get kvs "age") as [va|]; simpl; [|done].
    rewrite validate_age_cases. destruct (row_age_ok va) eqn:Ha; simpl.
    + unfold flush_check; simpl. by rewrite (row_age_bindable va Ha).
    + by destruct (as_number va).
Qed.

(** C4: PATCH /campers/<id> on an existing camper answers 202 and writes
    every field present in the body when all of them are committable,
    and otherwise answers the uniform 400 with the store unchanged: a
    valid name is not kept when the age beside it fails.  An absent
    camper answers 404. *)
Theorem update_camper_spec d id kvs :
  in_int64 id ->
  update_camper d id (RJson (JObj kvs)) =
  match find_camper d id with
  | None => Ok (mkresp 404 (error_json "Camper not found"), d)
  | Some c =>
      if patch_ok kvs then
        let d' := update_camper_row d (patched c kvs) in
        Ok (mkresp 202 (BJson (camper_view d' (stored_camper (patched c kvs)))), d')
      else Ok (validation_error_response, d)
  end.
Proof.
  intros Hid. unfold update_camper. rewrite query_get_camper_int by exact Hid.
  cbn [rbind]. destruct (find_camper d id) as [c|] eqn:Hc; [|done]. cbn [rbind get_json].
  rewrite patch_flush. destruct (patch_ok kvs); [|done]. simpl. rewrite to_dict_camper.
  pose proof (find_camper_Some _ _ _ Hc) as [_ Hcid].
  rewrite refresh_camper_update; [done|]. simpl. rewrite Hcid. exact (find_camper_id _ _ _ Hc).
Qed.

(** [data[k]] on a body that is not a dict raises TypeError. *)
Lemma py_getitem_non_object j k : (forall kvs, j <> JObj kvs) -> py_getitem j k = raise TypeError.
Proof. intros Hj. destruct j; try reflexivity. by destruct (Hj kvs). Qed.

(** C25: PATCH /campers/<id> with a JSON body that is not an object:
    [k in data] is membership for a list and substring search for a
    string, and raises TypeError for null, a number or a boolean.  When
    neither "name" nor "age" is found the commit writes nothing and the
    answer is 202 with the camper as stored; when one is found,
    [data[k]] raises TypeError, which the handler's [except] answers
    with the uniform 400, as it answers null, numbers and booleans.
    The specification only speaks of object bodies. *)
Theorem update_camper_non_object d id c j :
  db_wf d -> in_int64 id -> find_camper d id = Some c -> (forall kvs, j <> JObj kvs) ->
  update_camper d id (RJson j) =
  match py_in "name" j, py_in "age" j with
  | Ok false, Ok false => Ok (mkresp 202 (BJson (camper_view d c)), d)
  | _, _ => Ok (validation_error_response, d)
  end.
Proof.
  intros Hwf Hid Hc Hj. pose proof (find_camper_Some _ _ _ Hc) as [Hin Hcid].
  assert (Hsame : update_camper_row d c = d).
  { destruct Hwf as ([Hnd _] & _ & _ & Hcs & _). apply update_camper_row_same; [done|done|].
    by eapply Forall_forall in Hcs. }
  assert (Hre : refresh_camper d c = c) by (unfold refresh_camper; by rewrite Hcid, Hc).
  unfold update_camper. rewrite query_get_camper_int by exact Hid. cbn [rbind]. rewrite Hc.
  cbn [rbind get_json]. unfold assign_if_present.
  destruct (py_in "name" j) as [[]|e]; cbn [rbind];
    [by rewrite py_getitem_non_object| |reflexivity].
  destruct (py_in "age" j) as [[]|e]; cbn [rbind];
    [by rewrite py_getitem_non_object| |reflexivity].
  unfold flush_check. cbn [forallb rbind try_except fst snd]. rewrite Hsame, Hre. by rewrite to_dict_camper.
Qed.

(** ** create_signup *)

(** POST /signups with a body that is not a JSON object raises
    AttributeError at [data.get], before the handler's [try:]. *)
Lemma create_signup_non_object d j :
  (forall kvs, j <> JObj kvs) -> create_signup d (RJson j) = raise AttributeError.
Proof. intros Hj. destruct j; try reflexivity. by destruct (Hj kvs). Qed.

(** The constructor and the flush of create_signup: the same
    all-or-nothing shape as [Camper_init_flush]. *)
Lemma Signup_init_flush {A} cj aj t (k : json * json * json -> pyres A) (x : A) :
  (try (f <- Signup_init cj aj t ;; flush_check [f.1.1; f.1.2; f.2] ;;; k f) except (fun _ => x)) =
  if row_time_ok t && sqlite_bindable cj && sqlite_bindable aj
  then try (k (cj, aj, t)) except (fun _ => x) else x.
Proof.
  unfold Signup_init. rewrite validate_time_cases.
  destruct (row_time_ok t) eqn:Ht; [|by destruct (as_number t)]. simpl.
  unfold flush_check; simpl. rewrite (row_time_bindable t Ht), andb_true_r.
  by destruct (sqlite_bindable cj), (sqlite_bindable aj).
Qed.

(** The three branches of create_signup on an object body. *)
Lemma create_signup_no_camper d kvs :
  query_get_camper d (field kvs "camper_id") = Ok None ->
  create_signup d (RJson (JObj kvs)) = Ok (validation_error_response, d).
Proof. intros Hc. unfold create_signup; simpl. unfold field in Hc. by rewrite Hc. Qed.

Lemma create_signup_no_activity d kvs c :
  query_get_camper d (field kvs "camper_id") = Ok (Some c) ->
  query_get_activity d (field kvs "activity_id") = Ok None ->
  create_signup d (RJson (JObj kvs)) = Ok (validation_error_response, d).
Proof. intros Hc Ha. unfold create_signup; simpl. unfold field in Hc, Ha. by rewrite Hc; simpl; rewrite Ha. Qed.

Lemma create_signup_found d kvs c a :
  query_get_camper d (field kvs "camper_id") = Ok (Some c) ->
  query_get_activity d (field kvs "activity_id") = Ok (Some a) ->
  create_signup d (RJson (JObj kvs)) =
  if row_time_ok (field kvs "time") && sqlite_bindable (field kvs "camper_id")
     && sqlite_bindable (field kvs "activity_id") then
    let '(s, d') := insert_signup d (field kvs "time") (Camper.id c) (Activity.id a) in
    Ok (mkresp 201 (BJson (signup_view d' s)), d')
  else Ok (validation_error_response, d).
Proof.
  intros Hc Ha. unfold create_signup; simpl. unfold field in *.
  rewrite Hc; simpl. rewrite Ha. cbn [rbind]. rewrite Signup_init_flush.
  destruct (_ && _ && _); [|done]. simpl. by rewrite to_dict_signup.
Qed.

(** C5: POST /signups with integer ids: when the camper and the activity
    exist and [time] is a number in [0, 23], the signup is inserted with
    the next id and the response is 201 with the camper and the
    activity nested; a missing camper, a missing activity or a time out
    of range answers the uniform 400 and leaves the store unchanged. *)
Theorem create_signup_int_spec d cid aid t :
  in_int64 cid -> in_int64 aid ->
  create_signup d (RJson (JObj [("camper_id", JInt cid); ("activity_id", JInt aid); ("time", t)]%string)) =
  match find_camper d cid, find_activity d aid with
  | Some _, Some _ =>
      if row_time_ok t then
        let '(s, d') := insert_signup d t cid aid in
        Ok (mkresp 201 (BJson (signup_view d' s)), d')
      else Ok (validation_error_response, d)
  | _, _ => Ok (validation_error_response, d)
  end.
Proof.
  intros Hc Ha.
  pose proof (query_get_camper_int d cid Hc) as Qc. pose proof (query_get_activity_int d aid Ha) as Qa.
  destruct (find_camper d cid) as [c|] eqn:Fc; [|by apply create_signup_no_camper].
  destruct (find_activity d aid) as [a|] eqn:Fa; [|by eapply create_signup_no_activity].
  rewrite (create_signup_found d [("camper_id", JInt cid); ("activity_id", JInt aid); ("time", t)]%string
             c a Qc Qa).
  unfold field; simpl.
  rewrite !bool_decide_eq_true_2 by assumption. rewrite !andb_true_r.
  apply find_camper_Some in Fc as [_ ->]. by apply find_activity_Some in Fa as [_ ->].
Qed.

(** C15: the time validator does not check that the hour is an integer:
    a signup at a fractional hour such as [9.5] between an existing
    camper and activity is created with 201 and stored as that REAL
    (the INTEGER column converts only integral values), where the
    specification requires an integer hour. *)
Theorem create_signup_fractional_time d c a q :
  find_camper d 1 = Some c -> find_activity d 1 = Some a ->
  (0 <= q <= 23)%Q -> integral_fits q = false ->
  exists s d',
    create_signup d (RJson (JObj [("camper_id", JInt 1); ("activity_id", JInt 1);
                                  ("time", JFloat q)]%string)) =
    Ok (mkresp 201 (BJson (signup_view d' s)), d') /\ Signup.time s = JFloat q.
Proof.
  intros Fc Fa [Hlo Hhi] Hf.
  assert (Hq : row_time_ok (JFloat q) = true).
  { unfold row_time_ok, in_range; simpl. apply andb_true_iff. split; by apply Qle_bool_iff. }
  rewrite (create_signup_found d [("camper_id", JInt 1); ("activity_id", JInt 1); ("time", JFloat q)]%string
             c a); unfold field; simpl.
  - rewrite Hq. simpl. do 2 eexists. split; [reflexivity|]. simpl. by rewrite Hf.
  - unfold query_get_camper; simpl. by rewrite Fc.
  - unfold query_get_activity; simpl. by rewrite Fa.
Qed.

(** ** delete_activity, get_camper_by_id, list_campers, list_activities *)

(** C36: POST /signups with the camper and activity ids sent as the
    strings [str(n)] and [str(m)] answers and writes exactly what it
    does with the integers [n] and [m]: SQLite compares the text with
    the rowid numerically, the foreign key columns store the integer
    and the response reloads it. *)
Theorem create_signup_text_ids d n m t :
  in_int64 n -> in_int64 m ->
  create_signup d (RJson (JObj [("camper_id", JStr (int_text n)); ("activity_id", JStr (int_text m));
                                ("time", t)]%string)) =
  create_signup d (RJson (JObj [("camper_id", JInt n); ("activity_id", JInt m); ("time", t)]%string)).
Proof.
  intros Hn Hm. unfold create_signup.
  cbn [get_json rbind py_get obj_get fold_left fst snd String.eqb Ascii.eqb Bool.eqb andb
       default from_option id].
  rewrite query_get_camper_text, query_get_camper_int by assumption.
  cbn [rbind]. destruct (find_camper d n) as [c|]; cbn [rbind]; [|done].
  rewrite query_get_activity_text, query_get_activity_int by assumption.
  cbn [rbind]. destruct (find_activity d m) as [a|]; cbn [rbind]; [|done].
  rewrite !Signup_init_flush. cbn [sqlite_bindable].
  by rewrite !(bool_decide_eq_true_2 (- 2 ^ 63 <= _ < 2 ^ 63)%Z) by assumption.
Qed.

(** C3: DELETE /activities/<id> answers 204 with an empty body and
    commits the cascade when the activity exists, and 404 with the store
    unchanged when it does not. *)
Theorem delete_activity_spec d id :
  in_int64 id ->
  delete_activity d id =
  match find_activity d id with
  | None => Ok (mkresp 404 (error_json "Activity not found"), d)
  | Some _ => Ok (mkresp 204 BEmpty, delete_activity_cascade d id)
  end.
Proof.
  intros Hid. unfold delete_activity. rewrite query_get_activity_int by exact Hid. simpl.
  destruct (find_activity d id) as [a|] eqn:Fa; [|done].
  by apply find_activity_Some in Fa as [_ ->].
Qed.

(** GET /campers/<id>: 200 with the camper and its signups, each
    signup with its activity and without its camper; 404 when absent. *)
Lemma get_camper_by_id_spec d id :
  in_int64 id ->
  get_camper_by_id d id =
  match find_camper d id with
  | None => Ok (mkresp 404 (error_json "Camper not found"), d)
  | Some c => Ok (mkresp 200 (BJson (camper_view d c)), d)
  end.
Proof.
  intros Hid. unfold get_camper_by_id. rewrite query_get_camper_int by exact Hid. simpl.
  destruct (find_camper d id); [|done]. by rewrite to_dict_camper_detail.
Qed.

(** C8: GET /campers serialises every camper with [to_dict()], whose
    greedy schema keeps the [signups] relationship: the list carries
    exactly the detail view of GET /campers/<id>, signups included,
    where the specification and the comment at routes.py:20 say the
    signups are excluded. *)
Theorem list_campers_detail_view d :
  list_campers d =
  Ok (mkresp 200 (BJson (JArr (map (fun c => to_dict d camper_detail_rules (OCamper c))
                                    (campers d)))), d).
Proof.
  unfold list_campers. do 5 f_equal. apply map_ext. intros c.
  by rewrite to_dict_camper, to_dict_camper_detail.
Qed.

Lemma list_activities_spec d :
  list_activities d = Ok (mkresp 200 (BJson (JArr (map (activity_view d) (activities d)))), d).
Proof. unfold list_activities. do 5 f_equal. apply map_ext. intros a. apply to_dict_activity. Qed.

(** ** What a handler may do to the store

    A handler outcome is [write_ok] when the store it leaves is the
    store it was given, or the response is a 201, 202 or 204 and the
    new store keeps the invariant. *)
Definition success_status (z : Z) : bool := bool_decide (z ∈ [201; 202; 204]%Z).

Definition write_ok (d : db) (o : outcome) : Prop :=
  match o with
  | Ok (r, d') => d' = d \/ (success_status (status r) = true /\ (db_wf d -> db_wf d'))
  | Err _ => True
  end.

Lemma query_get_camper_Some d v c :
  query_get_camper d v = Ok (Some c) -> Camper.id c ∈ camper_ids d.
Proof.
  unfold query_get_camper. destruct (identity_key v) as [[k|]|]; simpl; intros H; try done.
  injection H as H. pose proof (find_camper_Some _ _ _ H) as [_ Hk]. rewrite Hk.
  by eapply find_camper_id.
Qed.

Lemma query_get_activity_Some d v a :
  query_get_activity d v = Ok (Some a) -> Activity.id a ∈ activity_ids d.
Proof.
  unfold query_get_activity. destruct (identity_key v) as [[k|]|]; simpl; intros H; try done.
  injection H as H. pose proof (find_activity_Some _ _ _ H) as [_ Hk]. rewrite Hk.
  by eapply find_activity_id.
Qed.

Lemma query_get_camper_member d v c :
  query_get_camper d v = Ok (Some c) -> c ∈ campers d.
Proof.
  unfold query_get_camper. destruct (identity_key v) as [[k|]|]; simpl; intros H; try done.
  injection H as H. by apply find_camper_Some in H as [? _].
Qed.

Lemma set_name_Ok c v c' :
  set_name c v = Ok c' -> c' = Camper.mk (Camper.id c) v (Camper.age c) /\ truthy v = true.
Proof.
  unfold set_name. rewrite validate_name_cases.
  destruct (truthy v); simpl; intros H; [by injection H as <- | done].
Qed.

Lemma set_age_Ok c v c' :
  set_age c v = Ok c' -> c' = Camper.mk (Camper.id c) (Camper.name c) v /\ row_age_ok v = true.
Proof.
  unfold set_age. rewrite validate_age_cases.
  destruct (row_age_ok v); [simpl; intros H; by injection H as <-|]. by destruct (as_number v).
Qed.

Lemma assign_if_present_Ok j key set c w c' w' :
  assign_if_present j key set c w = Ok (c', w') ->
  (c' = c /\ w' = w) \/ exists v, set c v = Ok c' /\ w' = w ++ [v].
Proof.
  unfold assign_if_present. destruct (py_in key j) as [[]|]; simpl; intros H; [|by left; injection H as -> ->|done].
  destruct (py_getitem j key) as [v|]; simpl in H; [|done].
  destruct (set c v) as [c''|] eqn:Hs; simpl in H; [|done].
  injection H as <- <-. right. eauto.
Qed.

(** The camper written by update_camper is committable and keeps its id. *)
Lemma patch_result j c c2 w :
  camper_valid c = true ->
  (cw <- assign_if_present j "name" set_name c [] ;;
   assign_if_present j "age" set_age cw.1 cw.2) = Ok (c2, w) ->
  flush_check w = Ok tt ->
  camper_valid c2 = true /\ Camper.id c2 = Camper.id c.
Proof.
  intros Hc H Hf. apply flush_check_Ok in Hf. rewrite forallb_forall in Hf.
  destruct (assign_if_present j "name" set_name c []) as [[c1 w1]|] eqn:H1; simpl in H; [|done].
  apply assign_if_present_Ok in H1 as [[-> ->]|(vn & Hn & ->)];
  apply assign_if_present_Ok in H as [[-> ->]|(va & Ha & ->)]; try done.
  - apply set_age_Ok in Ha as [-> Ha]. unfold camper_valid in *; simpl.
    apply andb_true_iff in Hc as [? _]. by rewrite Ha, andb_true_r.
  - apply set_name_Ok in Hn as [-> Hn]. unfold camper_valid, row_name_ok in *; simpl.
    apply andb_true_iff in Hc as [_ ->]. rewrite Hn, Hf; [done|]. simpl; auto.
  - apply set_name_Ok in Hn as [-> Hn]. apply set_age_Ok in Ha as [-> Ha].
    unfold camper_valid, row_name_ok; simpl. rewrite Hn, Ha, Hf; [done|]. simpl; auto.
Qed.

(** The camper the assignments of update_camper leave: the fields the
    body carries replace those of [c]. *)
Definition patch_with (on oa : option json) (c : Camper.t) : Camper.t :=
  Camper.mk (Camper.id c) (default (Camper.name c) on) (default (Camper.age c) oa).

(** Whether the assignments raise, and which values they assign, depends
    on the body only, not on the camper they are applied to. *)
Lemma assign_chain_shape j :
  (exists e, forall c B (k : Camper.t * list json -> pyres B),
     (cw <- assign_if_present j "name" set_name c [] ;;
      cw <- assign_if_present j "age" set_age cw.1 cw.2 ;; k cw) = Err e) \/
  (exists on oa w, forall c B (k : Camper.t * list json -> pyres B),
     (cw <- assign_if_present j "name" set_name c [] ;;
      cw <- assign_if_present j "age" set_age cw.1 cw.2 ;; k cw) = k (patch_with on oa c, w)).
Proof.
  unfold assign_if_present, set_name, set_age, validate_name.
  destruct (py_in "name" j) as [[]|e]; cbn [rbind]; [| |left; by exists e].
  - destruct (py_getitem j "name") as [vn|e]; cbn [rbind]; [|left; by exists e].
    destruct (truthy vn); cbn [negb rbind]; [|left; by eexists].
    destruct (py_in "age" j) as [[]|e]; cbn [rbind fst snd]; [| |left; by exists e].
    + destruct (py_getitem j "age") as [va|e]; cbn [rbind]; [|left; by exists e].
      rewrite validate_age_cases. destruct (row_age_ok va); cbn [rbind].
      * right. by exists (Some vn), (Some va), [vn; va].
      * left. destruct (as_number va); by eexists.
    + right. by exists (Some vn), None, [vn].
  - destruct (py_in "age" j) as [[]|e]; cbn [rbind fst snd]; [| |left; by exists e].
    + destruct (py_getitem j "age") as [va|e]; cbn [rbind]; [|left; by exists e].
      rewrite validate_age_cases. destruct (row_age_ok va); cbn [rbind].
      * right. by exists None, (Some va), [va].
      * left. destruct (as_number va); by eexists.
    + right. exists None, None, []. by intros [].
Qed.

(** Patching a stored camper again with the same fields stores the same
    row. *)
Lemma stored_patch_with_idem on oa c :
  stored_camper (patch_with on oa (stored_camper (patch_with on oa c))) =
  stored_camper (patch_with on oa c).
Proof.
  destruct on, oa; unfold stored_camper, patch_with; cbn [Camper.id Camper.name Camper.age default from_option id];
    by rewrite ?text_affinity_id, ?integer_affinity_id by
      (apply text_affinity_normal || apply integer_affinity_normal).
Qed.

Section write_ok_lemmas.
Context (d : db).

Lemma list_campers_write_ok : write_ok d (list_campers d).
  Proof. by left. Qed.

Lemma list_activities_write_ok : write_ok d (list_activities d).
  Proof. by left. Qed.

Lemma get_camper_by_id_write_ok id : write_ok d (get_camper_by_id d id).
  Proof.
    unfold get_camper_by_id. destruct (query_get_camper d (JInt id)) as [[]|]; simpl; by try left.
  Qed.

Lemma create_camper_write_ok b : write_ok d (create_camper d b).
  Proof.
    destruct b as [j| |]; [|done|done]. unfold create_camper; simpl.
    destruct (py_get j "name") as [name|]; simpl; [|by left].
    destruct (py_get j "age") as [age|]; simpl; [|by left].
    rewrite Camper_init_flush. destruct (_ && _) eqn:Hok; [|by left].
    right. split; [done|]. apply andb_true_iff in Hok as [Hn Ha].
    intros Hwf. by apply insert_camper_wf.
  Qed.

Lemma update_camper_write_ok id b : write_ok d (update_camper d id b).
  Proof.
    unfold update_camper.
    destruct (query_get_camper d (JInt id)) as [[c|]|] eqn:Hq; simpl; [|by left|done].
    destruct (get_json b) as [j|]; simpl; [|done].
    rewrite <- rbind_assoc.
    destruct (cw <- assign_if_present j "name" set_name c [] ;;
              assign_if_present j "age" set_age cw.1 cw.2) as [[c2 w]|] eqn:Ha; simpl; [|by left].
    destruct (flush_check w) as [[]|] eqn:Hf; simpl; [|by left].
    right. split; [done|]. intros Hwf. apply update_camper_row_wf; [done|].
    assert (Hc : camper_valid c = true).
    { destruct Hwf as (_ & _ & _ & Hcs & _). apply camper_ok_valid.
      eapply Forall_forall in Hcs; [exact Hcs|].
      by eapply query_get_camper_member. }
    by destruct (patch_result j c c2 w Hc Ha Hf).
  Qed.

Lemma delete_activity_write_ok id : write_ok d (delete_activity d id).
  Proof.
    unfold delete_activity. destruct (query_get_activity d (JInt id)) as [[a|]|]; simpl; [|by left|done].
    right. split; [done|]. intros Hwf. by apply delete_activity_cascade_wf.
  Qed.

Lemma create_signup_write_ok b : write_ok d (create_signup d b).
  Proof.
    destruct b as [j| |]; [|done|done].
    destruct j as [| | | | | |kvs]; try done. unfold create_signup; simpl.
    destruct (query_get_camper d _) as [[c|]|] eqn:Hc; simpl; [|by left|done].
    destruct (query_get_activity d _) as [[a|]|] eqn:Ha; simpl; [|by left|done].
    rewrite Signup_init_flush. destruct (_ && _ && _) eqn:Hok; [|by left]. simpl.
    right. split; [done|]. intros Hwf.
    apply andb_true_iff in Hok as [[Ht _]%andb_true_iff _].
    apply insert_signup_wf; [done|done| |].
    - by eapply query_get_camper_Some.
    - by eapply query_get_activity_Some.
  Qed.
End write_ok_lemmas.

(** The view each rule of [Routing.url_map] binds (routes.py:16-102). *)
Definition run_endpoint (d : db) (e : endpoint) (b : req_body) : outcome :=
  match e with
  | EListCampers => list_campers d
  | EGetCamperById id => get_camper_by_id d id
  | ECreateCamper => create_camper d b
  | EUpdateCamper id => update_camper d id b
  | EListActivities => list_activities d
  | EDeleteActivity id => delete_activity d id
  | ECreateSignup => create_signup d b
  end.

Lemma run_endpoint_write_ok d e b : write_ok d (run_endpoint d e b).
Proof.
  destruct e; simpl.
  - apply list_campers_write_ok.
  - apply get_camper_by_id_write_ok.
  - apply create_camper_write_ok.
  - apply update_camper_write_ok.
  - apply list_activities_write_ok.
  - apply delete_activity_write_ok.
  - apply create_signup_write_ok.
Qed.



(** ** Witnesses *)

Lemma update_camper_spec_witness :
  in_int64 1 /\
  update_camper sample_db 1 (RJson (JObj [("age", JInt 25)]%string)) =
  match find_camper sample_db 1 with
  | None => Ok (mkresp 404 (error_json "Camper not found"), sample_db)
  | Some c =>
      if patch_ok [("age", JInt 25)]%string then
        let d' := update_camper_row sample_db (patched c [("age", JInt 25)]%string) in
        Ok (mkresp 202 (BJson (camper_view d' (stored_camper (patched c [("age", JInt 25)]%string)))), d')
      else Ok (validation_error_response, sample_db)
  end.
Proof. split; [unfold in_int64; lia|]. apply update_camper_spec. unfold in_int64; lia. Defined.

Lemma create_signup_int_spec_witness :
  in_int64 1 /\ in_int64 1 /\
  create_signup sample_db
    (RJson (JObj [("camper_id", JInt 1); ("activity_id", JInt 1); ("time", JInt 30)]%string)) =
  match find_camper sample_db 1, find_activity sample_db 1 with
  | Some _, Some _ =>
      if row_time_ok (JInt 30) then
        let '(s, d') := insert_signup sample_db (JInt 30) 1 1 in
        Ok (mkresp 201 (BJson (signup_view d' s)), d')
      else Ok (validation_error_response, sample_db)
  | _, _ => Ok (validation_error_response, sample_db)
  end.
Proof.
  split; [unfold in_int64; lia|]. split; [unfold in_int64; lia|].
  apply create_signup_int_spec; unfold in_int64; lia.
Defined.

Lemma delete_activity_spec_witness :
  in_int64 1 /\
  delete_activity sample_db 1 =
  match find_activity sample_db 1 with
  | None => Ok (mkresp 404 (error_json "Activity not found"), sample_db)
  | Some _ => Ok (mkresp 204 BEmpty, delete_activity_cascade sample_db 1)
  end.
Proof. split; [unfold in_int64; lia|]. apply delete_activity_spec. unfold in_int64; lia. Defined.

Lemma create_signup_fractional_time_witness :
  find_camper sample_db 1 = Some (Camper.mk 1 (JStr "Sam") (JInt 12)) /\
  find_activity sample_db 1 = Some (Activity.mk 1 (JStr "Canoeing") (JInt 3)) /\
  (0 <= 19 # 2 <= 23)%Q /\ integral_fits (19 # 2) = false /\
  exists s d',
    create_signup sample_db (RJson (JObj [("camper_id", JInt 1); ("activity_id", JInt 1);
                                          ("time", JFloat (19 # 2))]%string)) =
    Ok (mkresp 201 (BJson (signup_view d' s)), d') /\ Signup.time s = JFloat (19 # 2).
Proof.
  split; [reflexivity|]. split; [reflexivity|].
  assert (Hq : (0 <= 19 # 2 <= 23)%Q) by (split; vm_compute; discriminate).
  split; [exact Hq|]. split; [reflexivity|].
  apply (create_signup_fractional_time sample_db (Camper.mk 1 (JStr "Sam") (JInt 12))
           (Activity.mk 1 (JStr "Canoeing") (JInt 3)) (19 # 2));
    [reflexivity|reflexivity|exact Hq|reflexivity].
Defined.

Lemma update_camper_non_object_witness :
  db_wf sample_db /\ in_int64 1 /\
  find_camper sample_db 1 = Some (Camper.mk 1 (JStr "Sam") (JInt 12)) /\
  (forall kvs, JArr [] <> JObj kvs) /\
  update_camper sample_db 1 (RJson (JArr [])) =
  match py_in "name" (JArr []), py_in "age" (JArr []) with
  | Ok false, Ok false =>
      Ok (mkresp 202 (BJson (camper_view sample_db (Camper.mk 1 (JStr "Sam") (JInt 12)))), sample_db)
  | _, _ => Ok (validation_error_response, sample_db)
  end.
Proof.
  assert (H1 : in_int64 1) by (unfold in_int64; lia).
  assert (Hj : forall kvs, JArr [] <> JObj kvs) by discriminate.
  split; [exact sample_db_wf|]. split; [exact H1|]. split; [reflexivity|]. split; [exact Hj|].
  exact (update_camper_non_object sample_db 1 _ _ sample_db_wf H1 eq_refl Hj).
Defined.

Lemma create_signup_text_ids_witness :
  in_int64 1 /\ in_int64 1 /\
  create_signup sample_db (RJson (JObj [("camper_id", JStr (int_text 1)); ("activity_id", JStr (int_text 1));
                                        ("time", JInt 9)]%string)) =
  create_signup sample_db (RJson (JObj [("camper_id", JInt 1); ("activity_id", JInt 1);
                                        ("time", JInt 9)]%string)).
Proof.
  assert (H1 : in_int64 1) by (unfold in_int64; lia).
  split; [exact H1|]. split; [exact H1|]. exact (create_signup_text_ids sample_db 1 1 (JInt 9) H1 H1).
Defined.
