(* ===== verification/App.v ===== *)
(** * The application: Flask's dispatch, its error handling, the server

    app.py registers the blueprint of routes.py (app.py:11); the URL map
    and werkzeug's matching are [Routing.match_url].  A request is a
    method, the path split at ['/'] and a body.  [handle] runs the view
    of the matched rule; a path no rule matches is a NotFound, which the
    handler registered with [app_errorhandler(404)] answers
    (routes.py:142-144); a path that matches with another method is a
    405 MethodNotAllowed page; a path that matches once its slashes are
    merged is werkzeug's 308 redirect; OPTIONS is answered automatically
    for every rule, and HEAD runs the GET view (its body is not sent,
    which the model does not track).

    [finish] is what Flask does with the outcome of a view: an exception
    that escapes is an HTTPException answered with its code (a 404 by
    the registered handler) or any other exception answered 500; in both
    cases the session is discarded at teardown, so the store is the one
    before the request.

    [handle] serves one request; [server_step] is the one-request
    transition of the server and [reachable] its reflexive-transitive
    closure from an initial store.  The theorems: the invariant and the
    frame of each view, the answers Flask and werkzeug give by
    themselves, bodies that are not JSON and ids that are not one value,
    a repeated DELETE or PATCH, a signup for a deleted activity, the
    draining of every activity by DELETE requests, and the URL
    [str(id)] of a created or patched camper, which the [int] converter
    reads back to the same id. *)

From Stdlib Require Import ZArith QArith String Ascii.
From stdpp Require Import base list strings sets.
From S2P Require Import Prelude Json Models Store Serialize Routes Routing.

Record request := mkreq { req_method : method; req_path : list string; req_data : req_body }.

Definition finish (d : db) (o : outcome) : response * db :=
  match o with
  | Ok rd => rd
  | Err (HTTPError code) =>
      (if (code =? 404)%Z then not_found_response else mkresp code (BPage code), d)
  | Err _ => (mkresp 500 (BPage 500), d)
  end.

Definition handle (d : db) (r : request) : response * db :=
  match match_url (req_method r) (req_path r) with
  | Matched e => finish d (run_endpoint d e (req_data r))
  | AutoOptions => (mkresp 200 BEmpty, d)
  | WrongMethod => (mkresp 405 (BPage 405), d)
  | Redirect p => (mkresp 308 (BRedirect p), d)
  | NoRule => (not_found_response, d)
  end.

Inductive server_step : db -> request -> response -> db -> Prop :=
| ServeRequest d r : server_step d r (handle d r).1 (handle d r).2.

Inductive reachable (d0 : db) : db -> Prop :=
| reach_init : reachable d0 d0
| reach_step d r resp d' : reachable d0 d -> server_step d r resp d' -> reachable d0 d'.

(** ** The invariant *)

Lemma finish_err d e : (finish d (Err e)).2 = d.
Proof. by destruct e as [| | | | | | |code]; [..|cbn; destruct (code =? 404)%Z]. Qed.

(** C1: serving any request from a well-formed store leaves a
    well-formed store: ids unique and positive, every camper's name
    truthy and bindable and age a number in [8, 18], every signup's time
    a number in [0, 23], and every signup referencing a live camper and
    a live activity (no orphan signups). *)
Theorem handle_preserves_wf d r : db_wf d -> db_wf (handle d r).2.
Proof.
  intros Hwf. unfold handle. destruct (match_url _ _) as [e| | | |]; cbn [snd]; try exact Hwf.
  pose proof (run_endpoint_write_ok d e (req_data r)) as Hw.
  destruct (run_endpoint d e (req_data r)) as [[resp d']|exc]; [|by rewrite finish_err].
  cbn [finish snd]. by destruct Hw as [-> | [_ H]]; [|apply H].
Qed.

(** ** URLs with a decimal id *)

Lemma handle_matched d r e :
  match_url (req_method r) (req_path r) = Matched e ->
  handle d r = finish d (run_endpoint d e (req_data r)).
Proof. intros H. unfold handle. by rewrite H. Qed.

(** What [handle] does to the store: nothing, or a write answered by a
    success status that keeps the invariant. *)
Lemma handle_write d r :
  (handle d r).2 = d \/
  (success_status (status (handle d r).1) = true /\ (db_wf d -> db_wf (handle d r).2)).
Proof.
  unfold handle. destruct (match_url _ _); simpl; try by left.
  pose proof (run_endpoint_write_ok d e (req_data r)) as Hw.
  destruct (run_endpoint d e (req_data r)) as [[resp d']|exc]; simpl in *; [done|].
  left. by destruct exc as [| | | | | | |code]; [..|destruct (code =? 404)%Z].
Qed.

(** ** The statuses of the views and the exceptions that escape them *)

(** The statuses the views of routes.py return. *)
Definition view_status (z : Z) : bool := bool_decide (z ∈ [200; 201; 202; 204; 400; 404]%Z).

(** The HTTP errors that escape a view: only [request.get_json()]
    raises one, 415 or 400; every other exception is answered 500. *)
Definition http_exc_ok (e : py_exc) : Prop :=
  match e with HTTPError code => code = 400%Z \/ code = 415%Z | _ => True end.

Definition status_ok (o : outcome) : Prop :=
  match o with Ok (r, _) => view_status (status r) = true | Err e => http_exc_ok e end.

Lemma identity_key_exc v e : identity_key v = Err e -> http_exc_ok e.
Proof. unfold identity_key, scalar_key. intros H. repeat case_match; simplify_eq; exact I. Qed.

Lemma query_get_camper_exc d v e : query_get_camper d v = Err e -> http_exc_ok e.
Proof.
  unfold query_get_camper. destruct (identity_key v) eqn:Hk; cbn [rbind]; [done|].
  intros [= <-]. by eapply identity_key_exc.
Qed.

Lemma query_get_activity_exc d v e : query_get_activity d v = Err e -> http_exc_ok e.
Proof.
  unfold query_get_activity. destruct (identity_key v) eqn:Hk; cbn [rbind]; [done|].
  intros [= <-]. by eapply identity_key_exc.
Qed.

Lemma get_json_status {A} b (k : json -> pyres A) (P : A -> Prop) :
  (forall j, match k j with Ok a => P a | Err e => http_exc_ok e end) ->
  match (j <- get_json b ;; k j) with Ok a => P a | Err e => http_exc_ok e end.
Proof. intros H. destruct b as [j| |]; [apply H|by right|by left]. Qed.

Lemma run_endpoint_status d e b : status_ok (run_endpoint d e b).
Proof.
  destruct e as [|id| |id| |id|]; cbn [run_endpoint]; unfold status_ok.
  - done.
  - unfold get_camper_by_id. destruct (query_get_camper d (JInt id)) as [[]|x] eqn:Hq; [done|done|].
    by eapply query_get_camper_exc.
  - unfold create_camper. apply get_json_status. intros j. cbn [rbind].
    destruct (py_get j "name"); cbn [rbind try_except]; [|done].
    destruct (py_get j "age"); cbn [rbind try_except]; [|done].
    rewrite Camper_init_flush. by destruct (_ && _).
  - unfold update_camper. destruct (query_get_camper d (JInt id)) as [[c|]|x] eqn:Hq; cbn [rbind];
      [|done|by eapply query_get_camper_exc].
    apply get_json_status. intros j. cbn [rbind]. rewrite <- rbind_assoc.
    destruct (cw <- assign_if_present j "name" set_name c [] ;;
              assign_if_present j "age" set_age cw.1 cw.2) as [[c2 w]|]; cbn [rbind try_except fst snd];
      [|done].
    by destruct (flush_check w) as [[]|].
  - done.
  - unfold delete_activity. destruct (query_get_activity d (JInt id)) as [[]|x] eqn:Hq; [done|done|].
    by eapply query_get_activity_exc.
  - unfold create_signup. apply get_json_status. intros j. cbn [rbind].
    destruct j as [| | | | | |kvs]; cbn [py_get rbind]; try done.
    destruct (query_get_camper d _) as [[c|]|x] eqn:Hc; cbn [rbind]; [|done|by eapply query_get_camper_exc].
    destruct (query_get_activity d _) as [[a|]|x] eqn:Ha; cbn [rbind]; [|done|by eapply query_get_activity_exc].
    rewrite Signup_init_flush. by destruct (_ && _ && _).
Qed.

(** ** Invariant *)



(** C7: a request whose response is not 201, 202 or 204 leaves the
    store exactly as it was: reads, 404s, 405s, the uniform 400 (after
    its rollback) and the 500 of an escaped exception write nothing. *)
Theorem handle_atomic d r :
  success_status (status (handle d r).1) = false -> (handle d r).2 = d.
Proof. intros Hs. destruct (handle_write d r) as [H | [H _]]; congruence. Qed.

(** ** Dispatch *)


(** C14: a method other than GET, HEAD and OPTIONS on /activities is
    answered 405 Method Not Allowed by werkzeug, not 404: in particular
    there is no POST /activities, which the scenario of the specification
    uses to create an activity. *)
Theorem handle_activities_wrong_method d m b :
  m ∉ [GET; HEAD; OPTIONS] ->
  handle d (mkreq m ["activities"]%string b) = (mkresp 405 (BPage 405), d).
Proof. intros Hm. destruct m; try reflexivity; exfalso; apply Hm; set_solver. Qed.

(** C6: POST /signups with a JSON body that is not an object is
    answered 500 (AttributeError escapes at [data.get], before the
    handler's [try:]), where the specification promises the uniform 400
    for malformed bodies; the store is untouched. *)
Theorem handle_signup_non_object_500 d j :
  (forall kvs, j <> JObj kvs) ->
  handle d (mkreq POST ["signups"]%string (RJson j)) = (mkresp 500 (BPage 500), d).
Proof. intros Hj. unfold handle; simpl. by rewrite create_signup_non_object. Qed.

(** Whether the view of [e] calls [request.get_json()] on the store
    [d]: the two POST views always, the PATCH view once [Query.get] has
    found its camper; the other views never read the body. *)
Definition reads_body (d : db) (e : endpoint) : bool :=
  match e with
  | ECreateCamper | ECreateSignup => true
  | EUpdateCamper id => match query_get_camper d (JInt id) with Ok (Some _) => true | _ => false end
  | _ => false
  end.

(** The HTTP error [request.get_json()] raises on a body. *)
Definition body_error (b : req_body) : option Z :=
  match b with RNotJson => Some 415%Z | RMalformed => Some 400%Z | RJson _ => None end.

(** C26: a body without a JSON content type, or JSON that does not
    parse, is answered by werkzeug's HTML page 415 or 400, not the
    uniform JSON body of the specification's 400, by every view that
    reads it ([request.get_json()] raises before the handler's [try:]),
    with the store unchanged; a view that does not read the body answers
    as it would with any other body. *)
Theorem handle_body_not_json d m p b e code :
  match_url m p = Matched e -> body_error b = Some code ->
  handle d (mkreq m p b) =
  if reads_body d e then (mkresp code (BPage code), d) else handle d (mkreq m p (RJson JNull)).
Proof.
  intros He Hb. rewrite !(handle_matched d _ e) by exact He. cbn [req_data].
  assert (Hg : get_json b = raise (HTTPError code)) by (destruct b; cbn in Hb; simplify_eq; reflexivity).
  assert (Hc : (code =? 404)%Z = false) by (destruct b; cbn in Hb; simplify_eq; reflexivity).
  destruct e; cbn [run_endpoint reads_body]; try reflexivity.
  - unfold create_camper. by rewrite Hg; cbn; rewrite Hc.
  - unfold update_camper. destruct (query_get_camper d (JInt id)) as [[c|]|x]; cbn [rbind]; try reflexivity.
    rewrite Hg. cbn. by rewrite Hc.
  - unfold create_signup. by rewrite Hg; cbn; rewrite Hc.
Qed.

(** C35: every response of the server has one of the statuses 200,
    201, 202, 204, 400 and 404 (the views and the registered 404
    handler), 308 (werkzeug's redirect of a path whose slashes merge
    into a rule's), 405 (a rule with another method), 415 (a body
    without a JSON content type) or 500 (any other exception escaping a
    view). *)
Theorem handle_status d r :
  (status (handle d r).1 ∈ [200; 201; 202; 204; 308; 400; 404; 405; 415; 500])%Z.
Proof.
  unfold handle. destruct (match_url _ _) as [e| | |p|]; cbn [fst status not_found_response]; try set_solver.
  pose proof (run_endpoint_status d e (req_data r)) as Hs.
  destruct (run_endpoint d e (req_data r)) as [[resp d']|x]; cbn [finish fst] in *.
  - apply bool_decide_eq_true_1 in Hs. set_solver.
  - destruct x as [| | | | | | |code]; cbn in *; [set_solver..|].
    destruct Hs as [-> | ->]; set_solver.
Qed.

(** ** HEAD and OPTIONS *)

(** C29: Flask answers HEAD with the GET view of the same rule (the
    body is dropped on the wire, which the model does not track), and
    answers OPTIONS itself without running a view or touching the store:
    200 with an empty body on a path some rule matches, werkzeug's 308
    redirect to the merged path when only merging its slashes makes a
    rule match, and the registered 404 elsewhere, never 405. *)
Theorem handle_head_options d p b :
  handle d (mkreq HEAD p b) = handle d (mkreq GET p b) /\
  (handle d (mkreq OPTIONS p b) = (mkresp 200 BEmpty, d) \/
   handle d (mkreq OPTIONS p b) = (mkresp 308 (BRedirect (merge_slashes (lstrip_path p))), d) \/
   handle d (mkreq OPTIONS p b) = (not_found_response, d)).
Proof.
  unfold handle; simpl. rewrite match_url_head. split; [done|].
  by destruct (match_url_options p) as [-> | [-> | ->]]; [left|right; right|right; left].
Qed.

(** C12: werkzeug normalises the slashes of a path before Flask
    dispatches it: leading slashes are ignored ([//campers/1] is served
    as [/campers/1]), and a path that only matches a rule once a doubled
    slash is merged ([/campers//1]) is answered with a 308 redirect to
    the merged path, without running the view or touching the store. *)
Theorem handle_slashes d m r t rest b e :
  clean_path (r :: t :: rest) -> match_url m (r :: t :: rest) = Matched e ->
  handle d (mkreq m ("" :: r :: t :: rest) b) = handle d (mkreq m (r :: t :: rest) b) /\
  handle d (mkreq m (r :: "" :: t :: rest) b) = (mkresp 308 (BRedirect (r :: t :: rest)), d).
Proof.
  intros Hc He. split; [reflexivity|].
  assert (Hr : r <> ""%string) by (by apply Forall_cons_1 in Hc as [? _]).
  rewrite match_url_clean in He by exact Hc.
  destruct (find_rule m (r :: t :: rest) url_map) as [e'|] eqn:F;
    [|by destruct (allowed_methods (r :: t :: rest) url_map)].
  unfold handle, match_url. cbn [req_method req_path]. rewrite lstrip_head by exact Hr.
  by rewrite url_map_empty_second, merge_double, F.
Qed.

(** ** Repeating a DELETE *)

Lemma handle_delete_activity_url d seg b :
  handle d (mkreq DELETE ["activities"; seg] b) =
  match int_converter seg with
  | Some id => finish d (delete_activity d id)
  | None => (not_found_response, d)
  end.
Proof. unfold handle, match_url. cbn [req_method req_path]. unfold_rules. cbn. by destruct (int_converter seg). Qed.

(** C32: DELETE /activities/<id> is idempotent: sent a second time, it
    leaves the store as the first left it and is not answered 204 (the
    activity is gone: 404; an id outside 64 bits: 500 both times). *)
Theorem delete_activity_idempotent d seg b :
  (handle (handle d (mkreq DELETE ["activities"; seg] b)).2 (mkreq DELETE ["activities"; seg] b)).2 =
  (handle d (mkreq DELETE ["activities"; seg] b)).2 /\
  status (handle (handle d (mkreq DELETE ["activities"; seg] b)).2
                 (mkreq DELETE ["activities"; seg] b)).1 <> 204%Z.
Proof.
  rewrite !handle_delete_activity_url. destruct (int_converter seg) as [id|]; [|done].
  unfold delete_activity, query_get_activity.
  destruct (identity_key (JInt id)) as [[k|]|e] eqn:Hk; cbn [rbind finish fst snd].
  - destruct (find_activity d k) as [a|] eqn:Fa; cbn [finish fst snd]; rewrite ?Fa; [|done].
    apply find_activity_Some in Fa as [_ ->]. by rewrite find_activity_cascade_self.
  - done.
  - unfold identity_key, scalar_key in Hk. destruct (sqlite_bindable _); [done|].
    injection Hk as <-. done.
Qed.


(** ** Repeating a PATCH *)

Lemma handle_update_camper_url d seg b :
  handle d (mkreq PATCH ["campers"; seg] b) =
  match int_converter seg with
  | Some id => finish d (update_camper d id b)
  | None => (not_found_response, d)
  end.
Proof. unfold handle, match_url. cbn [req_method req_path]. unfold_rules. cbn. by destruct (int_converter seg). Qed.

Lemma update_camper_repeat d id b :
  finish (finish d (update_camper d id b)).2 (update_camper (finish d (update_camper d id b)).2 id b) =
  finish d (update_camper d id b).
Proof.
  unfold update_camper, query_get_camper.
  destruct (identity_key (JInt id)) as [[k|]|e]; cbn [rbind]; [|done|by rewrite finish_err].
  destruct (find_camper d k) as [c|] eqn:Fc; cbn [rbind]; [|cbn [finish fst snd]; by rewrite Fc].
  destruct (get_json b) as [data|e]; cbn [rbind]; [|by rewrite finish_err, Fc].
  cbn [finish fst snd].
  destruct (assign_chain_shape data) as [(e & He)|(on & oa & w & Hw)].
  { rewrite !He. cbn [try_except fst snd]. by rewrite Fc, He. }
  rewrite !Hw. cbn [fst snd]. destruct (flush_check w) as [[]|e] eqn:Hf; cbn [rbind try_except fst snd];
    [|rewrite Fc; cbn iota; rewrite Hw; cbn [fst snd]; by rewrite Hf].
  pose proof (find_camper_Some _ _ _ Fc) as [_ Hk]. pose proof (find_camper_id _ _ _ Fc) as Hin.
  subst k. change (Camper.id c) with (Camper.id (patch_with on oa c)).
  rewrite (find_camper_update d (patch_with on oa c) Hin). cbn [rbind]. rewrite Hw. cbn [fst snd]. rewrite Hf. cbn [rbind try_except].
  rewrite update_camper_row_twice by (reflexivity || apply stored_patch_with_idem).
  unfold refresh_camper. cbn [Camper.id patch_with stored_camper].
  change (Camper.id c) with (Camper.id (patch_with on oa c)).
  by rewrite (find_camper_update d (patch_with on oa c) Hin).
Qed.

(** C34: PATCH /campers/<id> is idempotent: sent a second time on the
    store the first left, it gives the same response and leaves the
    same store, whatever the body (a rejected body is rejected again, an
    accepted one writes the row it already wrote). *)
Theorem update_camper_idempotent d seg b :
  handle (handle d (mkreq PATCH ["campers"; seg] b)).2 (mkreq PATCH ["campers"; seg] b) =
  handle d (mkreq PATCH ["campers"; seg] b).
Proof.
  rewrite !handle_update_camper_url. destruct (int_converter seg); [apply update_camper_repeat|done].
Qed.

(** ** The scenario of the specification *)

(** Serve a sequence of requests in order, one transaction each,
    collecting the responses. *)
Definition serve : db -> list request -> list response * db := run_all handle.

Local Open Scope string_scope.

Definition sam : json := JObj [("age", JInt 12); ("id", JInt 1); ("name", JStr "Sam")]%string.
Definition canoeing : json :=
  JObj [("difficulty", JInt 3); ("id", JInt 1); ("name", JStr "Canoeing")]%string.


(** ** A patched camper is served at its URL *)

Lemma handle_get_camper_url d seg b :
  handle d (mkreq GET ["campers"; seg] b) =
  match int_converter seg with
  | Some id => finish d (get_camper_by_id d id)
  | None => (not_found_response, d)
  end.
Proof. unfold handle, match_url. cbn [req_method req_path]. unfold_rules. cbn. by destruct (int_converter seg). Qed.

Lemma finish_err_status d e : http_exc_ok e -> status (finish d (Err e)).1 <> 202%Z.
Proof. destruct e as [| | | | | | |code]; cbn; try discriminate. intros [-> | ->]; discriminate. Qed.

(** C30: a PATCH /campers/<id> answered 202 is read back by GET at the
    same URL: 200 with the body of the 202 (the reloaded camper with
    its signups), on the store the PATCH left. *)
Theorem update_then_get d seg b r d' b' :
  handle d (mkreq PATCH ["campers"; seg] b) = (r, d') -> status r = 202%Z ->
  exists c, r = mkresp 202 (BJson (camper_view d' c)) /\
            handle d' (mkreq GET ["campers"; seg] b') = (mkresp 200 (BJson (camper_view d' c)), d').
Proof.
  rewrite handle_update_camper_url, handle_get_camper_url.
  destruct (int_converter seg) as [id|]; [|by intros [= <- _]].
  unfold update_camper, get_camper_by_id, query_get_camper.
  destruct (identity_key (JInt id)) as [[k|]|e] eqn:Hk; cbn [rbind];
    [| by intros [= <- _] | intros H Hs; exfalso; apply (finish_err_status d e); [by eapply identity_key_exc|by rewrite H]].
  destruct (find_camper d k) as [c|] eqn:Fc; cbn [rbind]; [|by intros [= <- _]].
  destruct (get_json b) as [data|e] eqn:Hj; cbn [rbind];
    [|intros H Hs; exfalso; apply (finish_err_status d e); [destruct b; cbn in Hj; simplify_eq; cbn; auto|by rewrite H]].
  destruct (assign_chain_shape data) as [(e & He)|(on & oa & w & Hw)].
  { rewrite He. by intros [= <- _]. }
  rewrite Hw. cbn [fst snd]. destruct (flush_check w) as [[]|e]; cbn [rbind try_except]; [|by intros [= <- _]].
  cbn [finish]. intros [= <- <-] _.
  pose proof (find_camper_Some _ _ _ Fc) as [_ Hid]. pose proof (find_camper_id _ _ _ Fc) as Hin.
  subst k. change (Camper.id c) with (Camper.id (patch_with on oa c)) in Hin |- *.
  exists (stored_camper (patch_with on oa c)). unfold refresh_camper.
  rewrite (find_camper_update d (patch_with on oa c) Hin). cbn [default from_option].
  rewrite to_dict_camper, to_dict_camper_detail. split; [done|]. reflexivity.
Qed.

Definition patch_request : request :=
  mkreq PATCH ["campers"; "1"] (RJson (JObj [("age", JInt 13)]%string)).

Lemma update_then_get_witness :
  handle sample_db patch_request = ((handle sample_db patch_request).1, (handle sample_db patch_request).2) /\
  status (handle sample_db patch_request).1 = 202%Z /\
  exists c, (handle sample_db patch_request).1 = mkresp 202 (BJson (camper_view (handle sample_db patch_request).2 c)) /\
            handle (handle sample_db patch_request).2 (mkreq GET ["campers"; "1"] RNotJson) =
            (mkresp 200 (BJson (camper_view (handle sample_db patch_request).2 c)), (handle sample_db patch_request).2).
Proof.
  assert (H1 : handle sample_db patch_request =
               ((handle sample_db patch_request).1, (handle sample_db patch_request).2)) by apply surjective_pairing.
  assert (H2 : status (handle sample_db patch_request).1 = 202%Z) by (vm_compute; reflexivity).
  split; [exact H1|]. split; [exact H2|].
  exact (update_then_get sample_db "1" _ _ _ RNotJson H1 H2).
Defined.

(** ** A created camper is served at its URL *)

(** C33: a camper created by POST /campers is served by GET at the URL
    of the id in its 201 body, with the same JSON object, as long as the
    new rowid fits 64 bits. *)
Theorem create_then_get d j r d' b :
  db_wf d -> Forall (fun i => i < 2 ^ 63 - 1)%Z (camper_ids d) ->
  handle d (mkreq POST ["campers"] (RJson j)) = (r, d') -> status r = 201%Z ->
  exists c, r = mkresp 201 (BJson (camper_view d' c)) /\
            handle d' (mkreq GET ["campers"; int_text (Camper.id c)] b) =
            (mkresp 200 (BJson (camper_view d' c)), d').
Proof.
  intros Hwf Hb Hh Hs. rewrite (handle_matched d _ ECreateCamper) in Hh by reflexivity.
  cbn [run_endpoint req_data] in Hh.
  destruct j as [| | | | | |kvs];
    try (unfold create_camper in Hh; simpl in Hh; injection Hh as <- <-; discriminate).
  rewrite create_camper_obj in Hh.
  destruct (_ && _); [|injection Hh as <- <-; discriminate].
  pose proof (find_camper_insert d (field kvs "name") (field kvs "age")) as Hf.
  assert (Hpos : (0 < next_rowid (camper_ids d))%Z) by (apply next_rowid_pos, Hwf).
  assert (Hb' : Forall (fun i => i <= 2 ^ 63 - 2)%Z (camper_ids d))
    by (eapply Forall_impl; [exact Hb|]; intros; simpl in *; lia).
  pose proof (next_rowid_le (camper_ids d) (2 ^ 63 - 2) Hb' ltac:(lia)) as Hle.
  destruct (insert_camper d _ _) as [c d1] eqn:Hins. cbn [finish fst snd] in Hh, Hf.
  injection Hh as <- <-. exists c. split; [done|].
  assert (Hid : Camper.id c = next_rowid (camper_ids d))
    by (unfold insert_camper in Hins; by injection Hins as <- _).
  rewrite (handle_matched d1 _ (EGetCamperById (Camper.id c))) by (apply match_url_camper_id; lia).
  cbn [run_endpoint]. rewrite get_camper_by_id_spec by (unfold in_int64; lia). by rewrite Hf.
Qed.

Definition ann_request : request :=
  mkreq POST ["campers"] (RJson (JObj [("name", JStr "Ann"); ("age", JInt 9)]%string)).

Lemma create_then_get_witness :
  exists c,
    (handle sample_db ann_request).1 = mkresp 201 (BJson (camper_view (handle sample_db ann_request).2 c)) /\
    handle (handle sample_db ann_request).2 (mkreq GET ["campers"; int_text (Camper.id c)] RNotJson) =
    (mkresp 200 (BJson (camper_view (handle sample_db ann_request).2 c)), (handle sample_db ann_request).2).
Proof.
  apply (create_then_get sample_db (JObj [("name", JStr "Ann"); ("age", JInt 9)]%string)
           (handle sample_db ann_request).1 (handle sample_db ann_request).2 RNotJson).
  - exact sample_db_wf.
  - cbn. repeat constructor.
  - apply surjective_pairing.
  - vm_compute. reflexivity.
Defined.

(** ** Every store can be drained of its activities *)

(** The request a client sends to delete the activity [id]: the id
    printed by [str]. *)
Definition delete_request (id : Z) : request := mkreq DELETE ["activities"; int_text id] RNotJson.

Lemma handle_delete_live d x :
  db_wf d -> x ∈ activity_ids d -> (x < 2 ^ 63)%Z ->
  handle d (delete_request x) = (mkresp 204 BEmpty, delete_activity_cascade d x).
Proof.
  intros Hwf Hx Hlt. assert (Hpos : (0 < x)%Z).
  { destruct Hwf as (_ & (_ & Hp) & _). by eapply Forall_forall in Hp. }
  unfold delete_request. rewrite handle_delete_activity_url, int_text_nonneg, int_converter_dec, Z2N.id by lia.
  unfold delete_activity. rewrite query_get_activity_int by (unfold in_int64; lia). cbn [rbind].
  destruct (find_activity d x) as [a|] eqn:F; [|by apply find_activity_None in F].
  apply find_activity_Some in F as [_ ->]. reflexivity.
Qed.

Lemma filter_map_key {B} (f : B -> Z) (x : Z) (l : list B) :
  map f (List.filter (fun a => negb (f a =? x))%Z l) = List.filter (fun i => negb (i =? x))%Z (map f l).
Proof. induction l as [|a l IH]; [done|]. cbn. destruct (f a =? x)%Z; cbn; by rewrite IH. Qed.

Lemma filter_neq_notin (x : Z) (l : list Z) : ~ In x l -> List.filter (fun i => negb (i =? x))%Z l = l.
Proof.
  induction l as [|y l IH]; intros Hx; [done|]. cbn.
  destruct (Z.eqb_spec y x) as [->|]; [destruct Hx; by left|]. cbn. rewrite IH; [done|].
  intros H. apply Hx. by right.
Qed.

(** Deleting the first activity leaves the ids of the others. *)
Lemma activity_ids_cascade_head d x l :
  activity_ids d = x :: l -> NoDup (x :: l) -> activity_ids (delete_activity_cascade d x) = l.
Proof.
  intros Hids [Hx _]%list.NoDup_cons. unfold activity_ids, delete_activity_cascade in *. cbn [activities].
  rewrite filter_map_key, Hids. cbn. rewrite Z.eqb_refl. cbn.
  apply filter_neq_notin. by intros ?%list_elem_of_In.
Qed.

Lemma no_signups_without_activities d : db_wf d -> activities d = [] -> signups d = [].
Proof.
  intros (_ & _ & _ & _ & _ & Hr) Ha. destruct (signups d) as [|s ss] eqn:Hs; [done|].
  apply Forall_cons_1 in Hr as [[_ Hin] _]. unfold activity_ids in Hin. rewrite Ha in Hin.
  by apply not_elem_of_nil in Hin.
Qed.

Lemma drain_gen d0 l d :
  db_wf d -> activity_ids d = l -> Forall (fun i => i < 2 ^ 63)%Z l -> reachable d0 d ->
  activities (serve d (map delete_request l)).2 = [] /\
  campers (serve d (map delete_request l)).2 = campers d /\
  Forall (fun r => status r = 204%Z) (serve d (map delete_request l)).1 /\
  db_wf (serve d (map delete_request l)).2 /\ reachable d0 (serve d (map delete_request l)).2.
Proof.
  revert d. induction l as [|x l IH]; intros d Hwf Hids Hb Hr.
  - cbn. unfold activity_ids in Hids. apply map_eq_nil in Hids. auto.
  - apply Forall_cons_1 in Hb as [Hx Hb]. unfold serve. cbn [map run_all].
    rewrite handle_delete_live by (first [done | rewrite Hids; by left]).
    assert (Hnd : NoDup (x :: l)) by (rewrite <- Hids; apply Hwf).
    assert (Hr1 : reachable d0 (delete_activity_cascade d x)).
    { pose proof (ServeRequest d (delete_request x)) as Hs.
      rewrite handle_delete_live in Hs by (first [done | rewrite Hids; by left]).
      exact (reach_step _ _ _ _ _ Hr Hs). }
    destruct (IH (delete_activity_cascade d x) (delete_activity_cascade_wf d Hwf x)
                (activity_ids_cascade_head d x l Hids Hnd) Hb Hr1) as (Ha & Hc & Hs & Hw & Hre).
    unfold serve in *. destruct (run_all handle _ _) as [rs d'] eqn:E. cbn [fst snd] in *.
    split; [done|]. split; [exact Hc|]. split; [by constructor|]. by split.
Qed.

(** C39: from every well-formed store whose ids fit 64 bits, the store
    with no activity and no signup is reachable: deleting each activity
    by its URL, in table order, is answered 204 every time, keeps the
    campers, and leaves no activity and, by the cascade, no signup. *)
Theorem drain_activities d :
  db_wf d -> Forall (fun i => i < 2 ^ 63)%Z (activity_ids d) ->
  activities (serve d (map delete_request (activity_ids d))).2 = [] /\
  signups (serve d (map delete_request (activity_ids d))).2 = [] /\
  campers (serve d (map delete_request (activity_ids d))).2 = campers d /\
  Forall (fun r => status r = 204%Z) (serve d (map delete_request (activity_ids d))).1 /\
  reachable d (serve d (map delete_request (activity_ids d))).2.
Proof.
  intros Hwf Hb. destruct (drain_gen d (activity_ids d) d Hwf eq_refl Hb (reach_init d))
    as (Ha & Hc & Hs & Hw & Hr).
  split; [done|]. split; [by apply no_signups_without_activities|]. done.
Qed.

Lemma drain_activities_witness :
  db_wf sample_db /\ Forall (fun i => i < 2 ^ 63)%Z (activity_ids sample_db) /\
  activities (serve sample_db (map delete_request (activity_ids sample_db))).2 = [] /\
  signups (serve sample_db (map delete_request (activity_ids sample_db))).2 = [] /\
  campers (serve sample_db (map delete_request (activity_ids sample_db))).2 = campers sample_db /\
  Forall (fun r => status r = 204%Z) (serve sample_db (map delete_request (activity_ids sample_db))).1 /\
  reachable sample_db (serve sample_db (map delete_request (activity_ids sample_db))).2.
Proof.
  assert (Hb : Forall (fun i => i < 2 ^ 63)%Z (activity_ids sample_db)) by (cbn; repeat constructor).
  split; [exact sample_db_wf|]. split; [exact Hb|]. exact (drain_activities sample_db sample_db_wf Hb).
Defined.

(** ** A signup for a deleted activity *)

(** C10: the order of requests matters as the cascade says: once DELETE
    /activities/<a> has been answered 204, a POST /signups naming the
    activity [a] (with a 64-bit integer camper id) is answered the
    uniform 400, whatever the camper and the time, and adds no row. *)
Theorem delete_then_signup d a c kvs :
  db_wf d -> a ∈ activity_ids d -> (a < 2 ^ 63)%Z -> in_int64 c ->
  field kvs "camper_id" = JInt c -> field kvs "activity_id" = JInt a ->
  handle d (delete_request a) = (mkresp 204 BEmpty, delete_activity_cascade d a) /\
  handle (delete_activity_cascade d a) (mkreq POST ["signups"] (RJson (JObj kvs))) =
  (validation_error_response, delete_activity_cascade d a).
Proof.
  intros Hwf Ha Hlt Hc Hfc Hfa. split; [by apply handle_delete_live|].
  rewrite (handle_matched _ _ ECreateSignup) by reflexivity. cbn [run_endpoint req_data].
  destruct (find_camper (delete_activity_cascade d a) c) as [cm|] eqn:F.
  - rewrite (create_signup_no_activity _ _ cm).
    + reflexivity.
    + rewrite Hfc, query_get_camper_int by exact Hc. by rewrite F.
    + rewrite Hfa, query_get_activity_int by (unfold in_int64; split; [|exact Hlt];
        destruct Hwf as (_ & (_ & Hp) & _); eapply Forall_forall in Hp; [|exact Ha]; cbv beta in Hp; lia).
      by rewrite find_activity_cascade_self.
  - rewrite create_signup_no_camper; [reflexivity|]. rewrite Hfc, query_get_camper_int by exact Hc. by rewrite F.
Qed.

Lemma delete_then_signup_witness :
  db_wf sample_db /\ 1%Z ∈ activity_ids sample_db /\ (1 < 2 ^ 63)%Z /\ in_int64 1 /\
  field [("camper_id", JInt 1); ("activity_id", JInt 1); ("time", JInt 9)]%string "camper_id" = JInt 1 /\
  field [("camper_id", JInt 1); ("activity_id", JInt 1); ("time", JInt 9)]%string "activity_id" = JInt 1 /\
  handle sample_db (delete_request 1) = (mkresp 204 BEmpty, delete_activity_cascade sample_db 1) /\
  handle (delete_activity_cascade sample_db 1)
    (mkreq POST ["signups"] (RJson (JObj [("camper_id", JInt 1); ("activity_id", JInt 1); ("time", JInt 9)]%string))) =
  (validation_error_response, delete_activity_cascade sample_db 1).
Proof.
  assert (Ha : 1%Z ∈ activity_ids sample_db) by (cbn; left).
  assert (Hc : in_int64 1) by (unfold in_int64; lia).
  do 6 (split; [first [exact sample_db_wf | exact Ha | exact Hc | lia | reflexivity]|]).
  exact (delete_then_signup sample_db 1 1 [("camper_id", JInt 1); ("activity_id", JInt 1); ("time", JInt 9)]%string
           sample_db_wf Ha ltac:(lia) Hc eq_refl eq_refl).
Defined.

(** ** An id that is not one value *)

(** The identities [Query.get] refuses: a list or a dict whose length is
    not the one of the primary key. *)
Definition bad_identity (v : json) : Prop :=
  match v with
  | JArr l => length l <> 1
  | JObj o => length (remove_dups (map fst o)) <> 1
  | _ => False
  end.

(** C16: POST /signups whose [camper_id] is a list or a dict of more or
    fewer than one element is answered 500: [Camper.query.get] raises
    InvalidRequestError before the handler's [try:], whatever the other
    fields, and the store is unchanged.  A dict of the one key ["id"]
    is read as that id. *)
Theorem create_signup_bad_identity_500 d kvs :
  bad_identity (field kvs "camper_id") ->
  handle d (mkreq POST ["signups"] (RJson (JObj kvs))) = (mkresp 500 (BPage 500), d).
Proof.
  intros Hb. rewrite (handle_matched _ _ ECreateSignup) by reflexivity. cbn [run_endpoint req_data].
  unfold create_signup. cbn [get_json rbind py_get].
  change (default JNull (obj_get kvs "camper_id")) with (field kvs "camper_id").
  unfold query_get_camper, identity_key.
  destruct (field kvs "camper_id") as [| | | | |l|o]; cbn in Hb; try contradiction.
  - destruct l as [|x [|y l]]; [reflexivity|cbn in Hb; lia|reflexivity].
  - apply Nat.eqb_neq in Hb. by rewrite Hb.
Qed.

Lemma create_signup_bad_identity_500_witness :
  bad_identity (field [("camper_id", JObj [("id", JInt 1); ("x", JInt 2)]); ("activity_id", JInt 1);
                       ("time", JInt 9)]%string "camper_id") /\
  handle sample_db (mkreq POST ["signups"]
    (RJson (JObj [("camper_id", JObj [("id", JInt 1); ("x", JInt 2)]); ("activity_id", JInt 1);
                  ("time", JInt 9)]%string))) = (mkresp 500 (BPage 500), sample_db).
Proof.
  assert (H : bad_identity (field [("camper_id", JObj [("id", JInt 1); ("x", JInt 2)]); ("activity_id", JInt 1);
                                   ("time", JInt 9)]%string "camper_id")) by (vm_compute; discriminate).
  split; [exact H|]. exact (create_signup_bad_identity_500 sample_db _ H).
Defined.

(** ** What each request may write *)

(** The endpoints whose view writes the camper table. *)
Definition writes_campers (e : endpoint) : bool :=
  match e with ECreateCamper | EUpdateCamper _ => true | _ => false end.

(** What a view of [e] may do to the store: no activity is created, only
    the camper views write campers, only POST /signups adds signups. *)
Definition frame (e : endpoint) (d d' : db) : Prop :=
  activities d' `sublist_of` activities d /\
  (writes_campers e = false -> campers d' = campers d) /\
  (e <> ECreateSignup -> signups d' `sublist_of` signups d).

Section frame_lemmas.
Context (d : db).

Lemma frame_refl e : frame e d d.
Proof. split; [done|]. split; [done|]. done. Qed.

Lemma frame_insert_camper name age : frame ECreateCamper d (insert_camper d name age).2.
Proof. split; [done|]. split; [done|]. done. Qed.

Lemma frame_update_row id c : frame (EUpdateCamper id) d (update_camper_row d c).
Proof. split; [done|]. split; [done|]. done. Qed.

Lemma frame_cascade id a : frame (EDeleteActivity id) d (delete_activity_cascade d a).
Proof. split; [apply filter_sublist|]. split; [done|]. intros _. apply filter_sublist. Qed.

Lemma frame_insert_signup t c a : frame ECreateSignup d (insert_signup d t c a).2.
Proof. split; [done|]. split; [done|]. by intros []. Qed.
End frame_lemmas.

Lemma frame_insert_camper_eq d name age c d' :
  insert_camper d name age = (c, d') -> frame ECreateCamper d d'.
Proof. intros H. replace d' with (insert_camper d name age).2 by (by rewrite H). apply frame_insert_camper. Qed.

Lemma frame_insert_signup_eq d t ci ai s d' :
  insert_signup d t ci ai = (s, d') -> frame ECreateSignup d d'.
Proof. intros H. replace d' with (insert_signup d t ci ai).2 by (by rewrite H). apply frame_insert_signup. Qed.

Create HintDb frame.
#[local] Hint Resolve frame_refl frame_update_row frame_cascade frame_insert_camper_eq
  frame_insert_signup_eq : frame.

(** Walk the view: each computation bound by [<-], each [match] and each
    [let '(_, _)] is split, until the store of every [Ok] is one the
    frame lemmas cover. *)
Ltac frame_cases :=
  repeat (first
    [ progress cbn [rbind try_except fst snd]
    | match goal with
      | |- context [rbind ?c _] => destruct c eqn:?
      | |- context [try_except (let '(_, _) := ?p in _) _] => destruct p eqn:?
      | |- context [match ?x with Some _ => _ | None => _ end] => destruct x eqn:?
      | |- context [let '(_, _) := ?p in _] => destruct p eqn:?
      end ]);
  eauto with frame.

Lemma run_endpoint_frame d e b :
  match run_endpoint d e b with Ok (_, d') => frame e d d' | Err _ => True end.
Proof.
  destruct e; cbn [run_endpoint].
  - by apply frame_refl.
  - unfold get_camper_by_id. frame_cases.
  - unfold create_camper. frame_cases.
  - unfold update_camper. frame_cases.
  - by apply frame_refl.
  - unfold delete_activity. frame_cases.
  - unfold create_signup. frame_cases.
Qed.

(** C11: the tables change only as the views of routes.py write them:
    a request leaves the store as it was, or it reaches a view [e] and
    then no activity is created (there is no POST /activities: the only
    change to the activity table is a deletion), the camper table
    changes only under POST /campers and PATCH /campers/<id>, and a
    signup is added only by POST /signups (other views at most delete
    signups). *)
Theorem handle_frame d r :
  (handle d r).2 = d \/
  exists e, match_url (req_method r) (req_path r) = Matched e /\ frame e d (handle d r).2.
Proof.
  unfold handle. destruct (match_url _ _) as [e| | |p|]; cbn [snd]; [|by left..].
  right. exists e. split; [done|]. pose proof (run_endpoint_frame d e (req_data r)) as Hf.
  destruct (run_endpoint d e (req_data r)) as [[resp d']|x]; [exact Hf|].
  rewrite finish_err. apply frame_refl.
Qed.

(** ** Witnesses *)

Lemma handle_preserves_wf_witness :
  db_wf sample_db /\
  db_wf (handle sample_db (mkreq DELETE ["activities"; "1"] (RJson JNull))).2.
Proof. split; [exact sample_db_wf|]. apply handle_preserves_wf. exact sample_db_wf. Defined.


Lemma handle_atomic_witness :
  success_status (status (handle sample_db (mkreq DELETE ["activities"; "7"] (RJson JNull))).1) = false /\
  (handle sample_db (mkreq DELETE ["activities"; "7"] (RJson JNull))).2 = sample_db.
Proof. split; [reflexivity|]. apply handle_atomic. reflexivity. Defined.


Lemma handle_body_not_json_witness :
  match_url PATCH ["campers"; "1"] = Matched (EUpdateCamper 1) /\ body_error RNotJson = Some 415%Z /\
  handle sample_db (mkreq PATCH ["campers"; "1"] RNotJson) =
  if reads_body sample_db (EUpdateCamper 1) then (mkresp 415 (BPage 415), sample_db)
  else handle sample_db (mkreq PATCH ["campers"; "1"] (RJson JNull)).
Proof.
  assert (H1 : match_url PATCH ["campers"; "1"] = Matched (EUpdateCamper 1)) by reflexivity.
  split; [exact H1|]. split; [reflexivity|]. exact (handle_body_not_json sample_db PATCH ["campers"; "1"] RNotJson (EUpdateCamper 1) 415 H1 eq_refl).
Defined.

Lemma handle_slashes_witness :
  clean_path ["campers"; "1"] /\ match_url GET ["campers"; "1"] = Matched (EGetCamperById 1) /\
  handle sample_db (mkreq GET [""; "campers"; "1"] RNotJson) =
  handle sample_db (mkreq GET ["campers"; "1"] RNotJson) /\
  handle sample_db (mkreq GET ["campers"; ""; "1"] RNotJson) =
  (mkresp 308 (BRedirect ["campers"; "1"]), sample_db).
Proof.
  assert (Hc : clean_path ["campers"; "1"]) by (repeat constructor; discriminate).
  assert (He : match_url GET ["campers"; "1"] = Matched (EGetCamperById 1)) by reflexivity.
  split; [exact Hc|]. split; [exact He|]. exact (handle_slashes sample_db GET "campers" "1" [] RNotJson _ Hc He).
Defined.

Lemma handle_activities_wrong_method_witness :
  POST ∉ [GET; HEAD; OPTIONS] /\
  handle sample_db (mkreq POST ["activities"] (RJson JNull)) = (mkresp 405 (BPage 405), sample_db).
Proof.
  assert (H : POST ∉ [GET; HEAD; OPTIONS]) by set_solver.
  split; [exact H|]. apply handle_activities_wrong_method. exact H.
Defined.

Lemma handle_signup_non_object_500_witness :
  (forall kvs, JArr [] <> JObj kvs) /\
  handle sample_db (mkreq POST ["signups"] (RJson (JArr []))) = (mkresp 500 (BPage 500), sample_db).
Proof.
  assert (H : forall kvs, JArr [] <> JObj kvs) by discriminate.
  split; [exact H|]. apply handle_signup_non_object_500. exact H.
Defined.
