(* ===== verification/Schema.v ===== *)
(** * The types of the JSON bodies the server sends

    A small type language for JSON values ([jtype]) and its checker
    [typed], a boolean function so that a body can be checked by
    evaluation.  An object type lists its keys in the order
    [jsonify] writes them (sorted) with the type of each value.

    The types of the views follow from the store invariant [db_wf]: a
    stored name is TEXT, or a REAL the model keeps as the float (a
    validated name is truthy and bindable, and a boolean or an integer
    becomes text under TEXT affinity); an age or an hour is an INTEGER or
    a REAL that is not integral (INTEGER affinity); ids are integers; the
    activities' name and difficulty are whatever the table holds, since
    no handler writes them.  A nested camper or activity of a signup is
    an object, never [null], because every signup of a well-formed store
    refers to rows that exist. *)

From Stdlib Require Import ZArith QArith String.
From stdpp Require Import base list strings.
From S2P Require Import Prelude Json Models Store Serialize Routes Routing App.

Local Open Scope string_scope.

Inductive jtype :=
| TAny
| TNull
| TBool
| TInt
| TFloat
| TStr
| TUnion (a b : jtype)
| TArr (t : jtype)
| TObj (fields : list (string * jtype)).

Fixpoint typed (t : jtype) (v : json) {struct t} : bool :=
  match t, v with
  | TAny, _ => true
  | TNull, JNull => true
  | TBool, JBool _ => true
  | TInt, JInt _ => true
  | TFloat, JFloat _ => true
  | TStr, JStr _ => true
  | TUnion a b, _ => typed a v || typed b v
  | TArr t', JArr l => forallb (typed t') l
  | TObj fs, JObj kvs =>
      (fix fields_typed (fs : list (string * jtype)) (kvs : list (string * json)) :=
         match fs, kvs with
         | [], [] => true
         | (k, t') :: fs', (k', v') :: kvs' => String.eqb k k' && typed t' v' && fields_typed fs' kvs'
         | _, _ => false
         end) fs kvs
  | _, _ => false
  end.

(** ** The types of the views of [Serialize] *)

Definition name_t : jtype := TUnion TStr TFloat.
Definition number_t : jtype := TUnion TInt TFloat.

Definition activity_plain_t : jtype :=
  TObj [("difficulty", TAny); ("id", TInt); ("name", TAny)].

Definition camper_plain_t : jtype :=
  TObj [("age", number_t); ("id", TInt); ("name", name_t)].

Definition signup_in_camper_t : jtype :=
  TObj [("activity", activity_plain_t); ("activity_id", TInt); ("camper_id", TInt);
        ("id", TInt); ("time", number_t)].

Definition signup_in_activity_t : jtype :=
  TObj [("activity_id", TInt); ("camper", camper_plain_t); ("camper_id", TInt);
        ("id", TInt); ("time", number_t)].

Definition camper_t : jtype :=
  TObj [("age", number_t); ("id", TInt); ("name", name_t); ("signups", TArr signup_in_camper_t)].

Definition activity_t : jtype :=
  TObj [("difficulty", TAny); ("id", TInt); ("name", TAny); ("signups", TArr signup_in_activity_t)].

Definition signup_t : jtype :=
  TObj [("activity", activity_plain_t); ("activity_id", TInt); ("camper", camper_plain_t);
        ("camper_id", TInt); ("id", TInt); ("time", number_t)].

(** The bodies of [validation_error_response] and of the 404s. *)
Definition error_t : jtype :=
  TUnion (TObj [("errors", TArr TStr)]) (TObj [("error", TStr)]).

(** The body each endpoint answers with on success. *)
Definition success_t (e : endpoint) : jtype :=
  match e with
  | EListCampers => TArr camper_t
  | EGetCamperById _ | ECreateCamper | EUpdateCamper _ => camper_t
  | EListActivities => TArr activity_t
  | EDeleteActivity _ => TNull
  | ECreateSignup => signup_t
  end.

(** The type of a JSON body with the status it is sent with. *)
Definition response_t (e : endpoint) (s : Z) : jtype :=
  if (s <? 300)%Z then success_t e else error_t.

(** ** Checking a body field by field *)

Lemma typed_obj_cons k t fs v kvs :
  typed (TObj ((k, t) :: fs)) (JObj ((k, v) :: kvs)) = typed t v && typed (TObj fs) (JObj kvs).
Proof. simpl. by rewrite String.eqb_refl. Qed.

Lemma typed_obj_nil : typed (TObj []) (JObj []) = true.
Proof. reflexivity. Qed.

Lemma typed_arr t l : typed (TArr t) (JArr l) = forallb (typed t) l.
Proof. reflexivity. Qed.

Create Rewrite HintDb typed_rw.
#[export] Hint Rewrite typed_obj_cons typed_obj_nil typed_arr : typed_rw.

Lemma forallb_map_true {A B} (f : A -> B) (p : B -> bool) (l : list A) :
  (forall x, x ∈ l -> p (f x) = true) -> forallb p (map f l) = true.
Proof.
  intros H. apply forallb_forall. intros y (x & <- & Hx)%in_map_iff. apply H, list_elem_of_In, Hx.
Qed.

(** ** The stored values have the types of their columns *)

Lemma name_typed v :
  truthy v && sqlite_bindable v = true -> text_normal v = true -> typed name_t v = true.
Proof. intros H1 H2. destruct v; cbn in *; rewrite ?andb_false_r in H1; done. Qed.

Lemma number_typed lo hi v :
  in_range lo hi v = true -> integer_normal v = true -> typed number_t v = true.
Proof. unfold in_range. by destruct v. Qed.

Lemma camper_ok_typed c :
  camper_ok c = true -> typed name_t (Camper.name c) = true /\ typed number_t (Camper.age c) = true.
Proof.
  unfold camper_ok, camper_valid, row_name_ok, row_age_ok.
  intros [[[Hn Ha]%andb_true_iff Htn]%andb_true_iff Han]%andb_true_iff.
  split; [by apply name_typed | by eapply number_typed].
Qed.

Section views.
Context (d : db) (Hwf : db_wf d).

Lemma stored_camper_ok_in c : c ∈ campers d -> camper_ok c = true.
Proof. intros Hc. destruct Hwf as (_ & _ & _ & Hcs & _). by eapply Forall_forall in Hcs. Qed.

Lemma signup_time_typed s : s ∈ signups d -> typed number_t (Signup.time s) = true.
Proof.
  intros Hs. destruct Hwf as (_ & _ & _ & _ & Ht & _). eapply Forall_forall in Ht; [|exact Hs].
  apply andb_true_iff in Ht as [Hr Hn]. by eapply number_typed.
Qed.

Lemma camper_plain_typed c : c ∈ campers d -> typed camper_plain_t (camper_plain c) = true.
Proof.
  intros Hc. destruct (camper_ok_typed c (stored_camper_ok_in c Hc)) as [Hn Ha].
  unfold camper_plain, camper_plain_t. autorewrite with typed_rw. by rewrite Hn, Ha.
Qed.

Lemma signup_in_camper_typed s : s ∈ signups d -> typed signup_in_camper_t (signup_in_camper_view d s) = true.
Proof.
  intros Hs. destruct (signup_refs_found d s Hwf Hs) as [_ [a Ha]].
  unfold signup_in_camper_view, signup_in_camper_t, activity_plain_t. rewrite Ha. cbn [opt_json].
  unfold activity_plain. autorewrite with typed_rw. by rewrite signup_time_typed.
Qed.

Lemma signup_in_activity_typed s : s ∈ signups d -> typed signup_in_activity_t (signup_in_activity_view d s) = true.
Proof.
  intros Hs. destruct (signup_refs_found d s Hwf Hs) as [[c Hc] _].
  unfold signup_in_activity_view, signup_in_activity_t. rewrite Hc. cbn [opt_json].
  autorewrite with typed_rw. rewrite signup_time_typed, camper_plain_typed by
    (done || by apply find_camper_Some in Hc as [? _]). done.
Qed.

Lemma signups_of_camper_sub cid s : s ∈ signups_of_camper d cid -> s ∈ signups d.
Proof. unfold signups_of_camper. intros Hs%list_elem_of_In. apply filter_In in Hs as [Hs _]. by apply list_elem_of_In. Qed.

Lemma signups_of_activity_sub aid s : s ∈ signups_of_activity d aid -> s ∈ signups d.
Proof. unfold signups_of_activity. intros Hs%list_elem_of_In. apply filter_In in Hs as [Hs _]. by apply list_elem_of_In. Qed.

Lemma camper_view_typed c : c ∈ campers d -> typed camper_t (camper_view d c) = true.
Proof.
  intros Hc. destruct (camper_ok_typed c (stored_camper_ok_in c Hc)) as [Hn Ha].
  unfold camper_view, camper_t. autorewrite with typed_rw. rewrite Hn, Ha. cbn [andb typed].
  rewrite andb_true_r.
  apply forallb_map_true. intros s Hs. by apply signup_in_camper_typed, (signups_of_camper_sub (Camper.id c)).
Qed.

Lemma activity_view_typed a : typed activity_t (activity_view d a) = true.
Proof.
  unfold activity_view, activity_t. autorewrite with typed_rw. cbn [andb typed].
  rewrite andb_true_r.
  apply forallb_map_true. intros s Hs. by apply signup_in_activity_typed, (signups_of_activity_sub (Activity.id a)).
Qed.

Lemma signup_view_typed s : s ∈ signups d -> typed signup_t (signup_view d s) = true.
Proof.
  intros Hs. destruct (signup_refs_found d s Hwf Hs) as [[c Hc] [a Ha]].
  unfold signup_view, signup_t, activity_plain_t. rewrite Hc, Ha. cbn [opt_json].
  unfold activity_plain. autorewrite with typed_rw.
  rewrite signup_time_typed, camper_plain_typed by (done || by apply find_camper_Some in Hc as [? _]). done.
Qed.
End views.

(** ** The bodies of the handlers *)

(** A response whose JSON body has the type its status calls for. *)
Definition body_typed (e : endpoint) (r : response) : Prop :=
  forall j, resp_body r = BJson j -> typed (response_t e (status r)) j = true.

Lemma validation_error_typed e : body_typed e validation_error_response.
Proof. by intros j [= <-]. Qed.

Lemma not_found_typed e msg : body_typed e (mkresp 404 (error_json msg)).
Proof. by intros j [= <-]. Qed.

Lemma success_typed e s j :
  (s < 300)%Z -> typed (success_t e) j = true -> body_typed e (mkresp s (BJson j)).
Proof.
  intros Hs Ht j' [= <-]. unfold response_t. cbn [status]. by rewrite (proj2 (Z.ltb_lt _ _) Hs).
Qed.

Definition outcome_typed (e : endpoint) (o : outcome) : Prop :=
  match o with Ok (r, _) => body_typed e r | Err _ => True end.

Section handlers.
Context (d : db) (Hwf : db_wf d).

Lemma list_campers_typed : outcome_typed EListCampers (list_campers d).
Proof.
  apply success_typed; [lia|]. cbn [success_t]. rewrite typed_arr.
  rewrite (map_ext _ (camper_view d)) by apply to_dict_camper.
  apply forallb_map_true. intros c Hc. by apply camper_view_typed.
Qed.

Lemma list_activities_typed : outcome_typed EListActivities (list_activities d).
Proof.
  apply success_typed; [lia|]. cbn [success_t]. rewrite typed_arr.
  rewrite (map_ext _ (activity_view d)) by apply to_dict_activity.
  apply forallb_map_true. intros a _. by apply activity_view_typed.
Qed.

Lemma get_camper_by_id_typed id : outcome_typed (EGetCamperById id) (get_camper_by_id d id).
Proof.
  unfold get_camper_by_id. destruct (query_get_camper d (JInt id)) as [[c|]|] eqn:Hq; cbn [rbind outcome_typed];
    [|apply not_found_typed|done].
  apply success_typed; [lia|]. rewrite to_dict_camper_detail.
  by apply camper_view_typed, (query_get_camper_member d (JInt id)).
Qed.

Lemma create_camper_typed b : outcome_typed ECreateCamper (create_camper d b).
Proof.
  destruct b as [j| |]; [|done|done]. unfold create_camper. cbn [get_json rbind].
  destruct (py_get j "name") as [name|]; cbn [rbind try_except]; [|apply validation_error_typed].
  destruct (py_get j "age") as [age|]; cbn [rbind try_except]; [|apply validation_error_typed].
  rewrite Camper_init_flush. destruct (_ && _) eqn:Hok; [|apply validation_error_typed].
  apply andb_true_iff in Hok as [Hn Ha]. cbn [try_except outcome_typed].
  apply success_typed; [lia|]. rewrite to_dict_camper.
  apply camper_view_typed; [by apply insert_camper_wf|].
  unfold insert_camper; cbn [fst snd campers]. apply elem_of_app. right. by left.
Qed.

Lemma update_camper_typed id b : outcome_typed (EUpdateCamper id) (update_camper d id b).
Proof.
  unfold update_camper.
  destruct (query_get_camper d (JInt id)) as [[c|]|] eqn:Hq; cbn [rbind]; [|apply not_found_typed|done].
  destruct (get_json b) as [j|]; cbn [rbind]; [|done]. rewrite <- rbind_assoc.
  destruct (cw <- assign_if_present j "name" set_name c [] ;;
            assign_if_present j "age" set_age cw.1 cw.2) as [[c2 w]|] eqn:Ha;
    cbn [rbind try_except fst snd]; [|apply validation_error_typed].
  destruct (flush_check w) as [[]|] eqn:Hf; cbn [rbind try_except outcome_typed];
    [|apply validation_error_typed].
  assert (Hc : c ∈ campers d) by by eapply query_get_camper_member.
  destruct (patch_result j c c2 w (camper_ok_valid c (stored_camper_ok_in d Hwf c Hc)) Ha Hf) as [Hv Hid].
  assert (Hin : Camper.id c2 ∈ camper_ids d) by (rewrite Hid; by apply list_elem_of_fmap_2).
  apply success_typed; [lia|]. rewrite to_dict_camper.
  apply camper_view_typed; [by apply update_camper_row_wf|].
  unfold refresh_camper. rewrite find_camper_update by exact Hin.
  by apply (find_camper_Some _ (Camper.id c2)), find_camper_update.
Qed.

Lemma delete_activity_typed id : outcome_typed (EDeleteActivity id) (delete_activity d id).
Proof.
  unfold delete_activity. destruct (query_get_activity d (JInt id)) as [[a|]|]; cbn [rbind outcome_typed];
    [by intros j ?|apply not_found_typed|done].
Qed.

Lemma create_signup_typed b : outcome_typed ECreateSignup (create_signup d b).
Proof.
  destruct b as [j| |]; [|done|done].
  destruct j as [| | | | | |kvs]; try done. unfold create_signup. cbn [get_json py_get rbind].
  destruct (query_get_camper d _) as [[c|]|] eqn:Hc; cbn [rbind]; [|apply validation_error_typed|done].
  destruct (query_get_activity d _) as [[a|]|] eqn:Ha; cbn [rbind]; [|apply validation_error_typed|done].
  rewrite Signup_init_flush. destruct (_ && _ && _) eqn:Hok; [|apply validation_error_typed].
  apply andb_true_iff in Hok as [[Ht _]%andb_true_iff _]. cbn [try_except outcome_typed].
  apply success_typed; [lia|]. rewrite to_dict_signup.
  apply signup_view_typed.
  - apply insert_signup_wf; [done|done| |].
    + by eapply query_get_camper_Some.
    + by eapply query_get_activity_Some.
  - unfold insert_signup; cbn [fst snd signups]. apply elem_of_app. right. by left.
Qed.
End handlers.

Lemma run_endpoint_typed d e b : db_wf d -> outcome_typed e (run_endpoint d e b).
Proof.
  intros Hwf. destruct e; cbn [run_endpoint].
  - by apply list_campers_typed.
  - by apply get_camper_by_id_typed.
  - by apply create_camper_typed.
  - by apply update_camper_typed.
  - by apply list_activities_typed.
  - by apply delete_activity_typed.
  - by apply create_signup_typed.
Qed.

(** C38: from a well-formed store, every JSON body the server answers a
    request of an endpoint with has the endpoint's type when the status
    is a success (a camper with its signups and their activities, a
    list of them, a signup with its camper and activity) and the type of
    the error bodies otherwise; ids are integers, names strings or
    floats, ages and hours integers or non-integral floats. *)
Theorem handle_body_typed d r e j :
  db_wf d -> match_url (req_method r) (req_path r) = Matched e ->
  resp_body (handle d r).1 = BJson j -> typed (response_t e (status (handle d r).1)) j = true.
Proof.
  intros Hwf Hm. rewrite (handle_matched d r e Hm).
  pose proof (run_endpoint_typed d e (req_data r) Hwf) as Ht.
  destruct (run_endpoint d e (req_data r)) as [[resp d']|x]; cbn [finish fst]; [apply Ht|].
  destruct x as [| | | | | | |code]; cbn; try discriminate.
  destruct (code =? 404)%Z; cbn; [by intros [= <-]|discriminate].
Qed.

Lemma handle_body_typed_witness :
  db_wf sample_db /\ match_url GET ["campers"] = Matched EListCampers /\
  resp_body (handle sample_db (mkreq GET ["campers"] RNotJson)).1 =
    BJson (JArr (map (camper_view sample_db) (campers sample_db))) /\
  typed (response_t EListCampers (status (handle sample_db (mkreq GET ["campers"] RNotJson)).1))
        (JArr (map (camper_view sample_db) (campers sample_db))) = true.
Proof.
  assert (Hb : resp_body (handle sample_db (mkreq GET ["campers"] RNotJson)).1 =
               BJson (JArr (map (camper_view sample_db) (campers sample_db))))
    by (vm_compute; reflexivity).
  split; [exact sample_db_wf|]. split; [reflexivity|]. split; [exact Hb|].
  exact (handle_body_typed sample_db (mkreq GET ["campers"] RNotJson) EListCampers _
           sample_db_wf eq_refl Hb).
Defined.
