(* ===== verification/Config.v ===== *)
(** * __init__.py and app.py: the configuration of the application

    Importing the package [server] runs [load_dotenv()] (__init__.py:9):
    the bindings of the [.env] file, the last of a repeated key winning,
    are added to [os.environ] for the keys the process environment does
    not set already (python-dotenv's [override=False]).  Importing
    [server.app] then runs [create_app()] (app.py:8), which reads
    [DATABASE_URI] and [FLASK_APP] from the environment with their
    defaults (__init__.py:15-31).  Running app.py as a script sets
    [os.environ['FLASK_APP']] and starts the development server on port
    5000 with the debugger (app.py:14-17), after the application has
    been created.

    The environment is an association list ([environ]); [env_get] is
    [os.environ.get(k)] and [env_set] is [os.environ[k] = v].  Not
    modelled: the search for the [.env] file ([find_dotenv]), the
    syntax of the file and its [${VAR}] interpolation (the file is given
    as the list of its bindings), and the extension objects [db] and
    [migrate], which only wire Flask-SQLAlchemy and Flask-Migrate. *)

From Stdlib Require Import ZArith String.
From stdpp Require Import base list strings.
From S2P Require Import Prelude.

Local Open Scope string_scope.

Abbreviation environ := (list (string * string)).

(** [os.environ.get(k)]: the binding of [k], the last one if the list
    holds several. *)
Definition env_get (e : environ) (k : string) : option string :=
  fold_left (fun acc kv => if String.eqb kv.1 k then Some kv.2 else acc) e None.

(** [os.environ[k] = v]: any binding of [k] is replaced. *)
Definition env_set (e : environ) (k v : string) : environ :=
  List.filter (fun kv => negb (String.eqb kv.1 k)) e ++ [(k, v)].

(** python-dotenv's [dotenv_values]: the bindings of the file as a dict,
    a repeated key keeping its last value. *)
Definition dotenv_values (file : list (string * string)) : environ :=
  fold_left (fun m kv => env_set m kv.1 kv.2) file [].

(** __init__.py:9, [load_dotenv()]: each key of the file that the
    environment lacks is set to the file's value. *)
Definition load_dotenv (file : list (string * string)) (e : environ) : environ :=
  fold_left (fun e kv => match env_get e kv.1 with Some _ => e | None => env_set e kv.1 kv.2 end)
            (dotenv_values file) e.

(** The entries of [app.config] that __init__.py sets. *)
Record config := mkconfig {
  SQLALCHEMY_DATABASE_URI : string;
  SQLALCHEMY_TRACK_MODIFICATIONS : bool;
  FLASK_APP : string
}.

(** __init__.py:15-31, [create_app()]. *)
Definition create_app (e : environ) : config :=
  mkconfig (default "sqlite:///app.db" (env_get e "DATABASE_URI")) false
           (default "server.app" (env_get e "FLASK_APP")).

(** Importing [server.app]: the package's [load_dotenv()], then
    [app = create_app()] (app.py:8). *)
Definition import_app (file : list (string * string)) (e : environ) : environ * config :=
  let e1 := load_dotenv file e in (e1, create_app e1).

(** The arguments of [app.run]. *)
Record run_options := mkrun { port : Z; debug : bool }.

(** app.py:14-17, [python -m server.app]: the module is imported (the
    application created), then [FLASK_APP] is set and the server run. *)
Definition main (file : list (string * string)) (e : environ) : environ * config * run_options :=
  let '(e1, cfg) := import_app file e in
  (env_set e1 "FLASK_APP" "server.app", cfg, mkrun 5000 true).

(** ** Reading the environment *)

Lemma env_get_cons kv e k :
  env_get (kv :: e) k =
  match env_get e k with Some v => Some v | None => if String.eqb kv.1 k then Some kv.2 else None end.
Proof. unfold env_get. cbn [fold_left]. apply (fold_last_acc String.eqb). Qed.

Lemma env_get_snoc e k v k' :
  env_get (e ++ [(k, v)]) k' = if String.eqb k k' then Some v else env_get e k'.
Proof. unfold env_get. rewrite fold_left_app. cbn. by destruct (String.eqb k k'). Qed.

Lemma env_get_None e k : ~ In k (map fst e) -> env_get e k = None.
Proof.
  induction e as [|[k' v'] e IH]; intros Hk; [done|]. rewrite env_get_cons, IH; cbn.
  - destruct (String.eqb_spec k' k) as [->|]; [|done]. destruct Hk. by left.
  - intros Hin. apply Hk. by right.
Qed.

Lemma env_get_filter e k k' :
  k <> k' -> env_get (List.filter (fun kv => negb (String.eqb kv.1 k)) e) k' = env_get e k'.
Proof.
  intros Hne. induction e as [|[k1 v1] e IH]; [done|]. cbn [List.filter fst].
  destruct (String.eqb_spec k1 k) as [->|Hk1]; cbn [negb].
  - rewrite env_get_cons, IH. cbn. apply String.eqb_neq in Hne. rewrite Hne.
    by destruct (env_get e k').
  - by rewrite !env_get_cons, IH.
Qed.

Lemma env_get_set e k v k' :
  env_get (env_set e k v) k' = if String.eqb k k' then Some v else env_get e k'.
Proof.
  unfold env_set. rewrite env_get_snoc.
  destruct (String.eqb_spec k k'); [done|]. by apply env_get_filter.
Qed.

Lemma env_set_keys e k v : NoDup (map fst e) -> NoDup (map fst (env_set e k v)).
Proof.
  intros Hnd. unfold env_set. rewrite map_app. apply list.NoDup_app.
  split; [by apply NoDup_map_filter|]. split; [|apply list.NoDup_singleton].
  intros x Hx Hx'. apply list_elem_of_singleton in Hx'. cbn in Hx'. subst x.
  apply list_elem_of_In, in_map_iff in Hx as ([k' v'] & Hk & Hin).
  apply filter_In in Hin as [_ Hp]. cbn in Hk, Hp. subst k'. by rewrite String.eqb_refl in Hp.
Qed.

(** ** The dict of the [.env] file and [load_dotenv] *)

Lemma dotenv_fold_get l m k :
  env_get (fold_left (fun m kv => env_set m kv.1 kv.2) l m) k =
  match env_get l k with Some v => Some v | None => env_get m k end.
Proof.
  revert m. induction l as [|[k1 v1] l IH]; intros m; [done|]. cbn [fold_left fst snd].
  rewrite IH, env_get_set, env_get_cons. cbn [fst snd].
  by destruct (env_get l k), (String.eqb k1 k).
Qed.

(** [dotenv_values] reads a key as its last binding in the file. *)
Lemma dotenv_values_get file k : env_get (dotenv_values file) k = env_get file k.
Proof. unfold dotenv_values. rewrite dotenv_fold_get. by destruct (env_get file k). Qed.

Lemma dotenv_values_keys file : NoDup (map fst (dotenv_values file)).
Proof.
  unfold dotenv_values.
  enough (H : forall m, NoDup (map fst m) ->
            NoDup (map fst (fold_left (fun m kv => env_set m kv.1 kv.2) file m)))
    by (apply H; constructor).
  induction file as [|kv file IH]; intros m Hm; [done|]. cbn [fold_left].
  by apply IH, env_set_keys.
Qed.

Lemma load_dotenv_fold l e k :
  NoDup (map fst l) ->
  env_get (fold_left (fun e kv => match env_get e kv.1 with Some _ => e | None => env_set e kv.1 kv.2 end) l e) k =
  match env_get e k with Some v => Some v | None => env_get l k end.
Proof.
  revert e. induction l as [|[k1 v1] l IH]; intros e Hnd; [cbn [fold_left]; by destruct (env_get e k)|].
  cbn [map fst] in Hnd. apply list.NoDup_cons in Hnd as [Hk1 Hnd]. cbn [fold_left fst snd].
  rewrite IH by exact Hnd. rewrite env_get_cons. cbn [fst snd].
  destruct (String.eqb_spec k1 k) as [<-|Hne].
  - rewrite (env_get_None l k1) by (by intros ?%list_elem_of_In).
    destruct (env_get e k1) as [v|] eqn:E; [by rewrite E|]. by rewrite env_get_set, String.eqb_refl.
  - destruct (env_get e k1); [|rewrite env_get_set, (proj2 (String.eqb_neq _ _) Hne)];
      by destruct (env_get e k), (env_get l k).
Qed.

(** A key set in the process environment keeps its value; otherwise it
    takes the last value the [.env] file gives it. *)
Lemma load_dotenv_get file e k :
  env_get (load_dotenv file e) k = match env_get e k with Some v => Some v | None => env_get file k end.
Proof. unfold load_dotenv. rewrite load_dotenv_fold by apply dotenv_values_keys. by rewrite dotenv_values_get. Qed.

(** C37: the application's database is the process environment's
    [DATABASE_URI] when it is set, else the last [DATABASE_URI] of the
    [.env] file, else [sqlite:///app.db]; [FLASK_APP] is read the same
    way with default [server.app]; modification tracking is off. *)
Theorem import_app_config file e :
  (import_app file e).2 =
  mkconfig (match env_get e "DATABASE_URI" with
            | Some v => v | None => default "sqlite:///app.db" (env_get file "DATABASE_URI") end)
           false
           (match env_get e "FLASK_APP" with
            | Some v => v | None => default "server.app" (env_get file "FLASK_APP") end).
Proof.
  unfold import_app, create_app. cbn [snd]. rewrite !load_dotenv_get.
  by destruct (env_get e "DATABASE_URI"), (env_get e "FLASK_APP").
Qed.
