(* ===== verification/Refinement.v ===== *)
(** * The server implements the contract of the endpoint table

    The abstraction [abs] reads the three tables of a store as the
    finite maps of [Contract] (a row under its id, as the first row with
    that id would be found by [Query.get]); [encode] is the request a
    client sends for a request of the contract: the URL with the id
    printed in decimal ([dec_string]), a JSON object with the fields
    that are present.  [resp_refines] relates a response of the server
    to an abstract response: the same status, and a body that shows what
    the abstract body says.

    The refinement theorem: from a well-formed store, a sequence of
    well-formed contract requests whose ids fit SQLite's 64-bit
    integers (and whose unmatched paths have no empty segment: werkzeug
    strips or merges those slashes, [Routing]) is answered by [App.handle] with responses the contract
    allows, and the store it leaves abstracts to the state the contract
    reaches.  The bound on ids is needed: a larger id makes the
    parameter binding of [Query.get] raise, which Flask answers 500
    (see [handle_huge_id_500]).  The last section shows that ids are
    not unique over time: the cascade can free the largest signup id,
    which the next signup receives again ([signup_id_reused]). *)

From Stdlib Require Import ZArith QArith String Ascii.
From stdpp Require Import base gmap list strings.
From S2P Require Import Prelude Json Contract Models Store Serialize Routes Routing App.

(** ** Decimal ids in URLs *)

(** An [int] URL segment is a decimal numeral, so a path the table of the
    specification does not list matches no rule. *)
Lemma digits_value_decimal s acc v :
  digits_value s acc = Some v -> forallb is_digit (list_ascii_of_string s) = true.
Proof.
  revert acc. induction s as [|c s IH]; intros acc; simpl; [done|].
  destruct ((48 <=? _) && (_ <=? 57))%Z eqn:Hc; [|done].
  intros H%IH. rewrite H, andb_true_r. unfold is_digit.
  apply andb_true_iff in Hc as [H1 H2]. apply Z.leb_le in H1, H2.
  apply andb_true_iff. split; apply Nat.leb_le; lia.
Qed.

Lemma int_converter_decimal s v : int_converter s = Some v -> is_decimal s = true.
Proof. destruct s as [|c s]; [done|]. apply digits_value_decimal. Qed.

Lemma path_clean_spec p : path_clean p = true -> clean_path p.
Proof.
  induction p as [|s p IH]; intros H; constructor; cbn in H;
    apply andb_true_iff in H as [Hs Hp]; [|by apply IH].
  apply negb_true_iff in Hs. by apply String.eqb_neq.
Qed.

(** A path of the table's kind that the table does not list matches no
    rule, with either method. *)
Lemma match_url_no_rule m p : spec_path p = false -> path_clean p = true -> match_url m p = NoRule.
Proof.
  intros Hs Hc. rewrite match_url_clean by (by apply path_clean_spec).
  unfold allowed_methods. destruct p as [|r [|s [|x p]]]; unfold_rules; cbn -[String.eqb int_converter]; try done.
  - cbn in Hs. apply orb_false_iff in Hs as [[H1 H2]%orb_false_iff H3].
    rewrite !(String.eqb_sym _ r), H1, H2, H3. done.
  - destruct (int_converter s) as [v|] eqn:Hv; [|by destruct (String.eqb "campers" r), (String.eqb "activities" r), (String.eqb "signups" r)].
    cbn in Hs. rewrite (int_converter_decimal s v Hv), andb_true_r in Hs.
    apply orb_false_iff in Hs as [H1 H2]. rewrite !(String.eqb_sym _ r), H1, H2. by destruct (String.eqb r "signups").
  - by destruct (String.eqb "campers" r), (String.eqb "activities" r), (String.eqb "signups" r), (int_converter s).
Qed.

(** ** Tables as finite maps *)

Section table.
Context {A B : Type} (key : A -> Z) (f : A -> B).

(** A table read as a map: the first row with an id is the one the map
    holds under it. *)
Fixpoint table_map (l : list A) : gmap Z B :=
  match l with
  | [] => ∅
  | x :: l' => <[key x := f x]> (table_map l')
  end.

Lemma table_map_lookup l k : table_map l !! k = f <$> List.find (fun x => key x =? k)%Z l.
Proof.
  induction l as [|x l IH]; simpl; [done|].
  destruct (Z.eqb_spec (key x) k) as [<-|Hne].
  - by rewrite lookup_insert_eq.
  - by rewrite lookup_insert_ne.
Qed.

Lemma table_map_None l k : k ∉ map key l -> table_map l !! k = None.
Proof.
  intros Hk. rewrite table_map_lookup.
  destruct (List.find _ l) as [x|] eqn:Hf; [|done].
  apply find_some in Hf as [Hx Hkx%Z.eqb_eq]. subst k.
  destruct Hk. apply list_elem_of_In, in_map, Hx.
Qed.

Lemma table_map_snoc l x :
  key x ∉ map key l -> table_map (l ++ [x]) = <[key x := f x]> (table_map l).
Proof.
  induction l as [|y l IH]; intros Hx; simpl; [done|].
  cbn [map] in Hx. rewrite not_elem_of_cons in Hx. destruct Hx as [Hne Hx].
  rewrite IH by exact Hx. by apply insert_insert_ne.
Qed.

Lemma table_map_size l : NoDup (map key l) -> size (table_map l) = length l.
Proof.
  induction l as [|x l IH]; intros Hnd; simpl; [apply map_size_empty|].
  apply list.NoDup_cons in Hnd as [Hx Hnd].
  rewrite map_size_insert_None by (by apply table_map_None). by rewrite IH.
Qed.

(** Keeping the rows a test accepts is filtering the map, when ids are
    unique and the test reads only what the map keeps. *)
Lemma table_map_filter (p : A -> bool) (P : Z * B -> Prop) `{!forall kv, Decision (P kv)} l :
  (forall x, p x = bool_decide (P (key x, f x))) -> NoDup (map key l) ->
  table_map (List.filter p l) = filter P (table_map l).
Proof.
  intros Hp. induction l as [|x l IH]; intros Hnd; simpl; [by rewrite map_filter_empty|].
  apply list.NoDup_cons in Hnd as [Hx Hnd].
  rewrite map_filter_insert, Hp, <- IH by exact Hnd.
  rewrite delete_id by (by apply table_map_None).
  destruct (decide (P (key x, f x))) as [HP|HP].
  - by rewrite bool_decide_eq_true_2 by exact HP.
  - rewrite bool_decide_eq_false_2 by exact HP. by rewrite IH.
Qed.

(** Replacing the row with the id of [y] by [y] is an insertion. *)
Lemma table_map_replace l y :
  key y ∈ map key l ->
  table_map (map (fun x => if (key x =? key y)%Z then y else x) l) = <[key y := f y]> (table_map l).
Proof.
  induction l as [|x l IH]; intros Hy; simpl; [by apply not_elem_of_nil in Hy|].
  destruct (Z.eqb_spec (key x) (key y)) as [Hxy|Hne].
  - rewrite Hxy, insert_insert_eq.
    destruct (decide (key y ∈ map key l)) as [Hin|Hnin].
    + by rewrite IH, insert_insert_eq.
    + f_equal. rewrite map_ext_in with (g := id), map_id; [done|].
      intros z Hz. destruct (Z.eqb_spec (key z) (key y)); [|done].
      destruct Hnin. rewrite <- e. apply list_elem_of_In, in_map, Hz.
  - cbn [map] in Hy. rewrite elem_of_cons in Hy. destruct Hy as [Hy|Hy]; [congruence|].
    rewrite IH by exact Hy. by apply insert_insert_ne.
Qed.
End table.

(** ** The abstraction of a store *)

Definition acamper_of (c : Camper.t) : acamper := ACamper (Camper.name c) (Camper.age c).
Definition aactivity_of (a : Activity.t) : aactivity :=
  AActivity (Activity.name a) (Activity.difficulty a).
Definition asignup_of (s : Signup.t) : asignup :=
  ASignup (Signup.time s) (Signup.camper_id s) (Signup.activity_id s).

Definition abs (d : db) : astate :=
  AState (table_map Camper.id acamper_of (campers d))
         (table_map Activity.id aactivity_of (activities d))
         (table_map Signup.id asignup_of (signups d)).

Lemma abs_campers_lookup d k : a_campers (abs d) !! k = acamper_of <$> find_camper d k.
Proof. apply table_map_lookup. Qed.

Lemma abs_activities_lookup d k : a_activities (abs d) !! k = aactivity_of <$> find_activity d k.
Proof. apply table_map_lookup. Qed.

(** ** What the writes of the store are on the maps *)

Lemma abs_insert_camper d name age :
  abs (insert_camper d name age).2 =
  set_campers (abs d)
    (<[next_rowid (camper_ids d) := ACamper (text_affinity name) (integer_affinity age)]> (a_campers (abs d))).
Proof.
  unfold abs, set_campers; simpl. f_equal.
  apply (table_map_snoc Camper.id acamper_of), next_rowid_fresh.
Qed.

Lemma abs_insert_signup d time cid aid :
  abs (insert_signup d time cid aid).2 =
  set_signups (abs d)
    (<[next_rowid (signup_ids d) := ASignup (integer_affinity time) cid aid]> (a_signups (abs d))).
Proof.
  unfold abs, set_signups; simpl. f_equal.
  apply (table_map_snoc Signup.id asignup_of), next_rowid_fresh.
Qed.

Lemma abs_update_camper_row d c :
  Camper.id c ∈ camper_ids d ->
  abs (update_camper_row d c) =
  set_campers (abs d) (<[Camper.id c := acamper_of (stored_camper c)]> (a_campers (abs d))).
Proof.
  intros Hc. unfold abs, set_campers; simpl. f_equal.
  exact (table_map_replace Camper.id acamper_of (campers d) (stored_camper c) Hc).
Qed.

Lemma map_filter_key_ne {A} (m : gmap Z A) k : filter (fun kv => kv.1 <> k) m = delete k m.
Proof.
  apply map_eq. intros i. apply option_eq. intros x.
  rewrite map_lookup_filter_Some, lookup_delete_Some. naive_solver.
Qed.

Lemma abs_delete_activity_cascade d aid :
  db_wf d -> abs (delete_activity_cascade d aid) = delete_activity_with_signups (abs d) aid.
Proof.
  intros (_ & [Hna _] & [Hns _] & _). unfold abs, delete_activity_with_signups; simpl. f_equal.
  - rewrite <- map_filter_key_ne.
    apply (table_map_filter Activity.id aactivity_of _ (fun kv => kv.1 <> aid)); [|exact Hna].
    intros a. simpl. destruct (Z.eqb_spec (Activity.id a) aid); simpl;
      symmetry; [apply bool_decide_eq_false_2|apply bool_decide_eq_true_2]; congruence.
  - apply (table_map_filter Signup.id asignup_of); [|exact Hns].
    intros s. simpl. destruct (Z.eqb_spec (Signup.activity_id s) aid); simpl;
      symmetry; [apply bool_decide_eq_false_2|apply bool_decide_eq_true_2]; congruence.
Qed.

Lemma abs_campers_size d : db_wf d -> size (a_campers (abs d)) = length (campers d).
Proof. intros ([Hn _] & _). by apply table_map_size. Qed.

Lemma abs_activities_size d : db_wf d -> size (a_activities (abs d)) = length (activities d).
Proof. intros (_ & [Hn _] & _). by apply table_map_size. Qed.

(** ** Requests of the contract as a client sends them *)

Definition opt_field (k : string) (v : option json) : list (string * json) :=
  match v with Some v => [(k, v)] | None => [] end.

Definition camper_body (name : option string) (age : option Z) : list (string * json) :=
  opt_field "name" (JStr <$> name) ++ opt_field "age" (JInt <$> age).

Definition signup_body (cid aid t : option Z) : list (string * json) :=
  opt_field "camper_id" (JInt <$> cid) ++ opt_field "activity_id" (JInt <$> aid)
  ++ opt_field "time" (JInt <$> t).

Definition encode (a : areq) : request :=
  match a with
  | AListCampers => mkreq GET ["campers"] RNotJson
  | AGetCamper id => mkreq GET ["campers"; dec_string id] RNotJson
  | ACreateCamper name age => mkreq POST ["campers"] (RJson (JObj (camper_body name age)))
  | AUpdateCamper id name age =>
      mkreq PATCH ["campers"; dec_string id] (RJson (JObj (camper_body name age)))
  | AListActivities => mkreq GET ["activities"] RNotJson
  | ADeleteActivity id => mkreq DELETE ["activities"; dec_string id] RNotJson
  | ACreateSignup cid aid t => mkreq POST ["signups"] (RJson (JObj (signup_body cid aid t)))
  | AUnmatched p => mkreq GET p RNotJson
  end.

Definition int64_ok (n : Z) : bool := ((- 2 ^ 63 <=? n) && (n <? 2 ^ 63))%Z.

(** The ids a request hands to [Query.get] fit a 64-bit integer. *)
Definition areq_sized (a : areq) : bool :=
  match a with
  | AGetCamper id | AUpdateCamper id _ _ | ADeleteActivity id => int64_ok (Z.of_N id)
  | ACreateSignup cid aid _ => default true (int64_ok <$> cid) && default true (int64_ok <$> aid)
  | _ => true
  end.

(** ** Responses *)

Definition body_refines (b : body) (ab : abody) : Prop :=
  match ab with
  | AEmpty => b = BEmpty
  | AErrors => b = resp_body validation_error_response
  | AError msg => b = error_json msg
  | AEntity fs => exists kvs, b = BJson (JObj kvs) /\ Forall (fun kv => obj_get kvs kv.1 = Some kv.2) fs
  | ARows n => exists js, b = BJson (JArr js) /\ length js = n
  end.

Definition resp_refines (r : response) (ar : aresp) : Prop :=
  status r = ar_status ar /\ body_refines (resp_body r) (ar_body ar).

(** One request: the response is one the contract allows and the new
    store abstracts to the state the contract reaches. *)
Definition refines_at (d : db) (a : areq) : Prop :=
  exists ar, spec_step (abs d) a ar (abs (handle d (encode a)).2) /\
             resp_refines (handle d (encode a)).1 ar.

(** ** Helpers *)

Lemma int64_ok_in n : int64_ok n = true -> in_int64 n.
Proof. intros [H1 H2]%andb_true_iff. apply Z.leb_le in H1. apply Z.ltb_lt in H2. split; lia. Qed.

Lemma in_int64_bindable n : in_int64 n -> sqlite_bindable (JInt n) = true.
Proof. intros Hn. by apply bool_decide_eq_true_2. Qed.


(** Match a URL with a printed id: reduce the rule table to the
    converter call, then read the id back. *)
Ltac url_dec :=
  cbn [encode req_method req_path]; unfold match_url; unfold_rules; cbn -[int_converter dec_string];
  rewrite int_converter_dec; reflexivity.

Lemma camper_view_shows d c :
  body_refines (BJson (camper_view d c)) (AEntity (camper_fields (Camper.id c) (acamper_of c))).
Proof. eexists; split; [reflexivity|]. repeat constructor. Qed.

Lemma signup_view_shows d s :
  body_refines (BJson (signup_view d s)) (AEntity (signup_fields (Signup.id s) (asignup_of s))).
Proof. eexists; split; [reflexivity|]. repeat constructor. Qed.

Lemma list_shows {A} (f : A -> json) (l : list A) n :
  length l = n -> body_refines (BJson (JArr (map f l))) (ARows n).
Proof. intros Hl. eexists; split; [reflexivity|]. by rewrite length_map. Qed.

(** ** Each request of the table *)

Section refinement.
Context (d : db) (Hwf : db_wf d).

Lemma refine_list_campers : refines_at d AListCampers.
Proof.
  unfold refines_at. rewrite (handle_matched d _ EListCampers) by reflexivity. simpl.
  eexists; split; [constructor|]. split; [done|]. apply list_shows. by rewrite abs_campers_size.
Qed.

Lemma refine_list_activities : refines_at d AListActivities.
Proof.
  unfold refines_at. rewrite (handle_matched d _ EListActivities) by reflexivity. simpl.
  eexists; split; [constructor|]. split; [done|]. apply list_shows. by rewrite abs_activities_size.
Qed.

Lemma refine_get_camper id : int64_ok (Z.of_N id) = true -> refines_at d (AGetCamper id).
Proof.
  intros Hid%int64_ok_in. unfold refines_at.
  rewrite (handle_matched d _ (EGetCamperById (Z.of_N id))) by url_dec. simpl.
  rewrite get_camper_by_id_spec by exact Hid.
  destruct (find_camper d (Z.of_N id)) as [c|] eqn:Hc; simpl.
  - eexists; split.
    + constructor. by rewrite abs_campers_lookup, Hc.
    + split; [done|]. apply find_camper_Some in Hc as [_ Hcid].
      rewrite <- Hcid. apply camper_view_shows.
  - eexists; split; [constructor; by rewrite abs_campers_lookup, Hc|done].
Qed.

Lemma refine_delete_activity id : int64_ok (Z.of_N id) = true -> refines_at d (ADeleteActivity id).
Proof.
  intros Hid%int64_ok_in. unfold refines_at.
  rewrite (handle_matched d _ (EDeleteActivity (Z.of_N id))) by url_dec. simpl.
  unfold delete_activity. rewrite query_get_activity_int by exact Hid. simpl.
  destruct (find_activity d (Z.of_N id)) as [a|] eqn:Ha; simpl.
  - apply find_activity_Some in Ha as Ha'. destruct Ha' as [_ ->].
    rewrite abs_delete_activity_cascade by exact Hwf.
    eexists; split; [econstructor; by rewrite abs_activities_lookup, Ha|done].
  - eexists; split; [constructor; by rewrite abs_activities_lookup, Ha|done].
Qed.

Lemma refine_unmatched p : spec_path p = false -> path_clean p = true -> refines_at d (AUnmatched p).
Proof.
  intros Hp Hc. unfold refines_at, handle. simpl. rewrite match_url_no_rule by assumption. simpl.
  eexists; split; [by constructor|done].
Qed.
End refinement.

(** ** The validators of models.py on the values of the contract *)

Lemma row_name_ok_str s : row_name_ok (JStr s) = name_valid s.
Proof. unfold row_name_ok, name_valid. simpl. apply andb_true_r. Qed.

Lemma row_age_ok_int n : row_age_ok (JInt n) = age_valid n.
Proof. apply in_range_int. Qed.

Lemma row_time_ok_int n : row_time_ok (JInt n) = time_valid n.
Proof. apply in_range_int. Qed.

#[local] Hint Rewrite row_name_ok_str row_age_ok_int row_time_ok_int : camp_rw.

Lemma camper_body_get name age :
  obj_get (camper_body name age) "name" = JStr <$> name /\
  obj_get (camper_body name age) "age" = JInt <$> age.
Proof. by destruct name, age. Qed.

Lemma signup_body_get cid aid t :
  field (signup_body cid aid t) "camper_id" = default JNull (JInt <$> cid) /\
  field (signup_body cid aid t) "activity_id" = default JNull (JInt <$> aid) /\
  field (signup_body cid aid t) "time" = default JNull (JInt <$> t).
Proof. by destruct cid, aid, t. Qed.

Lemma camper_input_ok_row name age :
  row_name_ok (field (camper_body name age) "name") && row_age_ok (field (camper_body name age) "age")
  = camper_input_ok name age.
Proof.
  unfold field. destruct (camper_body_get name age) as [-> ->].
  destruct name, age; simpl; autorewrite with camp_rw; by rewrite ?andb_false_r.
Qed.

Lemma patch_ok_body name age : patch_ok (camper_body name age) = patch_input_ok name age.
Proof.
  unfold patch_ok. destruct (camper_body_get name age) as [-> ->].
  by destruct name, age; simpl; autorewrite with camp_rw.
Qed.

(** The row a PATCH stores: the supplied fields replace the stored ones,
    which the affinity leaves as they are. *)
Lemma patched_body c name age :
  camper_ok c = true ->
  Camper.id (patched c (camper_body name age)) = Camper.id c /\
  acamper_of (stored_camper (patched c (camper_body name age))) = apatch (acamper_of c) name age.
Proof.
  intros (Hn & Ha)%camper_ok_normal. unfold patched.
  destruct (camper_body_get name age) as [-> ->]. split; [done|].
  destruct name, age; unfold stored_camper, acamper_of, apatch; simpl;
    by rewrite ?text_affinity_id, ?integer_affinity_id.
Qed.

Lemma query_get_camper_opt d cid :
  default true (int64_ok <$> cid) = true ->
  query_get_camper d (default JNull (JInt <$> cid)) = Ok (cid ≫= find_camper d).
Proof. destruct cid as [k|]; simpl; [|done]. intros Hk%int64_ok_in. by apply query_get_camper_int. Qed.

Lemma query_get_activity_opt d aid :
  default true (int64_ok <$> aid) = true ->
  query_get_activity d (default JNull (JInt <$> aid)) = Ok (aid ≫= find_activity d).
Proof. destruct aid as [k|]; simpl; [|done]. intros Hk%int64_ok_in. by apply query_get_activity_int. Qed.

Lemma signup_input_ok_abs d cid aid t :
  signup_input_ok (abs d) cid aid t =
  match cid ≫= find_camper d, aid ≫= find_activity d, t with
  | Some _, Some _, Some t => time_valid t
  | _, _, _ => false
  end.
Proof.
  destruct cid as [k|], aid as [k'|], t as [tt|]; cbn [signup_input_ok mbind option_bind]; try done;
    rewrite ?abs_campers_lookup, ?abs_activities_lookup;
    repeat destruct (find_camper _ _); repeat destruct (find_activity _ _); done.
Qed.

(** Fresh ids of the store are fresh in the maps. *)
Lemma abs_campers_fresh d : a_campers (abs d) !! next_rowid (camper_ids d) = None.
Proof. apply table_map_None, next_rowid_fresh. Qed.

Lemma abs_signups_fresh d : a_signups (abs d) !! next_rowid (signup_ids d) = None.
Proof. apply table_map_None, next_rowid_fresh. Qed.


Section refinement_writes.
Context (d : db) (Hwf : db_wf d).

Lemma refine_create_camper name age : refines_at d (ACreateCamper name age).
Proof.
  unfold refines_at. rewrite (handle_matched d _ ECreateCamper) by reflexivity.
  cbn [run_endpoint req_data encode]. rewrite create_camper_obj, camper_input_ok_row.
  destruct (camper_input_ok name age) eqn:Hok; [|eexists; split; [by constructor|done]].
  destruct name as [s|], age as [n|]; try discriminate.
  pose proof (abs_insert_camper d (JStr s) (JInt n)) as Habs.
  unfold field. destruct (camper_body_get (Some s) (Some n)) as [-> ->].
  cbn [fmap option_fmap option_map default from_option id].
  destruct (insert_camper d (JStr s) (JInt n)) as [c d'] eqn:Hins.
  cbn [snd] in Habs. unfold insert_camper in Hins. injection Hins as <- <-.
  cbn [finish fst snd]. rewrite Habs. eexists; split.
  - apply SCreateCamper; [exact Hok|apply abs_campers_fresh].
  - split; [done|]. apply (camper_view_shows _ (Camper.mk _ _ _)).
Qed.

Lemma refine_update_camper id name age :
  int64_ok (Z.of_N id) = true -> refines_at d (AUpdateCamper id name age).
Proof.
  intros Hid%int64_ok_in. unfold refines_at.
  rewrite (handle_matched d _ (EUpdateCamper (Z.of_N id))) by url_dec.
  cbn [run_endpoint req_data encode]. unfold update_camper.
  rewrite query_get_camper_int by exact Hid. cbn [rbind].
  destruct (find_camper d (Z.of_N id)) as [c|] eqn:Hc;
    [|cbn [finish fst snd]; eexists; split; [constructor; by rewrite abs_campers_lookup, Hc|done]].
  cbn [rbind get_json]. rewrite patch_flush, patch_ok_body.
  assert (Hlk : a_campers (abs d) !! Z.of_N id = Some (acamper_of c)) by (by rewrite abs_campers_lookup, Hc).
  destruct (patch_input_ok name age) eqn:Hok;
    [|cbn [finish fst snd]; eexists; split; [by eapply SUpdateCamperInvalid|done]].
  cbn [try_except finish fst snd]. rewrite to_dict_camper.
  apply find_camper_Some in Hc as Hc'. destruct Hc' as [Hcin Hcid].
  assert (Hok' : camper_ok c = true).
  { destruct Hwf as (_ & _ & _ & Hcs & _). by eapply Forall_forall in Hcs. }
  destruct (patched_body c name age Hok') as [Hpid Hpa].
  assert (Hin : Camper.id (patched c (camper_body name age)) ∈ camper_ids d).
  { rewrite Hpid, Hcid. exact (find_camper_id _ _ _ Hc). }
  rewrite refresh_camper_update, abs_update_camper_row by exact Hin.
  rewrite Hpid, Hpa, Hcid. eexists; split.
  - by apply SUpdateCamper.
  - split; [done|]. rewrite <- Hcid, <- Hpid, <- Hpa. apply camper_view_shows.
Qed.

Lemma refine_create_signup cid aid t :
  areq_sized (ACreateSignup cid aid t) = true -> refines_at d (ACreateSignup cid aid t).
Proof.
  intros [Hc Ha]%andb_true_iff. unfold refines_at.
  rewrite (handle_matched d _ ECreateSignup) by reflexivity. cbn [run_endpoint req_data encode].
  destruct (signup_body_get cid aid t) as (Hfc & Hfa & Hft).
  pose proof (query_get_camper_opt d cid Hc) as Qc. rewrite <- Hfc in Qc.
  pose proof (query_get_activity_opt d aid Ha) as Qa. rewrite <- Hfa in Qa.
  pose proof (signup_input_ok_abs d cid aid t) as Hin.
  destruct (cid ≫= find_camper d) as [c|] eqn:Ec;
    [|rewrite (create_signup_no_camper d _ Qc); eexists; split; [by constructor|done]].
  destruct (aid ≫= find_activity d) as [a|] eqn:Ea;
    [|rewrite (create_signup_no_activity d _ c Qc Qa); eexists; split; [by constructor|done]].
  rewrite (create_signup_found d _ c a Qc Qa), Hft, Hfc, Hfa.
  destruct cid as [k|], aid as [k'|]; try discriminate. cbn [mbind option_bind] in Ec, Ea.
  apply find_camper_Some in Ec as [_ Hk]. apply find_activity_Some in Ea as [_ Hk'].
  simpl in Hc, Ha. cbn [default from_option id fmap option_fmap option_map].
  rewrite (in_int64_bindable k), (in_int64_bindable k') by (by apply int64_ok_in).
  rewrite !andb_true_r.
  destruct t as [tt|]; cbn [default from_option id fmap option_fmap option_map];
    [|eexists; split; [by constructor|done]].
  rewrite row_time_ok_int. destruct (time_valid tt) eqn:Ht;
    [|eexists; split; [by constructor|done]].
  pose proof (abs_insert_signup d (JInt tt) (Camper.id c) (Activity.id a)) as Habs.
  destruct (insert_signup d (JInt tt) (Camper.id c) (Activity.id a)) as [s d'] eqn:Hins.
  cbn [snd] in Habs. unfold insert_signup in Hins. injection Hins as <- <-.
  cbn [finish fst snd]. rewrite Habs, Hk, Hk'. eexists; split.
  - apply SCreateSignup; [exact Hin|apply abs_signups_fresh].
  - split; [done|]. rewrite <- Hk, <- Hk'. apply (signup_view_shows _ (Signup.mk _ _ _ _)).
Qed.
End refinement_writes.

(** ** The server refines the contract *)

Definition areq_ok (a : areq) : bool := areq_wf a && areq_sized a.

Lemma refine_step d a : db_wf d -> areq_ok a = true -> refines_at d a.
Proof.
  intros Hwf [Hw Hs]%andb_true_iff. destruct a; simpl in Hw, Hs.
  - by apply refine_list_campers.
  - by apply refine_get_camper.
  - by apply refine_create_camper.
  - by apply refine_update_camper.
  - by apply refine_list_activities.
  - by apply refine_delete_activity.
  - by apply refine_create_signup.
  - apply andb_true_iff in Hw as [Hw Hc]. apply refine_unmatched; [by apply negb_true_iff|exact Hc].
Qed.

Lemma handle_wf d r : db_wf d -> db_wf (handle d r).2.
Proof. intros Hwf. destruct (handle_write d r) as [->|[_ H]]; auto. Qed.

(** C22: refinement.  From a well-formed store, every sequence of
    requests of the contract (typed fields, ids of at most 64 bits) is
    answered by the server with responses the contract allows, request
    by request, and the store it leaves is the abstraction of the state
    the contract reaches: a forward simulation of [Contract.spec_step]
    by [App.handle] through [abs]. *)
Theorem serve_refines d rs :
  db_wf d -> Forall (fun a => areq_ok a = true) rs ->
  exists ars, spec_trace (abs d) rs ars (abs (serve d (map encode rs)).2) /\
              Forall2 resp_refines (serve d (map encode rs)).1 ars.
Proof.
  intros Hwf Hok. unfold serve. rewrite run_all_map.
  destruct (run_all_simulates (fun d a => handle d (encode a)) spec_step abs db_wf
              (fun a => areq_ok a = true) resp_refines (fun d a => handle_wf d (encode a))
              refine_step d rs Hwf Hok) as (ars & Htr & Hrel & _).
  eauto.
Qed.

(** ** Ids beyond 64 bits *)

Lemma identity_key_huge n : ~ in_int64 n -> identity_key (JInt n) = raise DBAPIError.
Proof. intros Hn. unfold identity_key, scalar_key. simpl. by rewrite bool_decide_eq_false_2. Qed.

(** C23: an id the [int] converter accepts but SQLite cannot bind makes
    [Query.get] raise outside every [try:], so GET and PATCH
    /campers/<id>, DELETE /activities/<id> and a POST /signups naming
    such a camper answer 500 where the specification promises 404 (or
    400) for an absent row; the store is unchanged. *)
Theorem handle_huge_id_500 d k name age n aid t :
  (2 ^ 63 <= Z.of_N k)%Z -> (2 ^ 63 <= n)%Z ->
  handle d (encode (AGetCamper k)) = (mkresp 500 (BPage 500), d) /\
  handle d (encode (AUpdateCamper k name age)) = (mkresp 500 (BPage 500), d) /\
  handle d (encode (ADeleteActivity k)) = (mkresp 500 (BPage 500), d) /\
  handle d (encode (ACreateSignup (Some n) aid t)) = (mkresp 500 (BPage 500), d).
Proof.
  intros Hid Hn.
  assert (Hi : ~ in_int64 (Z.of_N k)) by (unfold in_int64; lia).
  assert (Hn' : ~ in_int64 n) by (unfold in_int64; lia).
  split; [|split; [|split]].
  - rewrite (handle_matched d _ (EGetCamperById (Z.of_N k))) by url_dec.
    cbn [run_endpoint]. unfold get_camper_by_id, query_get_camper.
    by rewrite identity_key_huge.
  - rewrite (handle_matched d _ (EUpdateCamper (Z.of_N k))) by url_dec.
    cbn [run_endpoint]. unfold update_camper, query_get_camper.
    by rewrite identity_key_huge.
  - rewrite (handle_matched d _ (EDeleteActivity (Z.of_N k))) by url_dec.
    cbn [run_endpoint]. unfold delete_activity, query_get_activity.
    by rewrite identity_key_huge.
  - rewrite (handle_matched d _ ECreateSignup) by reflexivity.
    cbn [run_endpoint req_data encode]. unfold create_signup.
    destruct (signup_body_get (Some n) aid t) as (Hfc & _). unfold field in Hfc.
    cbn [get_json rbind py_get]. rewrite Hfc. cbn [rbind default from_option id fmap option_fmap option_map].
    unfold query_get_camper. by rewrite identity_key_huge.
Qed.

(** ** Witnesses *)

Definition sample_requests : list areq :=
  [ACreateCamper (Some "Ann"%string) (Some 10%Z); AUpdateCamper 2 None (Some 25%Z);
   AUpdateCamper 2 (Some "Anne"%string) None; AGetCamper 2;
   ACreateSignup (Some 2%Z) (Some 1%Z) (Some 14%Z); ACreateSignup (Some 2%Z) (Some 7%Z) (Some 14%Z);
   ADeleteActivity 1; ADeleteActivity 1; AListCampers; AUnmatched ["nonexistent"%string]].

Lemma serve_refines_witness :
  db_wf sample_db /\ Forall (fun a => areq_ok a = true) sample_requests /\
  exists ars, spec_trace (abs sample_db) sample_requests ars
                (abs (serve sample_db (map encode sample_requests)).2) /\
              Forall2 resp_refines (serve sample_db (map encode sample_requests)).1 ars.
Proof.
  assert (Hwf := sample_db_wf).
  assert (Hok : Forall (fun a => areq_ok a = true) sample_requests) by (by repeat constructor).
  split; [exact Hwf|]. split; [exact Hok|]. apply serve_refines; assumption.
Defined.

Lemma handle_huge_id_500_witness :
  (2 ^ 63 <= Z.of_N 9223372036854775808)%Z /\ (2 ^ 63 <= 9223372036854775808)%Z /\
  handle sample_db (encode (AGetCamper 9223372036854775808)) = (mkresp 500 (BPage 500), sample_db) /\
  handle sample_db (encode (AUpdateCamper 9223372036854775808 None None)) =
    (mkresp 500 (BPage 500), sample_db) /\
  handle sample_db (encode (ADeleteActivity 9223372036854775808)) = (mkresp 500 (BPage 500), sample_db) /\
  handle sample_db (encode (ACreateSignup (Some 9223372036854775808%Z) None None)) =
    (mkresp 500 (BPage 500), sample_db).
Proof.
  split; [lia|]. split; [lia|]. apply handle_huge_id_500; lia.
Defined.

(** ** Ids are reused after a cascade *)

(** The next signup id after the cascade is at most the largest id of
    the signups before it, when that signup was deleted. *)
Lemma next_signup_id_after_cascade d s :
  db_wf d -> s ∈ signups d -> Forall (fun s' => Signup.id s' <= Signup.id s)%Z (signups d) ->
  (next_rowid (signup_ids (delete_activity_cascade d (Signup.activity_id s))) <= Signup.id s)%Z.
Proof.
  intros (_ & _ & [Hnd Hpos] & _) Hs Hmax.
  assert (H0 : (0 < Signup.id s)%Z).
  { eapply Forall_forall in Hpos; [exact Hpos|]. apply list_elem_of_fmap. eauto. }
  enough (next_rowid (signup_ids (delete_activity_cascade d (Signup.activity_id s))) <= (Signup.id s - 1) + 1)%Z
    by lia.
  apply next_rowid_le; [|lia]. apply Forall_forall. unfold signup_ids, delete_activity_cascade; simpl.
  intros i (s' & Hs' & Hne & ->)%elem_of_map_filter.
  apply negb_true_iff, Z.eqb_neq in Hne.
  eapply Forall_forall in Hmax; [|exact Hs']. cbv beta in Hmax.
  destruct (Z.eq_dec (Signup.id s') (Signup.id s)) as [E|E]; [|lia].
  exfalso. apply Hne. f_equal. exact (NoDup_map_eq _ _ _ _ Hnd Hs' Hs E).
Qed.

(** C24: ids are not unique over the life of the store: after DELETE
    /activities/<a> removes, by the cascade, the signup with the
    largest id, the next POST /signups is answered 201 with a signup
    whose id is at most that of the deleted one, so a client can be
    handed the same id twice.  (SQLite without AUTOINCREMENT allocates
    the largest live rowid plus one.) *)
Theorem signup_id_reused d s cid aid t :
  db_wf d -> s ∈ signups d -> Forall (fun s' => Signup.id s' <= Signup.id s)%Z (signups d) ->
  in_int64 (Signup.activity_id s) -> in_int64 cid -> in_int64 aid ->
  find_camper d cid <> None -> find_activity d aid <> None -> aid <> Signup.activity_id s ->
  time_valid t = true ->
  let d1 := (handle d (encode (ADeleteActivity (Z.to_N (Signup.activity_id s))))).2 in
  s ∉ signups d1 /\
  exists s' d2, handle d1 (encode (ACreateSignup (Some cid) (Some aid) (Some t))) =
                (mkresp 201 (BJson (signup_view d2 s')), d2) /\ (Signup.id s' <= Signup.id s)%Z.
Proof.
  intros Hwf Hs Hmax Ha64 Hc64 Hai64 Hc Ha Hne Ht d1.
  assert (Hin : Signup.activity_id s ∈ activity_ids d).
  { destruct Hwf as (_ & _ & _ & _ & _ & Hr). by eapply Forall_forall in Hr as [_ ?]. }
  assert (Hpos : (0 < Signup.activity_id s)%Z).
  { destruct Hwf as (_ & [_ Hp] & _). by eapply Forall_forall in Hp. }
  assert (Hd1 : d1 = delete_activity_cascade d (Signup.activity_id s)).
  { subst d1. rewrite (handle_matched d _ (EDeleteActivity (Z.of_N (Z.to_N (Signup.activity_id s)))))
      by url_dec.
    cbn [run_endpoint]. rewrite Z2N.id by lia. unfold delete_activity.
    rewrite query_get_activity_int by exact Ha64. cbn [rbind].
    destruct (find_activity d (Signup.activity_id s)) as [act|] eqn:Hf.
    - apply find_activity_Some in Hf as [_ Hid]. simpl. by rewrite Hid.
    - by apply find_activity_None in Hf. }
  rewrite Hd1. split.
  - unfold delete_activity_cascade; simpl. intros Hs'%list_elem_of_In.
    apply filter_In in Hs' as [_ Hf]. by rewrite Z.eqb_refl in Hf.
  - rewrite (handle_matched _ _ ECreateSignup) by reflexivity. cbn [run_endpoint req_data encode].
    destruct (signup_body_get (Some cid) (Some aid) (Some t)) as (Hfc & Hfa & Hft).
    destruct (find_camper d cid) as [c|] eqn:Fc; [|done].
    destruct (find_activity d aid) as [act|] eqn:Fa; [|done].
    rewrite (create_signup_found _ _ c act).
    + rewrite Hft, Hfc, Hfa. cbn [default from_option id fmap option_fmap option_map].
      rewrite row_time_ok_int, Ht, !in_int64_bindable by assumption. cbn.
      do 2 eexists. split; [reflexivity|]. simpl. by apply next_signup_id_after_cascade.
    + rewrite Hfc. cbn [default from_option id fmap option_fmap option_map].
      rewrite query_get_camper_int by exact Hc64. unfold find_camper in *; simpl. by rewrite Fc.
    + rewrite Hfa. cbn [default from_option id fmap option_fmap option_map].
      rewrite query_get_activity_int by exact Hai64. rewrite find_activity_cascade, (proj2 (Z.eqb_neq _ _) (not_eq_sym Hne)).
      by rewrite Fa.
Qed.

Definition reuse_db : db :=
  mkdb [Camper.mk 1 (JStr "Sam") (JInt 12)]
       [Activity.mk 1 (JStr "Canoeing") (JInt 3); Activity.mk 2 (JStr "Archery") (JInt 2)]
       [Signup.mk 1 (JInt 9) 1 1; Signup.mk 2 (JInt 10) 1 2]%string.

Definition reuse_signup : Signup.t := Signup.mk 2 (JInt 10) 1 2.

Lemma signup_id_reused_witness :
  db_wf reuse_db /\ reuse_signup ∈ signups reuse_db /\
  Forall (fun s' => Signup.id s' <= Signup.id reuse_signup)%Z (signups reuse_db) /\
  in_int64 (Signup.activity_id reuse_signup) /\ in_int64 1 /\ in_int64 1 /\
  find_camper reuse_db 1 <> None /\ find_activity reuse_db 1 <> None /\
  1%Z <> Signup.activity_id reuse_signup /\ time_valid 11 = true /\
  (let d1 := (handle reuse_db (encode (ADeleteActivity (Z.to_N (Signup.activity_id reuse_signup))))).2 in
   reuse_signup ∉ signups d1 /\
   exists s' d2, handle d1 (encode (ACreateSignup (Some 1%Z) (Some 1%Z) (Some 11%Z))) =
                 (mkresp 201 (BJson (signup_view d2 s')), d2) /\
                 (Signup.id s' <= Signup.id reuse_signup)%Z).
Proof.
  assert (Hwf : db_wf reuse_db) by (apply (bool_decide_unpack _); vm_compute; reflexivity).
  assert (Hs : reuse_signup ∈ signups reuse_db) by (right; left).
  assert (Hmax : Forall (fun s' => Signup.id s' <= Signup.id reuse_signup)%Z (signups reuse_db))
    by (repeat constructor; simpl; lia).
  assert (Hb : in_int64 (Signup.activity_id reuse_signup)) by (unfold in_int64; simpl; lia).
  assert (H1 : in_int64 1) by (unfold in_int64; lia).
  assert (Hc : find_camper reuse_db 1 <> None) by discriminate.
  assert (Ha : find_activity reuse_db 1 <> None) by discriminate.
  assert (Hne : 1%Z <> Signup.activity_id reuse_signup) by discriminate.
  do 10 (split; [assumption || reflexivity|]).
  exact (signup_id_reused reuse_db reuse_signup 1 1 11 Hwf Hs Hmax Hb H1 H1 Hc Ha Hne eq_refl).
Defined.
